(** * Policy operations of tfc-workflows-tooling: a shallow embedding

    The development embeds the PolicyService core of the repository:
    - the entity types, their [Validate] methods and the sentinel errors
      (internal/cloud: policy_types.go and policy_errors.go);
    - [OverridePolicyOptions.Validate] as the service contract writes it
      (specs/001-policy-operations/contracts);
    - the two normalizers [mapFromTaskStage] / [mapFromPolicyCheck]
      (specs/001-policy-operations/data-model.md), the mapping of
      [getPolicyFromTaskStages] and [getPolicyFromPolicyCheck]
      (specs/001-policy-operations/research.md);
    - the override orchestration [OverridePolicy] and the wait loop
      [WaitForPolicyDecision] (research.md), over a model of the gateway
      and of the retry loop of the go-retry dependency;
    - the retrieval [GetPolicyEvaluation] with the search of the policy
      stage of [getPolicyFromTaskStages] (research.md), and the helpers
      [isTerminalStatus], [canOverride] and [PolicyOverride.Validate] of
      data-model.md.

    Go's [int] is a 64-bit two's complement integer: it is modelled as [Z]
    with the wrap-around written out.  Go strings are byte strings: they are
    modelled as [string] (a list of 8-bit [ascii]), so that [len] is
    [String.length].  A Go [error] is [option string]: [None] is [nil] and
    [Some msg] is an error whose [Error()] text is [msg]. *)

From Stdlib Require Import ZArith List String Ascii Bool Lia DecimalString.
Import ListNotations.

Local Open Scope string_scope.
Local Open Scope list_scope.
Local Open Scope Z_scope.

(** ** Go integers *)

Module GoInt.

Definition min_int : Z := - 2 ^ 63.
Definition max_int : Z := 2 ^ 63 - 1.

(** Reduction of a mathematical integer to the 64-bit signed range. *)
Definition wrap (z : Z) : Z := (z + 2 ^ 63) mod 2 ^ 64 - 2 ^ 63.

(** [a + b] on Go's [int]. *)
Definition add (a b : Z) : Z := wrap (a + b).

(** [x++] on Go's [int]. *)
Definition incr (a : Z) : Z := add a 1.

Definition in_range (z : Z) : Prop := min_int <= z <= max_int.

(** [%d] of [fmt]. *)
Definition format_d (z : Z) : string := NilZero.string_of_int (Z.to_int z).

End GoInt.

(** ** Go errors *)

Definition error : Type := option string.

(** The [nil] error. *)
Definition nil : error := None.

Definition errors_New (msg : string) : error := Some msg.

(** [strings.Contains(s, sub)] as a proposition. *)
Definition Contains (s sub : string) : Prop :=
  exists pre post : string, s = (pre ++ sub ++ post)%string.

(** ** Regular expressions

    [regexp.MustCompile(re).MatchString(s)] for an anchored expression
    [^...$] is a match of the whole string; it is computed with Brzozowski
    derivatives. *)

Module Regexp.

Inductive t : Type :=
| Void : t
| Eps : t
| Class (p : ascii -> bool) : t
| Seq (r1 r2 : t) : t
| Alt (r1 r2 : t) : t
| Star (r : t) : t.

Definition Plus (r : t) : t := Seq r (Star r).

Fixpoint nullable (r : t) : bool :=
  match r with
  | Void => false
  | Eps => true
  | Class _ => false
  | Seq r1 r2 => nullable r1 && nullable r2
  | Alt r1 r2 => nullable r1 || nullable r2
  | Star _ => true
  end.

Fixpoint deriv (c : ascii) (r : t) : t :=
  match r with
  | Void => Void
  | Eps => Void
  | Class p => if p c then Eps else Void
  | Seq r1 r2 =>
      if nullable r1
      then Alt (Seq (deriv c r1) r2) (deriv c r2)
      else Seq (deriv c r1) r2
  | Alt r1 r2 => Alt (deriv c r1) (deriv c r2)
  | Star r1 => Seq (deriv c r1) (Star r1)
  end.

Fixpoint MatchString (r : t) (s : string) : bool :=
  match s with
  | EmptyString => nullable r
  | String c s' => MatchString (deriv c r) s'
  end.

Definition between (lo hi c : ascii) : bool :=
  (nat_of_ascii lo <=? nat_of_ascii c)%nat && (nat_of_ascii c <=? nat_of_ascii hi)%nat.

(** [[a-z]] *)
Definition lower : t := Class (between "a" "z").

(** [[a-zA-Z0-9]] *)
Definition alnum : t :=
  Class (fun c => between "a" "z" c || between "A" "Z" c || between "0" "9" c).

(** [-] *)
Definition dash : t := Class (Ascii.eqb "-").

End Regexp.

(** ** Entities of internal/cloud/policy_types.go *)

(** [validStringID]: the pattern is [^[a-z]+-[a-zA-Z0-9]+$]. *)
Definition validStringID (id : string) : bool :=
  if String.eqb id "" then false
  else Regexp.MatchString
         (Regexp.Seq (Regexp.Plus Regexp.lower)
            (Regexp.Seq Regexp.dash (Regexp.Plus Regexp.alnum))) id.

Module PolicyDetail.

Record t : Type := Build {
  PolicyName : string;
  EnforcementLevel : string;
  Status : string;
  Description : string
}.

Definition Validate (pd : t) : error :=
  if String.eqb (PolicyName pd) "" then
    Some "policy name must not be empty"
  else if negb (String.eqb (EnforcementLevel pd) "mandatory")
          && negb (String.eqb (EnforcementLevel pd) "advisory") then
    Some ("invalid enforcement level: " ++ EnforcementLevel pd)%string
  else if negb (String.eqb (Status pd) "failed")
          && negb (String.eqb (Status pd) "errored") then
    Some ("invalid status: " ++ Status pd)%string
  else nil.

End PolicyDetail.

Module PolicyEvaluation.

Record t : Type := Build {
  RunID : string;
  PolicyStageID : string;
  PolicyCheckID : string;
  TotalCount : Z;
  PassedCount : Z;
  AdvisoryFailedCount : Z;
  MandatoryFailedCount : Z;
  ErroredCount : Z;
  FailedPolicies : list PolicyDetail.t;
  Status : string;
  RequiresOverride : bool
}.

(** Assignments to single fields, as the mapping functions perform them. *)
Definition set_TotalCount (v : Z) (pe : t) : t :=
  Build (RunID pe) (PolicyStageID pe) (PolicyCheckID pe) v (PassedCount pe)
    (AdvisoryFailedCount pe) (MandatoryFailedCount pe) (ErroredCount pe)
    (FailedPolicies pe) (Status pe) (RequiresOverride pe).

Definition set_PassedCount (v : Z) (pe : t) : t :=
  Build (RunID pe) (PolicyStageID pe) (PolicyCheckID pe) (TotalCount pe) v
    (AdvisoryFailedCount pe) (MandatoryFailedCount pe) (ErroredCount pe)
    (FailedPolicies pe) (Status pe) (RequiresOverride pe).

Definition set_AdvisoryFailedCount (v : Z) (pe : t) : t :=
  Build (RunID pe) (PolicyStageID pe) (PolicyCheckID pe) (TotalCount pe)
    (PassedCount pe) v (MandatoryFailedCount pe) (ErroredCount pe)
    (FailedPolicies pe) (Status pe) (RequiresOverride pe).

Definition set_MandatoryFailedCount (v : Z) (pe : t) : t :=
  Build (RunID pe) (PolicyStageID pe) (PolicyCheckID pe) (TotalCount pe)
    (PassedCount pe) (AdvisoryFailedCount pe) v (ErroredCount pe)
    (FailedPolicies pe) (Status pe) (RequiresOverride pe).

Definition set_ErroredCount (v : Z) (pe : t) : t :=
  Build (RunID pe) (PolicyStageID pe) (PolicyCheckID pe) (TotalCount pe)
    (PassedCount pe) (AdvisoryFailedCount pe) (MandatoryFailedCount pe) v
    (FailedPolicies pe) (Status pe) (RequiresOverride pe).

Definition set_FailedPolicies (v : list PolicyDetail.t) (pe : t) : t :=
  Build (RunID pe) (PolicyStageID pe) (PolicyCheckID pe) (TotalCount pe)
    (PassedCount pe) (AdvisoryFailedCount pe) (MandatoryFailedCount pe)
    (ErroredCount pe) v (Status pe) (RequiresOverride pe).

Definition set_RequiresOverride (v : bool) (pe : t) : t :=
  Build (RunID pe) (PolicyStageID pe) (PolicyCheckID pe) (TotalCount pe)
    (PassedCount pe) (AdvisoryFailedCount pe) (MandatoryFailedCount pe)
    (ErroredCount pe) (FailedPolicies pe) (Status pe) v.

(** [func (pe *PolicyEvaluation) Validate() error] *)
Definition Validate (pe : t) : error :=
  if negb (validStringID (RunID pe)) then
    Some ("invalid run ID: " ++ RunID pe)%string
  else if String.eqb (PolicyStageID pe) "" && String.eqb (PolicyCheckID pe) "" then
    Some "either PolicyStageID or PolicyCheckID must be set"
  else if negb (String.eqb (PolicyStageID pe) "")
          && negb (String.eqb (PolicyCheckID pe) "") then
    Some "PolicyStageID and PolicyCheckID are mutually exclusive"
  else if (TotalCount pe <? 0) || (PassedCount pe <? 0)
          || (AdvisoryFailedCount pe <? 0) || (MandatoryFailedCount pe <? 0)
          || (ErroredCount pe <? 0) then
    Some "counts must be non-negative"
  else
    let expectedTotal :=
      GoInt.add (GoInt.add (GoInt.add (PassedCount pe) (AdvisoryFailedCount pe))
                   (MandatoryFailedCount pe)) (ErroredCount pe) in
    if negb (TotalCount pe =? expectedTotal) then
      Some ("total count mismatch: expected " ++ GoInt.format_d expectedTotal
            ++ ", got " ++ GoInt.format_d (TotalCount pe))%string
    else if negb (Bool.eqb (RequiresOverride pe) (0 <? MandatoryFailedCount pe)) then
      Some "RequiresOverride mismatch with MandatoryFailedCount"
    else nil.

End PolicyEvaluation.

Module PolicyOverride.

Record t : Type := Build {
  RunID : string;
  PolicyStageID : string;
  PolicyCheckID : string;
  Justification : string;
  InitialStatus : string;
  FinalStatus : string;
  OverrideComplete : bool;
  (** [time.Time], as nanoseconds; the zero value is [0]. *)
  Timestamp : Z
}.

Definition validFinalStatuses : list string :=
  [ "policy_override"; "post_plan_completed"; "apply_queued"; "discarded";
    "errored" ].

(** The loop [for _, s := range validFinalStatuses] with its [break]. *)
Fixpoint final_status_loop (FinalStatus : string) (l : list string) : bool :=
  match l with
  | [] => false
  | s :: rest =>
      if String.eqb FinalStatus s then true else final_status_loop FinalStatus rest
  end.

(** [func (po *PolicyOverride) Validate() error] *)
Definition Validate (po : t) : error :=
  if negb (validStringID (RunID po)) then
    Some ("invalid run ID: " ++ RunID po)%string
  else if String.eqb (PolicyStageID po) "" && String.eqb (PolicyCheckID po) "" then
    Some "either PolicyStageID or PolicyCheckID must be set"
  else if String.eqb (Justification po) "" then
    Some "justification is required"
  else if negb (String.eqb (InitialStatus po) "post_plan_awaiting_decision") then
    Some ("invalid initial status: " ++ InitialStatus po
          ++ ", expected post_plan_awaiting_decision")%string
  else
    let valid := final_status_loop (FinalStatus po) validFinalStatuses in
    if negb valid then
      Some ("invalid final status: " ++ FinalStatus po)%string
    else nil.

End PolicyOverride.

(** Sentinel errors of internal/cloud/policy_errors.go. *)
Definition ErrInvalidRunID : error := errors_New "invalid run ID format".
Definition ErrInvalidJustification : error := errors_New "justification is required".
Definition ErrInvalidRunStatus : error :=
  errors_New "run status does not allow this operation".
Definition ErrNoPolicyCheck : error := errors_New "run has no policy evaluation".

Module OverridePolicyOptions.

Record t : Type := Build {
  RunID : string;
  Justification : string
}.

(** [func (o OverridePolicyOptions) Validate() error] of
    internal/cloud/policy_types.go. *)
Definition Validate (o : t) : error :=
  if negb (validStringID (RunID o)) then ErrInvalidRunID
  else if String.eqb (Justification o) "" then ErrInvalidJustification
  else nil.

(** The same method as the service contract writes it
    (specs/001-policy-operations/contracts): [len(o.Justification) < 10],
    with the contract's text of [ErrInvalidJustification]. *)
Definition Validate_contract (o : t) : error :=
  if negb (validStringID (RunID o)) then ErrInvalidRunID
  else if (Z.of_nat (String.length (Justification o)) <? 10)
  then errors_New "justification must be at least 10 characters"
  else nil.

End OverridePolicyOptions.

(** ** Upstream types of go-tfe, with the fields the service reads *)

Module tfe.

Module PolicyResultCount.
Record t : Type := Build {
  AdvisoryFailed : Z;
  MandatoryFailed : Z;
  Passed : Z;
  Errored : Z
}.
End PolicyResultCount.

(** An outcome of a policy set in a modern policy evaluation. *)
Module PolicySetOutcome.
Record t : Type := Build {
  PolicySetName : string;
  PolicySetDescription : string;
  Outcomes : PolicyResultCount.t
}.
End PolicySetOutcome.

(** [ResultCount] is the count the pointer of go-tfe refers to; the nil
    pointer is modelled where the evaluation is read from the gateway
    ([Retrieval.PolicyEvaluationRead]). *)
Module PolicyEvaluation.
Record t : Type := Build {
  Status : string;
  ResultCount : PolicyResultCount.t;
  PolicySetOutcomes : list PolicySetOutcome.t
}.
End PolicyEvaluation.

Module TaskStage.
Record t : Type := Build {
  ID : string;
  Stage : string;
  Status : string
}.
End TaskStage.

(** An outcome of a legacy policy check. *)
Module PolicyOutcome.
Record t : Type := Build {
  Outcome : string;
  EnforcementLevel : string;
  PolicyName : string
}.
End PolicyOutcome.

Module PolicyCheck.
Record t : Type := Build {
  ID : string;
  Status : string;
  PolicySetOutcomes : list PolicyOutcome.t
}.
End PolicyCheck.

Module Run.
Record t : Type := Build {
  ID : string;
  Status : string;
  (** [*TaskStage] and [*PolicyCheck]: [None] is the nil pointer. *)
  TaskStage : option TaskStage.t;
  PolicyCheck : option PolicyCheck.t
}.
End Run.

(** Run statuses ([tfe.RunStatus]). *)
Definition RunPostPlanAwaitingDecision : string := "post_plan_awaiting_decision".
Definition RunPolicyOverride : string := "policy_override".
Definition RunPostPlanCompleted : string := "post_plan_completed".
Definition RunApplyQueued : string := "apply_queued".
Definition RunDiscarded : string := "discarded".
Definition RunCanceled : string := "canceled".
Definition RunForceCanceled : string := "force_canceled".
Definition RunErrored : string := "errored".
Definition RunApplied : string := "applied".

(** Stages of a run ([tfe.Stage]) and the overridden task-stage status. *)
Definition PrePlan : string := "pre_plan".
Definition PostPlan : string := "post_plan".
Definition TaskStageOverridden : string := "overridden".

End tfe.

(** ** The Evaluation Normalizer *)

(** Body of [for _, outcome := range policyEval.PolicySetOutcomes] in the
    modern mapping: only policy sets with a mandatory failure are listed. *)
Definition taskStage_outcome_step
    (result : PolicyEvaluation.t) (outcome : tfe.PolicySetOutcome.t)
    : PolicyEvaluation.t :=
  if 0 <? tfe.PolicyResultCount.MandatoryFailed (tfe.PolicySetOutcome.Outcomes outcome)
  then
    PolicyEvaluation.set_FailedPolicies
      (PolicyEvaluation.FailedPolicies result
       ++ [ PolicyDetail.Build
              (tfe.PolicySetOutcome.PolicySetName outcome)
              "mandatory" "failed"
              (tfe.PolicySetOutcome.PolicySetDescription outcome) ])
      result
  else result.

(** [mapFromTaskStage] of data-model.md.  [RunID] and [PolicyCheckID] keep
    their zero values. *)
Definition mapFromTaskStage
    (taskStage : tfe.TaskStage.t) (policyEval : tfe.PolicyEvaluation.t)
    : PolicyEvaluation.t :=
  let rc := tfe.PolicyEvaluation.ResultCount policyEval in
  let result :=
    PolicyEvaluation.Build
      "" (tfe.TaskStage.ID taskStage) ""
      0
      (tfe.PolicyResultCount.Passed rc)
      (tfe.PolicyResultCount.AdvisoryFailed rc)
      (tfe.PolicyResultCount.MandatoryFailed rc)
      (tfe.PolicyResultCount.Errored rc)
      []
      (tfe.PolicyEvaluation.Status policyEval)
      (0 <? tfe.PolicyResultCount.MandatoryFailed rc) in
  let result :=
    PolicyEvaluation.set_TotalCount
      (GoInt.add
         (GoInt.add
            (GoInt.add (PolicyEvaluation.PassedCount result)
               (PolicyEvaluation.AdvisoryFailedCount result))
            (PolicyEvaluation.MandatoryFailedCount result))
         (PolicyEvaluation.ErroredCount result))
      result in
  fold_left taskStage_outcome_step
    (tfe.PolicyEvaluation.PolicySetOutcomes policyEval) result.

(** The part of [getPolicyFromTaskStages] (research.md) that follows the
    search of the policy stage and the read of its evaluation: the result is
    built from the run, the stage found and the evaluation read. *)
Definition buildFromTaskStage
    (run : tfe.Run.t) (policyStage : tfe.TaskStage.t)
    (policyEval : tfe.PolicyEvaluation.t) : PolicyEvaluation.t :=
  let rc := tfe.PolicyEvaluation.ResultCount policyEval in
  let result :=
    PolicyEvaluation.Build
      (tfe.Run.ID run) (tfe.TaskStage.ID policyStage) ""
      0 0 0 0 0 []
      (tfe.PolicyEvaluation.Status policyEval)
      (0 <? tfe.PolicyResultCount.MandatoryFailed rc) in
  let result :=
    PolicyEvaluation.set_TotalCount
      (GoInt.add
         (GoInt.add
            (GoInt.add (tfe.PolicyResultCount.Passed rc)
               (tfe.PolicyResultCount.AdvisoryFailed rc))
            (tfe.PolicyResultCount.MandatoryFailed rc))
         (tfe.PolicyResultCount.Errored rc))
      result in
  let result :=
    PolicyEvaluation.set_PassedCount (tfe.PolicyResultCount.Passed rc) result in
  let result :=
    PolicyEvaluation.set_AdvisoryFailedCount
      (tfe.PolicyResultCount.AdvisoryFailed rc) result in
  let result :=
    PolicyEvaluation.set_MandatoryFailedCount
      (tfe.PolicyResultCount.MandatoryFailed rc) result in
  let result :=
    PolicyEvaluation.set_ErroredCount (tfe.PolicyResultCount.Errored rc) result in
  fold_left taskStage_outcome_step
    (tfe.PolicyEvaluation.PolicySetOutcomes policyEval) result.

(** Body of [for _, outcome := range check.PolicySetOutcomes] in the legacy
    mapping: the [switch outcome.Outcome] with no [default] case. *)
Definition policyCheck_outcome_step
    (result : PolicyEvaluation.t) (outcome : tfe.PolicyOutcome.t)
    : PolicyEvaluation.t :=
  if String.eqb (tfe.PolicyOutcome.Outcome outcome) "passed" then
    PolicyEvaluation.set_PassedCount
      (GoInt.incr (PolicyEvaluation.PassedCount result)) result
  else if String.eqb (tfe.PolicyOutcome.Outcome outcome) "failed" then
    if String.eqb (tfe.PolicyOutcome.EnforcementLevel outcome) "mandatory" then
      let result :=
        PolicyEvaluation.set_MandatoryFailedCount
          (GoInt.incr (PolicyEvaluation.MandatoryFailedCount result)) result in
      PolicyEvaluation.set_FailedPolicies
        (PolicyEvaluation.FailedPolicies result
         ++ [ PolicyDetail.Build (tfe.PolicyOutcome.PolicyName outcome)
                "mandatory" "failed" "" ])
        result
    else
      PolicyEvaluation.set_AdvisoryFailedCount
        (GoInt.incr (PolicyEvaluation.AdvisoryFailedCount result)) result
  else if String.eqb (tfe.PolicyOutcome.Outcome outcome) "errored" then
    PolicyEvaluation.set_ErroredCount
      (GoInt.incr (PolicyEvaluation.ErroredCount result)) result
  else result.

(** The two assignments after the loop of the legacy mapping. *)
Definition policyCheck_finish (result : PolicyEvaluation.t) : PolicyEvaluation.t :=
  let result :=
    PolicyEvaluation.set_TotalCount
      (GoInt.add
         (GoInt.add
            (GoInt.add (PolicyEvaluation.PassedCount result)
               (PolicyEvaluation.AdvisoryFailedCount result))
            (PolicyEvaluation.MandatoryFailedCount result))
         (PolicyEvaluation.ErroredCount result))
      result in
  PolicyEvaluation.set_RequiresOverride
    (0 <? PolicyEvaluation.MandatoryFailedCount result) result.

(** [mapFromPolicyCheck] of data-model.md.  [RunID] and [PolicyStageID] keep
    their zero values. *)
Definition mapFromPolicyCheck (policyCheck : tfe.PolicyCheck.t) : PolicyEvaluation.t :=
  let result :=
    PolicyEvaluation.Build
      "" "" (tfe.PolicyCheck.ID policyCheck)
      0 0 0 0 0 []
      (tfe.PolicyCheck.Status policyCheck)
      false in
  policyCheck_finish
    (fold_left policyCheck_outcome_step
       (tfe.PolicyCheck.PolicySetOutcomes policyCheck) result).

(** [getPolicyFromPolicyCheck] of research.md. *)
Definition getPolicyFromPolicyCheck
    (run : tfe.Run.t) (check : tfe.PolicyCheck.t) : PolicyEvaluation.t :=
  let result :=
    PolicyEvaluation.Build
      (tfe.Run.ID run) "" (tfe.PolicyCheck.ID check)
      0 0 0 0 0 []
      (tfe.PolicyCheck.Status check)
      false in
  policyCheck_finish
    (fold_left policyCheck_outcome_step
       (tfe.PolicyCheck.PolicySetOutcomes check) result).

(** The raw evaluation of a run, as the Format Detector resolves it: the
    modern shape (a task stage with its policy evaluation) or the legacy
    shape (a policy check). *)
Inductive RawEvaluation : Type :=
| RawModern (run : tfe.Run.t) (policyStage : tfe.TaskStage.t)
    (policyEval : tfe.PolicyEvaluation.t)
| RawLegacy (run : tfe.Run.t) (check : tfe.PolicyCheck.t).

(** [normalize]: the mapping [GetPolicyEvaluation] applies on each path. *)
Definition normalize (raw : RawEvaluation) : PolicyEvaluation.t :=
  match raw with
  | RawModern run policyStage policyEval =>
      buildFromTaskStage run policyStage policyEval
  | RawLegacy run check => getPolicyFromPolicyCheck run check
  end.

(** Values of Go's types: an [int] lies in the 64-bit range and the length
    of a slice is an [int]. *)
Definition count_in_range (rc : tfe.PolicyResultCount.t) : Prop :=
  GoInt.in_range (tfe.PolicyResultCount.Passed rc)
  /\ GoInt.in_range (tfe.PolicyResultCount.AdvisoryFailed rc)
  /\ GoInt.in_range (tfe.PolicyResultCount.MandatoryFailed rc)
  /\ GoInt.in_range (tfe.PolicyResultCount.Errored rc).

Definition slice_len_ok {A : Type} (l : list A) : Prop :=
  Z.of_nat (List.length l) <= GoInt.max_int.

Definition raw_well_formed (raw : RawEvaluation) : Prop :=
  match raw with
  | RawModern _ _ policyEval =>
      count_in_range (tfe.PolicyEvaluation.ResultCount policyEval)
  | RawLegacy _ check => slice_len_ok (tfe.PolicyCheck.PolicySetOutcomes check)
  end.

(** *** Classification of legacy outcomes, independent of the mapping *)

Definition is_passed (o : tfe.PolicyOutcome.t) : bool :=
  String.eqb (tfe.PolicyOutcome.Outcome o) "passed".

Definition is_failed_mandatory (o : tfe.PolicyOutcome.t) : bool :=
  String.eqb (tfe.PolicyOutcome.Outcome o) "failed"
  && String.eqb (tfe.PolicyOutcome.EnforcementLevel o) "mandatory".

Definition is_failed_advisory (o : tfe.PolicyOutcome.t) : bool :=
  String.eqb (tfe.PolicyOutcome.Outcome o) "failed"
  && negb (String.eqb (tfe.PolicyOutcome.EnforcementLevel o) "mandatory").

Definition is_errored (o : tfe.PolicyOutcome.t) : bool :=
  String.eqb (tfe.PolicyOutcome.Outcome o) "errored".

(** An outcome whose text is one of "passed", "failed", "errored". *)
Definition is_recognized (o : tfe.PolicyOutcome.t) : bool :=
  String.eqb (tfe.PolicyOutcome.Outcome o) "passed"
  || String.eqb (tfe.PolicyOutcome.Outcome o) "failed"
  || String.eqb (tfe.PolicyOutcome.Outcome o) "errored".

(** Number of the outcomes of a list that satisfy [p]. *)
Definition tally (p : tfe.PolicyOutcome.t -> bool) (l : list tfe.PolicyOutcome.t) : Z :=
  Z.of_nat (List.length (filter p l)).

(** The failed-policy entry of a legacy mandatory failure. *)
Definition legacy_detail (o : tfe.PolicyOutcome.t) : PolicyDetail.t :=
  PolicyDetail.Build (tfe.PolicyOutcome.PolicyName o) "mandatory" "failed" "".

(** ** The Remote Run Gateway and the world the service runs in *)

(** A Go result pair [(value, error)]. *)
Inductive outcome (A : Type) : Type :=
| Ok (a : A)
| Failed (msg : string).

Arguments Ok {A} a.
Arguments Failed {A} msg.

(** The calls the service issues on the go-tfe client. *)
Inductive Call : Type :=
| CallRunsRead (runID : string)
| CallTaskStagesOverride (stageID comment : string)
| CallPolicyChecksOverride (checkID : string)
| CallCommentsCreate (runID body : string).

(** The calls that change the run: overrides and comments. *)
Definition mutating (c : Call) : bool :=
  match c with
  | CallRunsRead _ => false
  | CallTaskStagesOverride _ _ => true
  | CallPolicyChecksOverride _ => true
  | CallCommentsCreate _ _ => true
  end.

(** What an invocation leaves behind: gateway calls with the instant they
    were issued and the time they took, sleeps of the retry loop with the
    instant they began and their length, and log lines.  Instants and
    durations are in nanoseconds ([time.Duration]). *)
Inductive Event : Type :=
| EvCall (issued : Z) (c : Call) (took : N)
| EvSleep (began : Z) (d : Z)
| EvLog (msg : string).

(** Answer of the gateway to one call: the result, the gateway's next state
    and the latency of the call. *)
Record Reply (G A : Type) : Type := MkReply {
  reply : outcome A;
  gateway_after : G;
  took : N
}.

Arguments MkReply {G A} _ _ _.
Arguments reply {G A} _.
Arguments gateway_after {G A} _.
Arguments took {G A} _.

(** The go-tfe client over a gateway whose state has type [G]. *)
Record Client (G : Type) : Type := MkClient {
  Runs_Read : string -> G -> Reply G tfe.Run.t;
  TaskStages_Override : string -> string -> G -> Reply G tfe.TaskStage.t;
  PolicyChecks_Override : string -> G -> Reply G unit;
  Comments_Create : string -> string -> G -> Reply G unit
}.

Arguments MkClient {G} _ _ _ _.
Arguments Runs_Read {G} _ _ _.
Arguments TaskStages_Override {G} _ _ _ _.
Arguments PolicyChecks_Override {G} _ _ _.
Arguments Comments_Create {G} _ _ _ _.

(** State of the world: the gateway, the clock and the events so far, the
    most recent first. *)
Record World (G : Type) : Type := MkWorld {
  gateway : G;
  now : Z;
  trace : list Event
}.

Arguments MkWorld {G} _ _ _.
Arguments gateway {G} _.
Arguments now {G} _.
Arguments trace {G} _.

(** Computations of the service: state passing over the world. *)
Definition M (G A : Type) : Type := World G -> A * World G.

Definition ret {G A : Type} (a : A) : M G A := fun w => (a, w).

Definition bind {G A B : Type} (c : M G A) (k : A -> M G B) : M G B :=
  fun w => let (a, w') := c w in k a w'.

Declare Scope service_scope.
Delimit Scope service_scope with service.
Notation "x <- c ;; k" := (bind c (fun x => k))
  (at level 100, c at next level, right associativity) : service_scope.
Notation "c ;;; k" := (bind c (fun _ => k))
  (at level 100, right associativity) : service_scope.
Local Open Scope service_scope.

(** One call on the gateway. *)
Definition perform {G A : Type} (c : Call) (op : G -> Reply G A) : M G (outcome A) :=
  fun w =>
    let r := op (gateway w) in
    (reply r,
     MkWorld (gateway_after r) (now w + Z.of_N (took r))
       (EvCall (now w) c (took r) :: trace w)).

(** [log.Printf]. *)
Definition log_Printf {G : Type} (msg : string) : M G unit :=
  fun w => (tt, MkWorld (gateway w) (now w) (EvLog msg :: trace w)).

(** [time.Now()]. *)
Definition time_Now {G : Type} : M G Z := fun w => (now w, w).

(** A timer of length [d] that fires. *)
Definition sleep {G : Type} (d : Z) : M G unit :=
  fun w => (tt, MkWorld (gateway w) (now w + d) (EvSleep (now w) d :: trace w)).

(** The gateway calls of a trace, the oldest first. *)
Fixpoint calls_of (tr : list Event) : list Call :=
  match tr with
  | [] => []
  | EvCall _ c _ :: rest => calls_of rest ++ [c]
  | _ :: rest => calls_of rest
  end.

(** ** The Override Orchestrator (research.md) *)

Section Orchestrator.

Context {G : Type}.
Variable s : Client G.

(** [validateOverrideEligibility] *)
Definition validateOverrideEligibility (runID : string) : M G (outcome tfe.Run.t) :=
  r <- perform (CallRunsRead runID) (Runs_Read s runID) ;;
  match r with
  | Failed err => ret (Failed ("error reading run: " ++ err)%string)
  | Ok run =>
      if negb (String.eqb (tfe.Run.Status run) tfe.RunPostPlanAwaitingDecision) then
        ret (Failed ("run status is " ++ tfe.Run.Status run
                     ++ ", expected post_plan_awaiting_decision")%string)
      else ret (Ok run)
  end.

(** [overrideViaTaskStage]; [stage] is [run.TaskStage], which the caller has
    found non-nil. *)
Definition overrideViaTaskStage
    (run : tfe.Run.t) (stage : tfe.TaskStage.t) (justification : string)
    : M G (outcome PolicyOverride.t) :=
  r <- perform (CallTaskStagesOverride (tfe.TaskStage.ID stage) justification)
         (TaskStages_Override s (tfe.TaskStage.ID stage) justification) ;;
  match r with
  | Failed err => ret (Failed ("error overriding task stage: " ++ err)%string)
  | Ok taskStage =>
      let body := ("Policy Override: " ++ justification)%string in
      c <- perform (CallCommentsCreate (tfe.Run.ID run) body)
             (Comments_Create s (tfe.Run.ID run) body) ;;
      match c with
      | Failed err =>
          log_Printf ("[WARN] failed to add comment to run: " ++ err)%string
      | Ok _ => ret tt
      end ;;;
      ret (Ok (PolicyOverride.Build
                 (tfe.Run.ID run)
                 (tfe.TaskStage.ID taskStage)
                 ""
                 justification
                 (tfe.Run.Status run)
                 ""
                 (String.eqb (tfe.TaskStage.Status taskStage) tfe.TaskStageOverridden)
                 0))
  end.

(** [overrideViaPolicyCheck]; [check] is [run.PolicyCheck], which the caller
    has found non-nil. *)
Definition overrideViaPolicyCheck
    (run : tfe.Run.t) (check : tfe.PolicyCheck.t) (justification : string)
    : M G (outcome PolicyOverride.t) :=
  r <- perform (CallPolicyChecksOverride (tfe.PolicyCheck.ID check))
         (PolicyChecks_Override s (tfe.PolicyCheck.ID check)) ;;
  match r with
  | Failed err => ret (Failed ("error overriding policy check: " ++ err)%string)
  | Ok _ =>
      let body := ("Policy Override: " ++ justification)%string in
      c <- perform (CallCommentsCreate (tfe.Run.ID run) body)
             (Comments_Create s (tfe.Run.ID run) body) ;;
      match c with
      | Failed err =>
          log_Printf ("[WARN] failed to add comment to run: " ++ err)%string
      | Ok _ => ret tt
      end ;;;
      ret (Ok (PolicyOverride.Build
                 (tfe.Run.ID run)
                 ""
                 (tfe.PolicyCheck.ID check)
                 justification
                 (tfe.Run.Status run)
                 ""
                 true
                 0))
  end.

(** [run.TaskStage != nil && run.TaskStage.ID != ""] *)
Definition has_task_stage (run : tfe.Run.t) : option tfe.TaskStage.t :=
  match tfe.Run.TaskStage run with
  | Some stage => if negb (String.eqb (tfe.TaskStage.ID stage) "") then Some stage else None
  | None => None
  end.

(** [run.PolicyCheck != nil && run.PolicyCheck.ID != ""] *)
Definition has_policy_check (run : tfe.Run.t) : option tfe.PolicyCheck.t :=
  match tfe.Run.PolicyCheck run with
  | Some check => if negb (String.eqb (tfe.PolicyCheck.ID check) "") then Some check else None
  | None => None
  end.

(** [OverridePolicy] *)
Definition OverridePolicy (options : OverridePolicyOptions.t)
    : M G (outcome PolicyOverride.t) :=
  r <- validateOverrideEligibility (OverridePolicyOptions.RunID options) ;;
  match r with
  | Failed err => ret (Failed err)
  | Ok run =>
      match has_task_stage run with
      | Some stage =>
          overrideViaTaskStage run stage (OverridePolicyOptions.Justification options)
      | None =>
          match has_policy_check run with
          | Some check =>
              overrideViaPolicyCheck run check
                (OverridePolicyOptions.Justification options)
          | None =>
              ret (Failed ("no policy check or task stage found for run "
                           ++ tfe.Run.ID run)%string)
          end
      end
  end.

End Orchestrator.

(** ** The Wait Engine *)

(** [time.Duration] constants, in nanoseconds. *)
Definition Second : Z := 1000000000.
Definition Minute : Z := 60 * Second.

(** The parameters of research.md. *)
Definition PolicyWaitMaxDuration : Z := 30 * Minute.
Definition PolicyWaitInitialBackoff : Z := 10 * Second.
Definition PolicyWaitMaxBackoff : Z := 30 * Second.

(** Modelled from the spec: the backoff combinators of sethvargo/go-retry
    ([retry.NewFibonacci], [retry.WithCappedDuration],
    [retry.WithMaxDuration]), a dependency whose code is not part of the
    repository.  The spec asks for Fibonacci-shaped intervals that start at a
    floor, a cap on each step and a maximum total duration that is
    independent of the cap.  A backoff is the state of such a schedule:
    - [Fibonacci s0 s1]: the next interval is [s0 + s1] and the state becomes
      [(s1, s0 + s1)]; once the sum overflows the interval stays at the
      largest duration;
    - [Capped cap b]: the interval of [b], replaced by [cap] when it is not
      positive or exceeds [cap];
    - [MaxDuration timeout start b]: stops once [timeout] has elapsed since
      [start]; otherwise the interval of [b], cut down to the time that is
      left. *)
Inductive Backoff : Type :=
| Fibonacci (s0 s1 : Z)
| Capped (cap : Z) (next : Backoff)
| MaxDuration (timeout start : Z) (next : Backoff).

(** [retry.NewFibonacci(base)] *)
Definition NewFibonacci (base : Z) : Backoff := Fibonacci 0 base.

(** [retry.WithCappedDuration(cap, next)] *)
Definition WithCappedDuration (cap : Z) (next : Backoff) : Backoff := Capped cap next.

(** [retry.WithMaxDuration(timeout, next)], created at the instant [start]. *)
Definition WithMaxDuration (timeout : Z) (next : Backoff) (start : Z) : Backoff :=
  MaxDuration timeout start next.

(** Modelled from the spec: [Backoff.Next()] of sethvargo/go-retry at the
    instant [t]; the result is the interval to sleep, the stop flag and the
    next state of the schedule. *)
Fixpoint Next (b : Backoff) (t : Z) : Z * bool * Backoff :=
  match b with
  | Fibonacci s0 s1 =>
      let next := GoInt.add s0 s1 in
      if next <=? 0 then (GoInt.max_int, false, Fibonacci s0 s1)
      else (next, false, Fibonacci s1 next)
  | Capped cap inner =>
      let '(val, stop, inner') := Next inner t in
      if stop then (0, true, Capped cap inner')
      else
        let val := if (val <=? 0) || (cap <? val) then cap else val in
        (val, false, Capped cap inner')
  | MaxDuration timeout start inner =>
      let diff := timeout - (t - start) in
      if diff <=? 0 then (0, true, MaxDuration timeout start inner)
      else
        let '(val, stop, inner') := Next inner t in
        if stop then (0, true, MaxDuration timeout start inner')
        else
          let val := if (val <=? 0) || (diff <? val) then diff else val in
          (val, false, MaxDuration timeout start inner')
  end.

(** [policyWaitBackoffStrategy] of research.md, called at the instant
    [start]. *)
Definition policyWaitBackoffStrategy (start : Z) : Backoff :=
  let backoff := NewFibonacci PolicyWaitInitialBackoff in
  let backoff := WithCappedDuration PolicyWaitMaxBackoff backoff in
  let backoff := WithMaxDuration PolicyWaitMaxDuration backoff start in
  backoff.

(** The intervals a schedule hands out when [Next] is called at the instants
    [ts], each with the instant of the call; the list ends where the
    schedule stops. *)
Fixpoint schedule (b : Backoff) (ts : list Z) : list (Z * Z) :=
  match ts with
  | [] => []
  | t :: rest =>
      let '(val, stop, b') := Next b t in
      if stop then [] else (t, val) :: schedule b' rest
  end.

(** What closes the [Done] channel of a context: its caller cancels it, or
    its deadline passes. *)
Inductive Cause : Type :=
| ByCancel
| ByDeadline.

(** A [context.Context], as far as the wait loop observes it: the instant
    at which its [Done] channel is closed and what closes it, the
    cancellation by the caller or the deadline, whichever comes first;
    [None] is a context that is never done ([context.Background()]).  The
    caller may cancel at any instant, so a statement about every context is
    a statement about every cancellation. *)
Definition Context : Type := option (Z * Cause).

(** [context.WithTimeout(ctx, d)] at the instant [t]: the child is done
    when its parent is, or at its own deadline if that comes first. *)
Definition WithTimeout (ctx : Context) (t d : Z) : Context :=
  match ctx with
  | Some (done, cause) =>
      if done <=? t + d then Some (done, cause) else Some (t + d, ByDeadline)
  | None => Some (t + d, ByDeadline)
  end.

(** [<-ctx.Done()] is ready at the instant [t]. *)
Definition ctx_done (ctx : Context) (t : Z) : bool :=
  match ctx with
  | Some (done, _) => done <=? t
  | None => false
  end.

(** [context.Canceled] and [context.DeadlineExceeded]. *)
Definition Canceled : string := "context canceled".
Definition DeadlineExceeded : string := "context deadline exceeded".

(** [ctx.Err()] once the context is done. *)
Definition ctx_Err (ctx : Context) : error :=
  match ctx with
  | Some (_, ByCancel) => Some Canceled
  | Some (_, ByDeadline) => Some DeadlineExceeded
  | None => nil
  end.

(** What the function given to [retry.Do] returns: [nil], an error, or an
    error wrapped by [retry.RetryableError]. *)
Inductive RetryErr : Type :=
| RNil
| RError (msg : string)
| RRetryable (msg : string).

(** What [retry.Do] returns; [OutOfFuel] is not a behaviour of the loop but
    the bound of the model that makes the recursion structural. *)
Inductive DoResult : Type :=
| OutOfFuel
| Returned (err : error).

Section Wait.

Context {G : Type}.
Variable s : Client G.

(** Modelled from the spec: [retry.Do(ctx, b, f)] of sethvargo/go-retry, the
    Polling state of the Wait Engine.  The probe [f] is invoked; [nil] and a
    plain error end the loop; a retryable error asks the schedule for the
    next interval, ends the loop with the wrapped error when the schedule
    stops, and otherwise sleeps for the interval, unless the context is done
    first: the loop then returns [ctx.Err()], the cancellation of the caller
    or the deadline.  [S] is the state the closure [f] captures. *)
Fixpoint Do {S : Type} (fuel : nat) (ctx : Context) (b : Backoff)
    (f : S -> M G (RetryErr * S)) (st : S) : M G (DoResult * S) :=
  match fuel with
  | O => ret (OutOfFuel, st)
  | Datatypes.S fuel' =>
      t <- time_Now ;;
      if ctx_done ctx t then ret (Returned (ctx_Err ctx), st)
      else
        r <- f st ;;
        let '(err, st) := r in
        match err with
        | RNil => ret (Returned nil, st)
        | RError msg => ret (Returned (Some msg), st)
        | RRetryable msg =>
            t <- time_Now ;;
            let '(next, stop, b') := Next b t in
            if stop then ret (Returned (Some msg), st)
            else if ctx_done ctx t then ret (Returned (ctx_Err ctx), st)
            else
              match ctx with
              | Some (done, _) =>
                  if done <=? t + next then
                    sleep (done - t) ;;;
                    ret (Returned (ctx_Err ctx), st)
                  else sleep next ;;; Do fuel' ctx b' f st
              | None => sleep next ;;; Do fuel' ctx b' f st
              end
        end
  end.

(** The closure [WaitForPolicyDecision] gives to [retry.Do]; the state is
    the captured variable [finalRun]. *)
Definition waitProbe (runID : string) (finalRun : option tfe.Run.t)
    : M G (RetryErr * option tfe.Run.t) :=
  r <- perform (CallRunsRead runID) (Runs_Read s runID) ;;
  match r with
  | Failed err => ret (RError err, finalRun)
  | Ok run =>
      let status := tfe.Run.Status run in
      log_Printf ("[DEBUG] Waiting for policy decision, current status: " ++ status)%string ;;;
      if String.eqb status tfe.RunPolicyOverride
         || String.eqb status tfe.RunPostPlanCompleted then
        ret (RNil, Some run)
      else if String.eqb status tfe.RunDiscarded then
        ret (RError "run was discarded", finalRun)
      else if String.eqb status tfe.RunCanceled
              || String.eqb status tfe.RunForceCanceled then
        ret (RError "run was canceled", finalRun)
      else if String.eqb status tfe.RunErrored then
        ret (RError "run entered error state", finalRun)
      else if String.eqb status tfe.RunPostPlanAwaitingDecision then
        ret (RRetryable "still awaiting decision", finalRun)
      else
        log_Printf ("[WARN] Unexpected run status during wait: " ++ status)%string ;;;
        ret (RRetryable ("unexpected status: " ++ status)%string, finalRun)
  end.

End Wait.

Module WaitForPolicyOptions.
Record t : Type := Build {
  RunID : string;
  Timeout : Z
}.
End WaitForPolicyOptions.

(** What a call of [WaitForPolicyDecision] comes to. *)
Inductive WaitResult : Type :=
| WaitOutOfFuel
| WaitPanic
| WaitReturned (r : outcome PolicyOverride.t).

Section WaitForPolicyDecision.

Context {G : Type}.
Variable s : Client G.

(** [WaitForPolicyDecision] of research.md.  [finalRun] is dereferenced after
    [retry.Do] has returned [nil]: a nil [finalRun] there would panic. *)
Definition WaitForPolicyDecision (fuel : nat) (ctx : Context)
    (options : WaitForPolicyOptions.t) : M G WaitResult :=
  t <- time_Now ;;
  let ctx :=
    if 0 <? WaitForPolicyOptions.Timeout options
    then WithTimeout ctx t (WaitForPolicyOptions.Timeout options)
    else ctx in
  r <- Do fuel ctx (policyWaitBackoffStrategy t)
         (waitProbe s (WaitForPolicyOptions.RunID options)) None ;;
  let '(res, finalRun) := r in
  match res with
  | OutOfFuel => ret WaitOutOfFuel
  | Returned (Some err) => ret (WaitReturned (Failed err))
  | Returned None =>
      match finalRun with
      | None => ret WaitPanic
      | Some run =>
          ret (WaitReturned
                 (Ok (PolicyOverride.Build
                        (tfe.Run.ID run) "" ""
                        ""
                        tfe.RunPostPlanAwaitingDecision
                        (tfe.Run.Status run)
                        true
                        0)))
      end
  end.

End WaitForPolicyDecision.

(** The counters of [r] are not negative and can still be incremented [n]
    times without leaving the range of [int]. *)
Definition counts_room (r : PolicyEvaluation.t) (n : Z) : Prop :=
  (0 <= PolicyEvaluation.PassedCount r
   /\ PolicyEvaluation.PassedCount r + n <= GoInt.max_int)
  /\ (0 <= PolicyEvaluation.AdvisoryFailedCount r
      /\ PolicyEvaluation.AdvisoryFailedCount r + n <= GoInt.max_int)
  /\ (0 <= PolicyEvaluation.MandatoryFailedCount r
      /\ PolicyEvaluation.MandatoryFailedCount r + n <= GoInt.max_int)
  /\ (0 <= PolicyEvaluation.ErroredCount r
      /\ PolicyEvaluation.ErroredCount r + n <= GoInt.max_int).

(** The legacy mapping, in either of its two writings. *)
Definition legacy_normalizer
    (run : tfe.Run.t) (f : tfe.PolicyCheck.t -> PolicyEvaluation.t) : Prop :=
  f = mapFromPolicyCheck \/ f = getPolicyFromPolicyCheck run.

(** The run and the stage or check identifier of a raw evaluation. *)
Definition raw_run (raw : RawEvaluation) : tfe.Run.t :=
  match raw with
  | RawModern run _ _ => run
  | RawLegacy run _ => run
  end.

Definition raw_source_id (raw : RawEvaluation) : string :=
  match raw with
  | RawModern _ policyStage _ => tfe.TaskStage.ID policyStage
  | RawLegacy _ check => tfe.PolicyCheck.ID check
  end.

(** *** Classification of modern outcomes, independent of the mapping *)

Definition has_mandatory_failure (o : tfe.PolicySetOutcome.t) : bool :=
  0 <? tfe.PolicyResultCount.MandatoryFailed (tfe.PolicySetOutcome.Outcomes o).

(** The failed-policy entry of a policy set with a mandatory failure. *)
Definition modern_detail (o : tfe.PolicySetOutcome.t) : PolicyDetail.t :=
  PolicyDetail.Build (tfe.PolicySetOutcome.PolicySetName o) "mandatory" "failed"
    (tfe.PolicySetOutcome.PolicySetDescription o).

(** *** Semantically equivalent raw inputs

    A modern evaluation and a legacy check are equivalent when they carry
    the same status, the same count for each of the four outcomes and the
    same failing policies: the same names, in the same order, at the
    enforcement level mandatory, the only level either mapping lists. *)
Record equivalent_inputs
    (policyEval : tfe.PolicyEvaluation.t) (check : tfe.PolicyCheck.t) : Prop := {
  same_status :
    tfe.PolicyEvaluation.Status policyEval = tfe.PolicyCheck.Status check;
  same_passed :
    tfe.PolicyResultCount.Passed (tfe.PolicyEvaluation.ResultCount policyEval)
    = tally is_passed (tfe.PolicyCheck.PolicySetOutcomes check);
  same_advisory_failed :
    tfe.PolicyResultCount.AdvisoryFailed (tfe.PolicyEvaluation.ResultCount policyEval)
    = tally is_failed_advisory (tfe.PolicyCheck.PolicySetOutcomes check);
  same_mandatory_failed :
    tfe.PolicyResultCount.MandatoryFailed (tfe.PolicyEvaluation.ResultCount policyEval)
    = tally is_failed_mandatory (tfe.PolicyCheck.PolicySetOutcomes check);
  same_errored :
    tfe.PolicyResultCount.Errored (tfe.PolicyEvaluation.ResultCount policyEval)
    = tally is_errored (tfe.PolicyCheck.PolicySetOutcomes check);
  same_failing_policies :
    map tfe.PolicySetOutcome.PolicySetName
      (filter has_mandatory_failure (tfe.PolicyEvaluation.PolicySetOutcomes policyEval))
    = map tfe.PolicyOutcome.PolicyName
        (filter is_failed_mandatory (tfe.PolicyCheck.PolicySetOutcomes check))
}.

(** A normalized evaluation without its stage or check identifier. *)
Definition without_source_id (pe : PolicyEvaluation.t) : PolicyEvaluation.t :=
  PolicyEvaluation.Build (PolicyEvaluation.RunID pe) "" ""
    (PolicyEvaluation.TotalCount pe) (PolicyEvaluation.PassedCount pe)
    (PolicyEvaluation.AdvisoryFailedCount pe)
    (PolicyEvaluation.MandatoryFailedCount pe) (PolicyEvaluation.ErroredCount pe)
    (PolicyEvaluation.FailedPolicies pe) (PolicyEvaluation.Status pe)
    (PolicyEvaluation.RequiresOverride pe).

Definition without_description (pd : PolicyDetail.t) : PolicyDetail.t :=
  PolicyDetail.Build (PolicyDetail.PolicyName pd) (PolicyDetail.EnforcementLevel pd)
    (PolicyDetail.Status pd) "".

(** A normalized evaluation without the descriptions of its failed
    policies. *)
Definition without_descriptions (pe : PolicyEvaluation.t) : PolicyEvaluation.t :=
  PolicyEvaluation.set_FailedPolicies
    (map without_description (PolicyEvaluation.FailedPolicies pe)) pe.

(** The policy sets with a mandatory failure carry no description. *)
Definition no_descriptions (policyEval : tfe.PolicyEvaluation.t) : Prop :=
  Forall (fun o => tfe.PolicySetOutcome.PolicySetDescription o = "")
    (filter has_mandatory_failure (tfe.PolicyEvaluation.PolicySetOutcomes policyEval)).

(** *** Vocabulary of the wait properties *)

(** The Fibonacci state of a schedule that started at [base]: both terms
    are durations and the larger one has reached the floor. *)
Definition fib_ok (base s0 s1 : Z) : Prop :=
  0 <= s0 <= s1 /\ base <= s1 /\ s1 <= GoInt.max_int.

(** The states of the schedule of [policyWaitBackoffStrategy], for a floor
    [base], a cap on each step, and a total duration [timeout] counted from
    [start]. *)
Inductive strategy_ok (base cap timeout start : Z) : Backoff -> Prop :=
| strategy_ok_intro (s0 s1 : Z) :
    fib_ok base s0 s1 ->
    strategy_ok base cap timeout start
      (MaxDuration timeout start (Capped cap (Fibonacci s0 s1))).

(** An event respects the step cap and the total deadline: a sleep is not
    longer than [cap] and ends by [deadline]; a gateway call is issued by
    [deadline]. *)
Definition event_ok (cap deadline : Z) (e : Event) : Prop :=
  match e with
  | EvSleep began d => 0 <= d <= cap /\ began + d <= deadline
  | EvCall issued _ _ => issued <= deadline
  | EvLog _ => True
  end.

(** The invocation ended by the deadline, or at the very instant at which a
    probe issued by the deadline came back. *)
Definition ended_by {G : Type} (deadline : Z) (new : list Event) (w' : World G) : Prop :=
  now w' <= deadline
  \/ exists issued c took,
       In (EvCall issued c took) new
       /\ issued <= deadline
       /\ now w' = issued + Z.of_N took.

(** The world after [Runs.Read] and after the [DEBUG] line of the probe. *)
Definition after_read {G : Type} (s : Client G) (runID : string) (w : World G)
    : World G :=
  snd (perform (CallRunsRead runID) (Runs_Read s runID) w).

Definition after_probe {G : Type} (s : Client G) (runID : string)
    (run : tfe.Run.t) (w : World G) : World G :=
  snd (log_Printf
         ("[DEBUG] Waiting for policy decision, current status: "
          ++ tfe.Run.Status run)%string
         (after_read s runID w)).

(** The number of reads of the run among the calls of a trace. *)
Fixpoint reads_of (tr : list Event) : nat :=
  match tr with
  | [] => 0
  | EvCall _ (CallRunsRead _) _ :: rest => Datatypes.S (reads_of rest)
  | _ :: rest => reads_of rest
  end.

(** The number of sleeps of a trace. *)
Fixpoint sleeps_of (tr : list Event) : nat :=
  match tr with
  | [] => 0
  | EvSleep _ _ :: rest => Datatypes.S (sleeps_of rest)
  | _ :: rest => sleeps_of rest
  end.

(** The gateway after [n] further reads of the run. *)
Fixpoint after_reads {G : Type} (s : Client G) (runID : string) (n : nat) (g : G) : G :=
  match n with
  | O => g
  | S n => after_reads s runID n (gateway_after (Runs_Read s runID g))
  end.

(** The answer of the gateway [g] to the read of the run that follows [n]
    earlier reads. *)
Definition nth_read {G : Type} (s : Client G) (runID : string) (n : nat) (g : G)
    : Reply G tfe.Run.t :=
  Runs_Read s runID (after_reads s runID n g).

(** The next [k] reads of the run observe it in post_plan_awaiting_decision,
    each within the latency [latency]. *)
Definition awaiting_for {G : Type} (s : Client G) (runID : string)
    (k : nat) (latency : Z) (g : G) : Prop :=
  forall i : nat, (i < k)%nat ->
    (exists run : tfe.Run.t,
        reply (nth_read s runID i g) = Ok run
        /\ tfe.Run.Status run = tfe.RunPostPlanAwaitingDecision)
    /\ Z.of_N (took (nth_read s runID i g)) <= latency.

(** ** Concrete inputs *)

(** The legacy check of run [run-xyz789]: outcomes passed, failed/mandatory,
    failed/advisory, errored. *)
Definition outcomes_xyz789 : list tfe.PolicyOutcome.t :=
  [ tfe.PolicyOutcome.Build "passed" "mandatory" "require-tags";
    tfe.PolicyOutcome.Build "failed" "mandatory" "aws-cost-limit";
    tfe.PolicyOutcome.Build "failed" "advisory" "naming-convention";
    tfe.PolicyOutcome.Build "errored" "mandatory" "security-baseline" ].

Definition check_xyz789 : tfe.PolicyCheck.t :=
  tfe.PolicyCheck.Build "polchk-xyz789" "hard_failed" outcomes_xyz789.

Definition run_xyz789 : tfe.Run.t :=
  tfe.Run.Build "run-xyz789" tfe.RunPostPlanAwaitingDecision None (Some check_xyz789).

(** A legacy check with an outcome the mapping does not know. *)
Definition check_unknown_outcome : tfe.PolicyCheck.t :=
  tfe.PolicyCheck.Build "polchk-xyz789" "hard_failed"
    [ tfe.PolicyOutcome.Build "passed" "mandatory" "require-tags";
      tfe.PolicyOutcome.Build "unreachable" "mandatory" "aws-cost-limit" ].

(** The modern stage of run [run-abc123] with a description on the failing
    policy set, and a legacy check with the same counts and the same failing
    policy. *)
Definition run_abc123 : tfe.Run.t :=
  tfe.Run.Build "run-abc123" tfe.RunPostPlanAwaitingDecision
    (Some (tfe.TaskStage.Build "ts-xyz789" tfe.PostPlan "awaiting_override")) None.

Definition stage_abc123 : tfe.TaskStage.t :=
  tfe.TaskStage.Build "ts-xyz789" tfe.PostPlan "awaiting_override".

Definition eval_described : tfe.PolicyEvaluation.t :=
  tfe.PolicyEvaluation.Build "failed"
    (tfe.PolicyResultCount.Build 0 1 1 0)
    [ tfe.PolicySetOutcome.Build "require-tags" "" (tfe.PolicyResultCount.Build 0 0 1 0);
      tfe.PolicySetOutcome.Build "aws-cost-limit"
        "Terraform run exceeds $500 daily cost threshold"
        (tfe.PolicyResultCount.Build 0 1 0 0) ].

Definition check_equivalent : tfe.PolicyCheck.t :=
  tfe.PolicyCheck.Build "polchk-abc123" "failed"
    [ tfe.PolicyOutcome.Build "passed" "mandatory" "require-tags";
      tfe.PolicyOutcome.Build "failed" "mandatory" "aws-cost-limit" ].

(** The same modern evaluation without the description. *)
Definition eval_undescribed : tfe.PolicyEvaluation.t :=
  tfe.PolicyEvaluation.Build "failed"
    (tfe.PolicyResultCount.Build 0 1 1 0)
    [ tfe.PolicySetOutcome.Build "require-tags" "" (tfe.PolicyResultCount.Build 0 0 1 0);
      tfe.PolicySetOutcome.Build "aws-cost-limit" ""
        (tfe.PolicyResultCount.Build 0 1 0 0) ].

(** A modern evaluation whose upstream summary carries a negative count. *)
Definition eval_negative : tfe.PolicyEvaluation.t :=
  tfe.PolicyEvaluation.Build "passed" (tfe.PolicyResultCount.Build 0 0 (-1) 0) [].

(** An override record with both identifiers set. *)
Definition override_both_ids : PolicyOverride.t :=
  PolicyOverride.Build "run-abc123" "ts-xyz789" "polchk-abc123"
    "Emergency hotfix approved by CTO" "post_plan_awaiting_decision"
    "policy_override" true 0.

(** The client [s] with a comment service that never fails: the gateway
    moves on and takes its time as with [s], but the answer is a success. *)
Definition with_comments_ok {G : Type} (s : Client G) : Client G :=
  MkClient
    (Runs_Read s)
    (TaskStages_Override s)
    (PolicyChecks_Override s)
    (fun runID body g =>
       let r := Comments_Create s runID body g in
       MkReply (Ok tt) (gateway_after r) (took r)).

(** The gateway accepts the override that [OverridePolicy] issues for
    [options] in the world [w]: the run is read as [run], awaiting a
    decision, and the override of its task stage, or else of its policy
    check, succeeds and leaves the gateway in the state [g]. *)
Definition override_accepted {G : Type} (s : Client G)
    (options : OverridePolicyOptions.t) (w : World G) (run : tfe.Run.t) (g : G)
    : Prop :=
  let read := Runs_Read s (OverridePolicyOptions.RunID options) (gateway w) in
  reply read = Ok run
  /\ tfe.Run.Status run = tfe.RunPostPlanAwaitingDecision
  /\ match has_task_stage run with
     | Some stage =>
         let r :=
           TaskStages_Override s (tfe.TaskStage.ID stage)
             (OverridePolicyOptions.Justification options) (gateway_after read) in
         (exists taskStage, reply r = Ok taskStage) /\ g = gateway_after r
     | None =>
         match has_policy_check run with
         | Some check =>
             let r :=
               PolicyChecks_Override s (tfe.PolicyCheck.ID check)
                 (gateway_after read) in
             reply r = Ok tt /\ g = gateway_after r
         | None => False
         end
     end.

(** No gateway call of the trace is an override or a comment. *)
Definition no_mutating_call (tr : list Event) : Prop :=
  Forall (fun c => mutating c = false) (calls_of tr).

(** A scripted gateway.  Its state is the number of reads of the run so
    far; the n-th read answers the n-th status of [statuses] ([last] once
    the list is exhausted) for a run with the given stage and check;
    overrides are accepted; comments fail with [comment_error] if it is set;
    every call takes [latency]. *)
Definition scripted_client
    (statuses : list string) (last : string)
    (stage : option tfe.TaskStage.t) (check : option tfe.PolicyCheck.t)
    (comment_error : option string) (latency : N) : Client nat :=
  MkClient
    (fun runID n =>
       MkReply (Ok (tfe.Run.Build runID (nth n statuses last) stage check))
         (Datatypes.S n) latency)
    (fun stageID _ n =>
       MkReply (Ok (tfe.TaskStage.Build stageID tfe.PostPlan tfe.TaskStageOverridden))
         n latency)
    (fun _ n => MkReply (Ok tt) n latency)
    (fun _ _ n =>
       MkReply (match comment_error with Some e => Failed e | None => Ok tt end)
         n latency).

(** The world before the service is called. *)
Definition world0 : World nat := MkWorld 0%nat 0 [].

(** A run awaiting a decision on its modern stage; comments succeed. *)
Definition client_awaiting : Client nat :=
  scripted_client [] tfe.RunPostPlanAwaitingDecision (Some stage_abc123) None
    None 200000000.

(** The same gateway with a comment service that is down. *)
Definition client_comment_down : Client nat :=
  scripted_client [] tfe.RunPostPlanAwaitingDecision (Some stage_abc123) None
    (Some "503 Service Unavailable") 200000000.

(** A run that has been applied. *)
Definition client_applied : Client nat :=
  scripted_client [] tfe.RunApplied (Some stage_abc123) None None 200000000.

Definition options_short : OverridePolicyOptions.t :=
  OverridePolicyOptions.Build "run-abc123" "hi".

Definition options_hotfix : OverridePolicyOptions.t :=
  OverridePolicyOptions.Build "run-abc123" "Emergency hotfix approved by CTO".

(** A run, on no stage or check, that is seen awaiting a decision once and
    discarded afterwards. *)
Definition client_discarded_later : Client nat :=
  scripted_client [tfe.RunPostPlanAwaitingDecision] tfe.RunDiscarded None None
    None 200000000.

(** A run that never leaves post_plan_awaiting_decision. *)
Definition client_never_decided : Client nat :=
  scripted_client [] tfe.RunPostPlanAwaitingDecision None None None 200000000.

Definition options_wait : WaitForPolicyOptions.t :=
  WaitForPolicyOptions.Build "run-abc123" 0.

(** *** Vocabulary of the identifier properties *)

(** Every character of [s] satisfies [p]. *)
Fixpoint all_chars (p : ascii -> bool) (s : string) : bool :=
  match s with
  | EmptyString => true
  | String c rest => p c && all_chars p rest
  end.

(** The characters of [[a-z]] and of [[a-zA-Z0-9]]. *)
Definition is_lower (c : ascii) : bool := Regexp.between "a" "z" c.

Definition is_alnum (c : ascii) : bool :=
  Regexp.between "a" "z" c || Regexp.between "A" "Z" c || Regexp.between "0" "9" c.

(** A resource identifier: lower-case letters, a dash, letters and digits,
    with at least one character on each side of the dash. *)
Definition resource_id_shape (id : string) : Prop :=
  exists prefix suffix : string,
    id = (prefix ++ "-" ++ suffix)%string
    /\ prefix <> "" /\ all_chars is_lower prefix = true
    /\ suffix <> "" /\ all_chars is_alnum suffix = true.

(** ** Further code of the repository *)

Module GetPolicyEvaluationOptions.

Record t : Type := Build {
  RunID : string;
  NoWait : bool
}.

(** [func (o GetPolicyEvaluationOptions) Validate() error] *)
Definition Validate (o : t) : error :=
  if negb (validStringID (RunID o)) then ErrInvalidRunID else nil.

End GetPolicyEvaluationOptions.

(** [func (po *PolicyOverride) Validate() error] as data-model.md writes it:
    the justification is measured, [len(po.Justification) < 10]. *)
Definition PolicyOverride_Validate_data_model (po : PolicyOverride.t) : error :=
  if negb (validStringID (PolicyOverride.RunID po)) then
    Some ("invalid run ID: " ++ PolicyOverride.RunID po)%string
  else if String.eqb (PolicyOverride.PolicyStageID po) ""
          && String.eqb (PolicyOverride.PolicyCheckID po) "" then
    Some "either PolicyStageID or PolicyCheckID must be set"
  else if Z.of_nat (String.length (PolicyOverride.Justification po)) <? 10 then
    Some "justification must be at least 10 characters"
  else if negb (String.eqb (PolicyOverride.InitialStatus po)
                  "post_plan_awaiting_decision") then
    Some ("invalid initial status: " ++ PolicyOverride.InitialStatus po
          ++ ", expected post_plan_awaiting_decision")%string
  else
    let valid :=
      PolicyOverride.final_status_loop (PolicyOverride.FinalStatus po)
        PolicyOverride.validFinalStatuses in
    if negb valid then
      Some ("invalid final status: " ++ PolicyOverride.FinalStatus po)%string
    else nil.

(** [tfe.RunPlannedAndFinished] *)
Definition RunPlannedAndFinished : string := "planned_and_finished".

(** [isTerminalStatus] of data-model.md: the loop over [terminalStatuses]. *)
Definition terminalStatuses : list string :=
  [ tfe.RunApplied; RunPlannedAndFinished; tfe.RunDiscarded; tfe.RunCanceled;
    tfe.RunForceCanceled; tfe.RunErrored ].

Fixpoint isTerminalStatus_loop (status : string) (l : list string) : bool :=
  match l with
  | [] => false
  | ts :: rest => if String.eqb status ts then true else isTerminalStatus_loop status rest
  end.

Definition isTerminalStatus (status : string) : bool :=
  isTerminalStatus_loop status terminalStatuses.

(** [canOverride] of data-model.md. *)
Definition canOverride (status : string) : bool :=
  String.eqb status tfe.RunPostPlanAwaitingDecision.

(** Assignment to [RunID]. *)
Definition set_RunID (v : string) (pe : PolicyEvaluation.t) : PolicyEvaluation.t :=
  PolicyEvaluation.Build v (PolicyEvaluation.PolicyStageID pe)
    (PolicyEvaluation.PolicyCheckID pe) (PolicyEvaluation.TotalCount pe)
    (PolicyEvaluation.PassedCount pe) (PolicyEvaluation.AdvisoryFailedCount pe)
    (PolicyEvaluation.MandatoryFailedCount pe) (PolicyEvaluation.ErroredCount pe)
    (PolicyEvaluation.FailedPolicies pe) (PolicyEvaluation.Status pe)
    (PolicyEvaluation.RequiresOverride pe).

(** A failed outcome, whatever its enforcement level. *)
Definition is_failed (o : tfe.PolicyOutcome.t) : bool :=
  String.eqb (tfe.PolicyOutcome.Outcome o) "failed".

(** A legacy check whose failure carries a level of the Sentinel API. *)
Definition check_hard_mandatory : tfe.PolicyCheck.t :=
  tfe.PolicyCheck.Build "polchk-abc123" "hard_failed"
    [ tfe.PolicyOutcome.Build "failed" "hard-mandatory" "aws-cost-limit";
      tfe.PolicyOutcome.Build "failed" "soft-mandatory" "security-baseline" ].

(** The events an invocation adds to the trace of [w]. *)
Definition added {G : Type} (w w' : World G) (new : list Event) : Prop :=
  trace w' = new ++ trace w.

(** A run with a legacy check and no stage, awaiting a decision. *)
Definition client_legacy : Client nat :=
  scripted_client [] tfe.RunPostPlanAwaitingDecision None (Some check_xyz789)
    None 200000000.

(** A run with neither stage nor check, awaiting a decision. *)
Definition client_bare : Client nat :=
  scripted_client [] tfe.RunPostPlanAwaitingDecision None None None 200000000.

(** A gateway that is down for reads of the run, and one that rejects the
    override of the stage. *)
Definition client_unreachable : Client nat :=
  MkClient
    (fun _ n => MkReply (Failed "500 Internal Server Error") n 200000000)
    (TaskStages_Override client_awaiting)
    (PolicyChecks_Override client_awaiting)
    (Comments_Create client_awaiting).

Definition client_forbidden : Client nat :=
  MkClient
    (Runs_Read client_awaiting)
    (fun _ _ n => MkReply (Failed "403 Forbidden") n 200000000)
    (fun _ n => MkReply (Failed "403 Forbidden") n 200000000)
    (Comments_Create client_awaiting).

(** The statuses that end the wait: the two successes and the four
    failures of the switch of [WaitForPolicyDecision]. *)
Definition decisive (status : string) : bool :=
  String.eqb status tfe.RunPolicyOverride
  || String.eqb status tfe.RunPostPlanCompleted
  || String.eqb status tfe.RunDiscarded
  || String.eqb status tfe.RunCanceled
  || String.eqb status tfe.RunForceCanceled
  || String.eqb status tfe.RunErrored.

(** What the wait reports when it gives up on a run that shows no decisive
    status: the cancellation by the caller, which only a context that its
    caller cancels reports, the deadline, or the last retryable error of
    the probe. *)
Definition undecided_report (ctx : Context) (msg : string) : Prop :=
  (msg = Canceled /\ exists t : Z, ctx = Some (t, ByCancel))
  \/ msg = DeadlineExceeded
  \/ msg = "still awaiting decision"
  \/ exists status : string, msg = ("unexpected status: " ++ status)%string.

(** An event lies within the deadline [d] of the context: a sleep ends by
    [d], a gateway call is issued before [d]. *)
Definition event_within (d : Z) (e : Event) : Prop :=
  match e with
  | EvSleep began dur => began + dur <= d
  | EvCall issued _ _ => issued < d
  | EvLog _ => True
  end.

(** A run that has been overridden. *)
Definition client_overridden : Client nat :=
  scripted_client [] tfe.RunPolicyOverride None None None 200000000.

(** A run that has been applied already. *)
Definition client_applied_already : Client nat :=
  scripted_client [] tfe.RunApplied None None None 200000000.

(** A gateway that answers every read of the run with a rate limit. *)
Definition client_rate_limited : Client nat :=
  MkClient
    (fun _ n => MkReply (Failed "429 Too Many Requests") n 200000000)
    (TaskStages_Override client_overridden)
    (PolicyChecks_Override client_overridden)
    (Comments_Create client_overridden).

Definition options_wait_5min : WaitForPolicyOptions.t :=
  WaitForPolicyOptions.Build "run-abc123" (5 * Minute).

(** ** Retrieval of an evaluation (research.md) *)

Module Retrieval.

(** The run as [GetPolicyEvaluation] reads it: the run, and the identifier
    of its legacy policy check ([run.PolicyCheckID]). *)
Record RunRead : Type := MkRunRead {
  run : tfe.Run.t;
  PolicyCheckID : string
}.

(** The policy evaluation as [PolicyEvaluations.Read] returns it.
    [ResultCount] is a pointer ([*tfe.PolicyResultCount]): [None] is the nil
    pointer. *)
Record PolicyEvaluationRead : Type := MkPolicyEvaluationRead {
  Status : string;
  ResultCount : option tfe.PolicyResultCount.t;
  PolicySetOutcomes : list tfe.PolicySetOutcome.t
}.

(** An evaluation that carries its result count. *)
Definition received (policyEval : tfe.PolicyEvaluation.t) : PolicyEvaluationRead :=
  MkPolicyEvaluationRead
    (tfe.PolicyEvaluation.Status policyEval)
    (Some (tfe.PolicyEvaluation.ResultCount policyEval))
    (tfe.PolicyEvaluation.PolicySetOutcomes policyEval).

(** The evaluation with [ResultCount] dereferenced; [None] when the pointer
    is nil. *)
Definition deref (policyEval : PolicyEvaluationRead) : option tfe.PolicyEvaluation.t :=
  match ResultCount policyEval with
  | Some rc =>
      Some (tfe.PolicyEvaluation.Build (Status policyEval) rc
              (PolicySetOutcomes policyEval))
  | None => None
  end.

(** The calls of the retrieval on the go-tfe client. *)
Inductive Call : Type :=
| CallRunsReadWithOptions (runID : string)
| CallTaskStagesList (runID : string)
| CallPolicyEvaluationsRead (stageID : string)
| CallPolicyChecksRead (checkID : string).

Inductive Event : Type :=
| EvCall (c : Call)
| EvLog (msg : string).

(** The part of the go-tfe client the retrieval uses, over a gateway whose
    state has type [G]: each call answers and moves the gateway on. *)
Record Client (G : Type) : Type := MkClient {
  Runs_ReadWithOptions : string -> G -> outcome RunRead * G;
  TaskStages_List : string -> G -> outcome (list tfe.TaskStage.t) * G;
  PolicyEvaluations_Read : string -> G -> outcome PolicyEvaluationRead * G;
  PolicyChecks_Read : string -> G -> outcome tfe.PolicyCheck.t * G
}.

Arguments MkClient {G} _ _ _ _.
Arguments Runs_ReadWithOptions {G} _ _ _.
Arguments TaskStages_List {G} _ _ _.
Arguments PolicyEvaluations_Read {G} _ _ _.
Arguments PolicyChecks_Read {G} _ _ _.

(** The gateway and the events so far, the oldest first. *)
Record State (G : Type) : Type := MkState {
  gateway : G;
  trace : list Event
}.

Arguments MkState {G} _ _.
Arguments gateway {G} _.
Arguments trace {G} _.

Definition call {G A : Type} (c : Call) (op : G -> outcome A * G) (st : State G)
    : outcome A * State G :=
  let (r, g) := op (gateway st) in
  (r, MkState g (trace st ++ [EvCall c])).

Definition log_Printf {G : Type} (msg : string) (st : State G) : State G :=
  MkState (gateway st) (trace st ++ [EvLog msg]).

(** What a call of the retrieval comes to: it returns, or it panics on a
    nil pointer. *)
Inductive result (A : Type) : Type :=
| Returns (r : outcome A)
| Panics.

Arguments Returns {A} r.
Arguments Panics {A}.

(** The loop of [getPolicyFromTaskStages] that looks for the policy stage:
    the first stage of the list that is a pre-plan or a post-plan stage;
    [None] is the nil pointer the variable starts with. *)
Fixpoint find_policy_stage (items : list tfe.TaskStage.t) : option tfe.TaskStage.t :=
  match items with
  | [] => None
  | stage :: rest =>
      if String.eqb (tfe.TaskStage.Stage stage) tfe.PrePlan
         || String.eqb (tfe.TaskStage.Stage stage) tfe.PostPlan
      then Some stage
      else find_policy_stage rest
  end.

Section Service.

Context {G : Type}.
Variable s : Client G.

(** [getPolicyFromTaskStages]: [policyStage.ID] is evaluated whether a stage
    was found or not, and [policyEval.ResultCount] is dereferenced, for
    [RequiresOverride], whether it is nil or not; both panic on the nil
    pointer.  Nothing else is done between the read of the evaluation and
    the dereference. *)
Definition getPolicyFromTaskStages
    (run : tfe.Run.t) (taskStages : list tfe.TaskStage.t) (st : State G)
    : result PolicyEvaluation.t * State G :=
  match find_policy_stage taskStages with
  | None => (Panics, st)
  | Some policyStage =>
      let (r, st) :=
        call (CallPolicyEvaluationsRead (tfe.TaskStage.ID policyStage))
          (PolicyEvaluations_Read s (tfe.TaskStage.ID policyStage)) st in
      match r with
      | Failed err => (Returns (Failed err), st)
      | Ok policyEval =>
          match deref policyEval with
          | None => (Panics, st)
          | Some policyEval =>
              (Returns (Ok (buildFromTaskStage run policyStage policyEval)), st)
          end
      end
  end.

(** The fallback of [GetPolicyEvaluation] to the legacy policy check. *)
Definition fallBackToPolicyCheck (rr : RunRead) (st : State G)
    : result PolicyEvaluation.t * State G :=
  let st :=
    log_Printf
      "[DEBUG] Task stages not available, falling back to legacy policy-checks API"
      st in
  let (r, st) :=
    call (CallPolicyChecksRead (PolicyCheckID rr))
      (PolicyChecks_Read s (PolicyCheckID rr)) st in
  match r with
  | Failed err => (Returns (Failed ("error reading policy check: " ++ err)%string), st)
  | Ok policyCheck => (Returns (Ok (getPolicyFromPolicyCheck (run rr) policyCheck)), st)
  end.

(** [GetPolicyEvaluation]: the modern API when the list of task stages is
    read and not empty, the legacy API otherwise. *)
Definition GetPolicyEvaluation (options : GetPolicyEvaluationOptions.t) (st : State G)
    : result PolicyEvaluation.t * State G :=
  let (r, st) :=
    call (CallRunsReadWithOptions (GetPolicyEvaluationOptions.RunID options))
      (Runs_ReadWithOptions s (GetPolicyEvaluationOptions.RunID options)) st in
  match r with
  | Failed err => (Returns (Failed ("error reading run: " ++ err)%string), st)
  | Ok rr =>
      let (l, st) :=
        call (CallTaskStagesList (tfe.Run.ID (run rr)))
          (TaskStages_List s (tfe.Run.ID (run rr))) st in
      match l with
      | Ok (item :: items) => getPolicyFromTaskStages (run rr) (item :: items) st
      | Ok [] => fallBackToPolicyCheck rr st
      | Failed _ => fallBackToPolicyCheck rr st
      end
  end.

End Service.

(** The calls of a trace. *)
Fixpoint calls_of (tr : list Event) : list Call :=
  match tr with
  | [] => []
  | EvCall c :: rest => c :: calls_of rest
  | EvLog _ :: rest => calls_of rest
  end.

(** A scripted gateway for one run: the list of its task stages (or the
    error of the listing), the evaluation of every stage as it is read, and
    the legacy check. *)
Definition scripted_read
    (rr : RunRead) (stages : outcome (list tfe.TaskStage.t))
    (policyEval : PolicyEvaluationRead) (check : outcome tfe.PolicyCheck.t)
    : Client unit :=
  MkClient
    (fun _ g => (Ok rr, g))
    (fun _ g => (stages, g))
    (fun _ g => (Ok policyEval, g))
    (fun _ g => (check, g)).

(** The scripted gateway whose evaluation carries its result count. *)
Definition scripted
    (rr : RunRead) (stages : outcome (list tfe.TaskStage.t))
    (policyEval : tfe.PolicyEvaluation.t) (check : outcome tfe.PolicyCheck.t)
    : Client unit :=
  scripted_read rr stages (received policyEval) check.

Definition state0 : State unit := MkState tt [].

End Retrieval.

(** Run [run-abc123] as the retrieval reads it, with its stages: a pre-apply
    stage, the post-plan stage and a pre-plan stage. *)
Definition read_abc123 : Retrieval.RunRead :=
  Retrieval.MkRunRead run_abc123 "polchk-abc123".

Definition stages_abc123 : list tfe.TaskStage.t :=
  [ tfe.TaskStage.Build "ts-apply1" "pre_apply" "pending";
    stage_abc123;
    tfe.TaskStage.Build "ts-plan0" tfe.PrePlan "passed" ].

Definition options_show : GetPolicyEvaluationOptions.t :=
  GetPolicyEvaluationOptions.Build "run-abc123" false.

(** An evaluation read without its result count. *)
Definition eval_without_count : Retrieval.PolicyEvaluationRead :=
  Retrieval.MkPolicyEvaluationRead "failed" None [].

(** ** Properties *)

(** *** Resource identifiers *)

Example validStringID_examples :
  validStringID "run-abc123" = true
  /\ validStringID "ts-xyz789" = true
  /\ validStringID "polchk-Ab9" = true
  /\ validStringID "" = false
  /\ validStringID "run-" = false
  /\ validStringID "-abc" = false
  /\ validStringID "Run-abc" = false
  /\ validStringID "run-abc-1" = false
  /\ validStringID "run_abc" = false
  /\ validStringID "run-abc " = false.
Proof. repeat split; reflexivity. Qed.

(** *** Go integers *)

Lemma wrap_in_range (z : Z) : GoInt.in_range z -> GoInt.wrap z = z.
Proof.
  unfold GoInt.in_range, GoInt.min_int, GoInt.max_int, GoInt.wrap.
  intros H. rewrite Z.mod_small; lia.
Qed.

Lemma incr_no_overflow (z : Z) : 0 <= z < GoInt.max_int -> GoInt.incr z = z + 1.
Proof.
  intros H. unfold GoInt.incr, GoInt.add. apply wrap_in_range.
  unfold GoInt.in_range, GoInt.min_int, GoInt.max_int in *. lia.
Qed.

Lemma add_no_overflow (a b : Z) :
  GoInt.in_range (a + b) -> GoInt.add a b = a + b.
Proof. intros H. unfold GoInt.add. now apply wrap_in_range. Qed.

(** *** Tallies of legacy outcomes *)

Lemma tally_cons (p : tfe.PolicyOutcome.t -> bool) o l :
  tally p (o :: l) = (if p o then 1 else 0) + tally p l.
Proof.
  unfold tally. simpl. destruct (p o); simpl List.length; lia.
Qed.

Lemma tally_nonneg p l : 0 <= tally p l.
Proof. unfold tally. lia. Qed.

Lemma tally_le_length p l : tally p l <= Z.of_nat (List.length l).
Proof.
  unfold tally. pose proof (filter_length_le p l). lia.
Qed.

(** The four classes partition the recognized outcomes. *)
Lemma tally_recognized l :
  tally is_recognized l =
  tally is_passed l + tally is_failed_advisory l
  + tally is_failed_mandatory l + tally is_errored l.
Proof.
  induction l as [|o l IH]; [reflexivity|].
  rewrite !tally_cons, IH.
  unfold is_recognized, is_passed, is_failed_advisory, is_failed_mandatory, is_errored.
  destruct (String.eqb_spec (tfe.PolicyOutcome.Outcome o) "passed") as [E|E].
  - rewrite E. cbn -[Z.add tally]. lia.
  - destruct (String.eqb_spec (tfe.PolicyOutcome.Outcome o) "failed") as [F|F].
    + rewrite F. cbn -[Z.add tally].
      destruct (String.eqb (tfe.PolicyOutcome.EnforcementLevel o) "mandatory");
        cbn -[Z.add tally]; lia.
    + destruct (String.eqb (tfe.PolicyOutcome.Outcome o) "errored");
        cbn -[Z.add tally]; lia.
Qed.

(** *** The loop of the legacy mapping *)

Lemma outcome_cases (o : tfe.PolicyOutcome.t) :
  (is_passed o = true /\ is_failed_advisory o = false
   /\ is_failed_mandatory o = false /\ is_errored o = false)
  \/ (is_passed o = false /\ is_failed_advisory o = true
      /\ is_failed_mandatory o = false /\ is_errored o = false)
  \/ (is_passed o = false /\ is_failed_advisory o = false
      /\ is_failed_mandatory o = true /\ is_errored o = false)
  \/ (is_passed o = false /\ is_failed_advisory o = false
      /\ is_failed_mandatory o = false /\ is_errored o = true)
  \/ (is_passed o = false /\ is_failed_advisory o = false
      /\ is_failed_mandatory o = false /\ is_errored o = false).
Proof.
  unfold is_passed, is_failed_advisory, is_failed_mandatory, is_errored.
  destruct (String.eqb_spec (tfe.PolicyOutcome.Outcome o) "passed") as [E|E].
  - rewrite E. left. repeat split; reflexivity.
  - destruct (String.eqb_spec (tfe.PolicyOutcome.Outcome o) "failed") as [F|F].
    + rewrite F.
      destruct (String.eqb (tfe.PolicyOutcome.EnforcementLevel o) "mandatory").
      * right; right; left. repeat split; reflexivity.
      * right; left. repeat split; reflexivity.
    + destruct (String.eqb (tfe.PolicyOutcome.Outcome o) "errored").
      * right; right; right; left. repeat split; reflexivity.
      * right; right; right; right. repeat split; reflexivity.
Qed.

(** One iteration, by the class of the outcome. *)
Lemma step_by_class (r : PolicyEvaluation.t) (o : tfe.PolicyOutcome.t) :
  policyCheck_outcome_step r o =
  if is_passed o then
    PolicyEvaluation.set_PassedCount (GoInt.incr (PolicyEvaluation.PassedCount r)) r
  else if is_failed_mandatory o then
    PolicyEvaluation.set_FailedPolicies
      (PolicyEvaluation.FailedPolicies r ++ [legacy_detail o])
      (PolicyEvaluation.set_MandatoryFailedCount
         (GoInt.incr (PolicyEvaluation.MandatoryFailedCount r)) r)
  else if is_failed_advisory o then
    PolicyEvaluation.set_AdvisoryFailedCount
      (GoInt.incr (PolicyEvaluation.AdvisoryFailedCount r)) r
  else if is_errored o then
    PolicyEvaluation.set_ErroredCount (GoInt.incr (PolicyEvaluation.ErroredCount r)) r
  else r.
Proof.
  unfold policyCheck_outcome_step, is_passed, is_failed_mandatory,
    is_failed_advisory, is_errored, legacy_detail.
  destruct (String.eqb (tfe.PolicyOutcome.Outcome o) "passed"); [reflexivity|].
  destruct (String.eqb (tfe.PolicyOutcome.Outcome o) "failed"); simpl.
  - destruct (String.eqb (tfe.PolicyOutcome.EnforcementLevel o) "mandatory");
      reflexivity.
  - reflexivity.
Qed.

(** The loop adds to each counter the tally of its class and appends the
    mandatory failures, in order; no other field changes. *)
Lemma legacy_loop (l : list tfe.PolicyOutcome.t) :
  forall r : PolicyEvaluation.t,
    counts_room r (Z.of_nat (List.length l)) ->
    fold_left policyCheck_outcome_step l r =
    PolicyEvaluation.Build
      (PolicyEvaluation.RunID r) (PolicyEvaluation.PolicyStageID r)
      (PolicyEvaluation.PolicyCheckID r) (PolicyEvaluation.TotalCount r)
      (PolicyEvaluation.PassedCount r + tally is_passed l)
      (PolicyEvaluation.AdvisoryFailedCount r + tally is_failed_advisory l)
      (PolicyEvaluation.MandatoryFailedCount r + tally is_failed_mandatory l)
      (PolicyEvaluation.ErroredCount r + tally is_errored l)
      (PolicyEvaluation.FailedPolicies r
       ++ map legacy_detail (filter is_failed_mandatory l))
      (PolicyEvaluation.Status r) (PolicyEvaluation.RequiresOverride r).
Proof.
  induction l as [|o l IH]; intros r Hroom.
  - destruct r; cbn -[Z.add]. rewrite app_nil_r. f_equal; unfold tally; simpl; lia.
  - cbn [fold_left]. rewrite !tally_cons. cbn [filter].
    unfold counts_room in Hroom. cbn [List.length] in Hroom.
    rewrite Nat2Z.inj_succ in Hroom.
    rewrite step_by_class.
    destruct (outcome_cases o) as [C|[C|[C|[C|C]]]];
      destruct C as (Cp & Ca & Cm & Ce); rewrite Cp, ?Ca, ?Cm, ?Ce;
      (rewrite IH; [| unfold counts_room; destruct r;
                      cbn -[Z.add Z.of_nat GoInt.max_int] in *;
                      rewrite ?incr_no_overflow by lia; lia]);
      destruct r; cbn -[Z.add Z.of_nat GoInt.max_int tally] in *;
      rewrite ?incr_no_overflow by lia;
      rewrite <- ?app_assoc; cbn [app]; f_equal; lia.
Qed.

(** The loop leaves the identifiers and the status alone, whatever the
    number of outcomes. *)
Lemma legacy_loop_frame (l : list tfe.PolicyOutcome.t) :
  forall r : PolicyEvaluation.t,
    PolicyEvaluation.RunID (fold_left policyCheck_outcome_step l r)
    = PolicyEvaluation.RunID r
    /\ PolicyEvaluation.PolicyStageID (fold_left policyCheck_outcome_step l r)
       = PolicyEvaluation.PolicyStageID r
    /\ PolicyEvaluation.PolicyCheckID (fold_left policyCheck_outcome_step l r)
       = PolicyEvaluation.PolicyCheckID r
    /\ PolicyEvaluation.Status (fold_left policyCheck_outcome_step l r)
       = PolicyEvaluation.Status r.
Proof.
  induction l as [|o l IH]; intros r; cbn [fold_left].
  - repeat split.
  - destruct (IH (policyCheck_outcome_step r o)) as (H1 & H2 & H3 & H4).
    rewrite H1, H2, H3, H4, step_by_class.
    destruct (is_passed o); [repeat split|].
    destruct (is_failed_mandatory o); [repeat split|].
    destruct (is_failed_advisory o); [repeat split|].
    destruct (is_errored o); repeat split.
Qed.

(** Closed form of the legacy mapping. *)
Lemma getPolicyFromPolicyCheck_closed (run : tfe.Run.t) (check : tfe.PolicyCheck.t) :
  slice_len_ok (tfe.PolicyCheck.PolicySetOutcomes check) ->
  let l := tfe.PolicyCheck.PolicySetOutcomes check in
  getPolicyFromPolicyCheck run check =
  PolicyEvaluation.Build
    (tfe.Run.ID run) "" (tfe.PolicyCheck.ID check)
    (tally is_passed l + tally is_failed_advisory l
     + tally is_failed_mandatory l + tally is_errored l)
    (tally is_passed l) (tally is_failed_advisory l)
    (tally is_failed_mandatory l) (tally is_errored l)
    (map legacy_detail (filter is_failed_mandatory l))
    (tfe.PolicyCheck.Status check)
    (0 <? tally is_failed_mandatory l).
Proof.
  intros Hlen l. unfold getPolicyFromPolicyCheck. fold l.
  unfold slice_len_ok in Hlen. fold l in Hlen.
  rewrite legacy_loop
    by (unfold counts_room; cbn -[Z.add Z.of_nat GoInt.max_int List.length]; lia).
  unfold policyCheck_finish. cbn -[Z.add tally GoInt.add].
  pose proof (tally_recognized l) as Hrec.
  pose proof (tally_le_length is_recognized l) as Hle.
  pose proof (tally_nonneg is_passed l).
  pose proof (tally_nonneg is_failed_advisory l).
  pose proof (tally_nonneg is_failed_mandatory l).
  pose proof (tally_nonneg is_errored l).
  assert (Hmin : GoInt.min_int <= 0) by (unfold GoInt.min_int; lia).
  rewrite !Z.add_0_l.
  rewrite (add_no_overflow (tally is_passed l) (tally is_failed_advisory l))
    by (unfold GoInt.in_range; lia).
  rewrite (add_no_overflow (tally is_passed l + tally is_failed_advisory l))
    by (unfold GoInt.in_range; lia).
  rewrite (add_no_overflow
             (tally is_passed l + tally is_failed_advisory l
              + tally is_failed_mandatory l))
    by (unfold GoInt.in_range; lia).
  reflexivity.
Qed.

(** The mapping of data-model.md is the one of research.md without the run
    identifier. *)
Lemma mapFromPolicyCheck_as_get (check : tfe.PolicyCheck.t) :
  mapFromPolicyCheck check =
  getPolicyFromPolicyCheck (tfe.Run.Build "" "" None None) check.
Proof. reflexivity. Qed.

Lemma legacy_normalizer_as_get run f :
  legacy_normalizer run f ->
  exists run', forall check, f check = getPolicyFromPolicyCheck run' check.
Proof.
  intros [-> | ->].
  - exists (tfe.Run.Build "" "" None None). intros. apply mapFromPolicyCheck_as_get.
  - exists run. reflexivity.
Qed.

(** An outcome that is not recognized leaves the accumulator as it is. *)
Lemma step_unrecognized r o :
  is_recognized o = false -> policyCheck_outcome_step r o = r.
Proof.
  unfold is_recognized, policyCheck_outcome_step. intros H.
  apply orb_false_iff in H. destruct H as [H He].
  apply orb_false_iff in H. destruct H as [Hp Hf].
  now rewrite Hp, Hf, He.
Qed.

Lemma tally_recognized_lt (l : list tfe.PolicyOutcome.t) :
  existsb (fun o => negb (is_recognized o)) l = true ->
  tally is_recognized l < Z.of_nat (List.length l).
Proof.
  induction l as [|o l IH]; [discriminate|].
  cbn [existsb List.length]. rewrite tally_cons, Nat2Z.inj_succ.
  pose proof (tally_le_length is_recognized l) as Hle.
  destruct (is_recognized o); cbn [negb orb]; intros Hex.
  - apply IH in Hex. lia.
  - lia.
Qed.

(** C8: for a legacy policy check whose outcomes are, in order, passed,
    failed at level mandatory, failed at level advisory and errored, the
    legacy normalizer returns passed_count = 1, advisory_failed_count = 1,
    mandatory_failed_count = 1, errored_count = 1 and total_count = 4. *)
Theorem legacy_scenario_counts
    (run : tfe.Run.t) (f : tfe.PolicyCheck.t -> PolicyEvaluation.t)
    (check : tfe.PolicyCheck.t) (e1 e4 : string) :
  legacy_normalizer run f ->
  map (fun o => (tfe.PolicyOutcome.Outcome o, tfe.PolicyOutcome.EnforcementLevel o))
    (tfe.PolicyCheck.PolicySetOutcomes check)
  = [ ("passed", e1); ("failed", "mandatory"); ("failed", "advisory"); ("errored", e4) ] ->
  PolicyEvaluation.PassedCount (f check) = 1
  /\ PolicyEvaluation.AdvisoryFailedCount (f check) = 1
  /\ PolicyEvaluation.MandatoryFailedCount (f check) = 1
  /\ PolicyEvaluation.ErroredCount (f check) = 1
  /\ PolicyEvaluation.TotalCount (f check) = 4.
Proof.
  intros Hf Hout.
  destruct check as [id status outs]. cbn [tfe.PolicyCheck.PolicySetOutcomes] in Hout.
  destruct outs as [|[o1 l1 n1] [|[o2 l2 n2] [|[o3 l3 n3] [|[o4 l4 n4] [|? ?]]]]];
    try discriminate Hout.
  cbn in Hout. injection Hout as -> -> -> -> -> -> -> ->.
  destruct Hf as [-> | ->]; repeat split; reflexivity.
Qed.

Lemma legacy_scenario_counts_witness :
  PolicyEvaluation.PassedCount (getPolicyFromPolicyCheck run_xyz789 check_xyz789) = 1
  /\ PolicyEvaluation.AdvisoryFailedCount (getPolicyFromPolicyCheck run_xyz789 check_xyz789) = 1
  /\ PolicyEvaluation.MandatoryFailedCount (getPolicyFromPolicyCheck run_xyz789 check_xyz789) = 1
  /\ PolicyEvaluation.ErroredCount (getPolicyFromPolicyCheck run_xyz789 check_xyz789) = 1
  /\ PolicyEvaluation.TotalCount (getPolicyFromPolicyCheck run_xyz789 check_xyz789) = 4.
Proof.
  apply (legacy_scenario_counts run_xyz789 (getPolicyFromPolicyCheck run_xyz789)
           check_xyz789 "mandatory" "mandatory").
  - right; reflexivity.
  - reflexivity.
Defined.

(** C10: in the legacy path an outcome whose text is none of "passed",
    "failed", "errored" adds to none of the four counts and to no
    failed-policy entry (the result is the one of the check without that
    outcome), so total_count is the number of recognized outcomes; it is at
    most the number of outcomes of the raw input and strictly smaller as
    soon as one outcome is not recognized, as for [check_unknown_outcome]. *)
Theorem legacy_unrecognized_outcome_ignored
    (run : tfe.Run.t) (f : tfe.PolicyCheck.t -> PolicyEvaluation.t)
    (check : tfe.PolicyCheck.t) :
  legacy_normalizer run f ->
  slice_len_ok (tfe.PolicyCheck.PolicySetOutcomes check) ->
  let l := tfe.PolicyCheck.PolicySetOutcomes check in
  (forall l1 o l2,
      l = l1 ++ o :: l2 -> is_recognized o = false ->
      f check
      = f (tfe.PolicyCheck.Build (tfe.PolicyCheck.ID check)
             (tfe.PolicyCheck.Status check) (l1 ++ l2)))
  /\ PolicyEvaluation.TotalCount (f check) = tally is_recognized l
  /\ PolicyEvaluation.TotalCount (f check) <= Z.of_nat (List.length l)
  /\ (existsb (fun o => negb (is_recognized o)) l = true ->
      PolicyEvaluation.TotalCount (f check) < Z.of_nat (List.length l))
  /\ PolicyEvaluation.TotalCount (f check_unknown_outcome)
     < Z.of_nat (List.length (tfe.PolicyCheck.PolicySetOutcomes check_unknown_outcome)).
Proof.
  intros Hf Hlen l.
  assert (Htotal : PolicyEvaluation.TotalCount (f check) = tally is_recognized l).
  { destruct (legacy_normalizer_as_get run f Hf) as [run' Hrun'].
    rewrite Hrun', getPolicyFromPolicyCheck_closed by exact Hlen.
    fold l. rewrite tally_recognized. reflexivity. }
  split; [| split; [exact Htotal | split; [| split]]].
  - intros l1 o l2 Hl Ho.
    destruct (legacy_normalizer_as_get run f Hf) as [run' Hrun'].
    rewrite !Hrun'. unfold getPolicyFromPolicyCheck.
    cbn [tfe.PolicyCheck.PolicySetOutcomes tfe.PolicyCheck.ID tfe.PolicyCheck.Status].
    fold l. rewrite Hl, !fold_left_app. cbn [fold_left].
    now rewrite step_unrecognized.
  - rewrite Htotal. apply tally_le_length.
  - intros Hex. rewrite Htotal. now apply tally_recognized_lt.
  - destruct Hf as [-> | ->]; reflexivity.
Qed.

Lemma legacy_unrecognized_outcome_ignored_witness :
  PolicyEvaluation.TotalCount (getPolicyFromPolicyCheck run_xyz789 check_unknown_outcome)
  = tally is_recognized (tfe.PolicyCheck.PolicySetOutcomes check_unknown_outcome).
Proof.
  apply (legacy_unrecognized_outcome_ignored run_xyz789
           (getPolicyFromPolicyCheck run_xyz789) check_unknown_outcome).
  - right; reflexivity.
  - unfold slice_len_ok, GoInt.max_int. simpl. lia.
Defined.

(** *** The loop of the modern mapping *)

Lemma modern_loop (l : list tfe.PolicySetOutcome.t) :
  forall r : PolicyEvaluation.t,
    fold_left taskStage_outcome_step l r =
    PolicyEvaluation.set_FailedPolicies
      (PolicyEvaluation.FailedPolicies r
       ++ map modern_detail (filter has_mandatory_failure l)) r.
Proof.
  induction l as [|o l IH]; intros r.
  - destruct r; cbn. now rewrite app_nil_r.
  - cbn [fold_left filter]. rewrite IH.
    unfold taskStage_outcome_step, has_mandatory_failure.
    destruct (0 <? tfe.PolicyResultCount.MandatoryFailed
                     (tfe.PolicySetOutcome.Outcomes o)).
    + destruct r; cbn. now rewrite <- app_assoc.
    + reflexivity.
Qed.

(** Closed form of the modern mapping. *)
Lemma buildFromTaskStage_closed run policyStage policyEval :
  let rc := tfe.PolicyEvaluation.ResultCount policyEval in
  buildFromTaskStage run policyStage policyEval =
  PolicyEvaluation.Build
    (tfe.Run.ID run) (tfe.TaskStage.ID policyStage) ""
    (GoInt.add
       (GoInt.add
          (GoInt.add (tfe.PolicyResultCount.Passed rc)
             (tfe.PolicyResultCount.AdvisoryFailed rc))
          (tfe.PolicyResultCount.MandatoryFailed rc))
       (tfe.PolicyResultCount.Errored rc))
    (tfe.PolicyResultCount.Passed rc)
    (tfe.PolicyResultCount.AdvisoryFailed rc)
    (tfe.PolicyResultCount.MandatoryFailed rc)
    (tfe.PolicyResultCount.Errored rc)
    (map modern_detail
       (filter has_mandatory_failure (tfe.PolicyEvaluation.PolicySetOutcomes policyEval)))
    (tfe.PolicyEvaluation.Status policyEval)
    (0 <? tfe.PolicyResultCount.MandatoryFailed rc).
Proof.
  intros rc. unfold buildFromTaskStage. rewrite modern_loop. reflexivity.
Qed.

(** The mapping of data-model.md is the one of research.md without the run
    identifier. *)
Lemma mapFromTaskStage_as_build taskStage policyEval :
  mapFromTaskStage taskStage policyEval =
  buildFromTaskStage (tfe.Run.Build "" "" None None) taskStage policyEval.
Proof. reflexivity. Qed.

(** *** Validation of a normalized evaluation *)

(** For a value whose total and override flag are derived from its counts
    and that carries at most one of the two identifiers, [Validate] checks
    the run identifier, the presence of an identifier and the signs. *)
Lemma Validate_derived (pe : PolicyEvaluation.t) :
  PolicyEvaluation.TotalCount pe
  = GoInt.add
      (GoInt.add
         (GoInt.add (PolicyEvaluation.PassedCount pe)
            (PolicyEvaluation.AdvisoryFailedCount pe))
         (PolicyEvaluation.MandatoryFailedCount pe))
      (PolicyEvaluation.ErroredCount pe) ->
  PolicyEvaluation.RequiresOverride pe = (0 <? PolicyEvaluation.MandatoryFailedCount pe) ->
  PolicyEvaluation.PolicyStageID pe = "" \/ PolicyEvaluation.PolicyCheckID pe = "" ->
  (PolicyEvaluation.Validate pe = nil
   <-> validStringID (PolicyEvaluation.RunID pe) = true
       /\ (PolicyEvaluation.PolicyStageID pe <> "" \/ PolicyEvaluation.PolicyCheckID pe <> "")
       /\ 0 <= PolicyEvaluation.TotalCount pe
       /\ 0 <= PolicyEvaluation.PassedCount pe
       /\ 0 <= PolicyEvaluation.AdvisoryFailedCount pe
       /\ 0 <= PolicyEvaluation.MandatoryFailedCount pe
       /\ 0 <= PolicyEvaluation.ErroredCount pe).
Proof.
  intros Htotal Hreq Hone. unfold PolicyEvaluation.Validate, nil.
  rewrite <- Htotal, Hreq, Z.eqb_refl, Bool.eqb_reflx. cbn [negb].
  destruct (validStringID (PolicyEvaluation.RunID pe)); cbn [negb];
    [| split; [discriminate | intros [? _]; discriminate]].
  destruct (String.eqb_spec (PolicyEvaluation.PolicyStageID pe) "") as [Es|Es];
    destruct (String.eqb_spec (PolicyEvaluation.PolicyCheckID pe) "") as [Ec|Ec];
    cbn [andb negb].
  - split; [discriminate | intros (_ & [?|?] & _); congruence].
  - destruct (Z.ltb_spec (PolicyEvaluation.TotalCount pe) 0);
      destruct (Z.ltb_spec (PolicyEvaluation.PassedCount pe) 0);
      destruct (Z.ltb_spec (PolicyEvaluation.AdvisoryFailedCount pe) 0);
      destruct (Z.ltb_spec (PolicyEvaluation.MandatoryFailedCount pe) 0);
      destruct (Z.ltb_spec (PolicyEvaluation.ErroredCount pe) 0);
      cbn [orb]; split; try discriminate; try (intros; lia);
      intros _; repeat split; auto; lia.
  - destruct (Z.ltb_spec (PolicyEvaluation.TotalCount pe) 0);
      destruct (Z.ltb_spec (PolicyEvaluation.PassedCount pe) 0);
      destruct (Z.ltb_spec (PolicyEvaluation.AdvisoryFailedCount pe) 0);
      destruct (Z.ltb_spec (PolicyEvaluation.MandatoryFailedCount pe) 0);
      destruct (Z.ltb_spec (PolicyEvaluation.ErroredCount pe) 0);
      cbn [orb]; split; try discriminate; try (intros; lia);
      intros _; repeat split; auto; lia.
  - destruct Hone; congruence.
Qed.

(** C1, as the code has it: every PolicyEvaluation the normalizer produces,
    on the modern or on the legacy path, has total_count equal to the sum
    (of Go's [int]) of its four counts and requires_override true exactly
    when mandatory_failed_count > 0.  On the legacy path the four counts are
    not negative and total_count is their sum without wrap-around; on the
    modern path the four counts are the ones of the upstream summary.  The
    value passes [Validate] exactly when the run identifier is well formed,
    the stage or check identifier is not empty and none of the five counts
    is negative. *)
Theorem normalize_invariants (raw : RawEvaluation) :
  raw_well_formed raw ->
  let pe := normalize raw in
  PolicyEvaluation.TotalCount pe
  = GoInt.add
      (GoInt.add
         (GoInt.add (PolicyEvaluation.PassedCount pe)
            (PolicyEvaluation.AdvisoryFailedCount pe))
         (PolicyEvaluation.MandatoryFailedCount pe))
      (PolicyEvaluation.ErroredCount pe)
  /\ (PolicyEvaluation.RequiresOverride pe = true
      <-> 0 < PolicyEvaluation.MandatoryFailedCount pe)
  /\ match raw with
     | RawLegacy _ _ =>
         0 <= PolicyEvaluation.PassedCount pe
         /\ 0 <= PolicyEvaluation.AdvisoryFailedCount pe
         /\ 0 <= PolicyEvaluation.MandatoryFailedCount pe
         /\ 0 <= PolicyEvaluation.ErroredCount pe
         /\ PolicyEvaluation.TotalCount pe
            = PolicyEvaluation.PassedCount pe
              + PolicyEvaluation.AdvisoryFailedCount pe
              + PolicyEvaluation.MandatoryFailedCount pe
              + PolicyEvaluation.ErroredCount pe
     | RawModern _ _ policyEval =>
         let rc := tfe.PolicyEvaluation.ResultCount policyEval in
         PolicyEvaluation.PassedCount pe = tfe.PolicyResultCount.Passed rc
         /\ PolicyEvaluation.AdvisoryFailedCount pe
            = tfe.PolicyResultCount.AdvisoryFailed rc
         /\ PolicyEvaluation.MandatoryFailedCount pe
            = tfe.PolicyResultCount.MandatoryFailed rc
         /\ PolicyEvaluation.ErroredCount pe = tfe.PolicyResultCount.Errored rc
     end
  /\ (PolicyEvaluation.Validate pe = nil
      <-> validStringID (tfe.Run.ID (raw_run raw)) = true
          /\ raw_source_id raw <> ""
          /\ 0 <= PolicyEvaluation.TotalCount pe
          /\ 0 <= PolicyEvaluation.PassedCount pe
          /\ 0 <= PolicyEvaluation.AdvisoryFailedCount pe
          /\ 0 <= PolicyEvaluation.MandatoryFailedCount pe
          /\ 0 <= PolicyEvaluation.ErroredCount pe).
Proof.
  intros Hwf pe.
  assert (Hshape :
    PolicyEvaluation.TotalCount pe
    = GoInt.add
        (GoInt.add
           (GoInt.add (PolicyEvaluation.PassedCount pe)
              (PolicyEvaluation.AdvisoryFailedCount pe))
           (PolicyEvaluation.MandatoryFailedCount pe))
        (PolicyEvaluation.ErroredCount pe)
    /\ PolicyEvaluation.RequiresOverride pe
       = (0 <? PolicyEvaluation.MandatoryFailedCount pe)
    /\ PolicyEvaluation.RunID pe = tfe.Run.ID (raw_run raw)
    /\ ((PolicyEvaluation.PolicyStageID pe = raw_source_id raw
         /\ PolicyEvaluation.PolicyCheckID pe = "")
        \/ (PolicyEvaluation.PolicyStageID pe = ""
            /\ PolicyEvaluation.PolicyCheckID pe = raw_source_id raw))).
  { subst pe. destruct raw as [run st ev | run check]; cbn [normalize raw_run raw_source_id].
    - rewrite buildFromTaskStage_closed. cbn.
      split; [reflexivity | split; [reflexivity | split; [reflexivity | left]]].
      split; reflexivity.
    - unfold getPolicyFromPolicyCheck, policyCheck_finish.
      match goal with
      | |- context [fold_left policyCheck_outcome_step ?l ?r] =>
          destruct (legacy_loop_frame l r) as (H1 & H2 & H3 & _);
          cbn [PolicyEvaluation.RunID PolicyEvaluation.PolicyStageID
                 PolicyEvaluation.PolicyCheckID] in H1, H2, H3
      end.
      cbn -[fold_left GoInt.add].
      split; [reflexivity | split; [reflexivity | split; [exact H1 | right]]].
      split; assumption. }
  destruct Hshape as (Htotal & Hreq & Hrun & Hids).
  split; [exact Htotal | split; [| split]].
  - rewrite Hreq. apply Z.ltb_lt.
  - subst pe. destruct raw as [run st ev | run check]; cbn [normalize].
    + rewrite buildFromTaskStage_closed. cbn. auto.
    + cbn [raw_well_formed] in Hwf.
      rewrite (getPolicyFromPolicyCheck_closed run check Hwf).
      cbn [PolicyEvaluation.PassedCount PolicyEvaluation.AdvisoryFailedCount
             PolicyEvaluation.MandatoryFailedCount PolicyEvaluation.ErroredCount
             PolicyEvaluation.TotalCount].
      repeat split; try apply tally_nonneg.
  - rewrite Validate_derived; [| exact Htotal | exact Hreq | tauto].
    rewrite Hrun.
    destruct Hids as [[Hs Hc] | [Hs Hc]]; rewrite Hs, Hc; intuition congruence.
Qed.

Lemma normalize_invariants_witness :
  PolicyEvaluation.Validate (normalize (RawLegacy run_xyz789 check_xyz789)) = nil.
Proof.
  apply (normalize_invariants (RawLegacy run_xyz789 check_xyz789)).
  - unfold raw_well_formed, slice_len_ok, GoInt.max_int. simpl. lia.
  - vm_compute. repeat split; congruence.
Defined.

(** C1 as stated fails: the legacy mapping of data-model.md never sets the
    run identifier, so its value does not pass [Validate]; and the modern
    mapping copies a negative upstream count, so not all counts are
    non-negative and the value does not pass [Validate] either. *)
Lemma normalize_invariants_counterexample :
  PolicyEvaluation.Validate (mapFromPolicyCheck check_xyz789) <> nil
  /\ PolicyEvaluation.PassedCount
       (normalize (RawModern run_abc123 stage_abc123 eval_negative)) < 0
  /\ PolicyEvaluation.Validate
       (normalize (RawModern run_abc123 stage_abc123 eval_negative)) <> nil.
Proof.
  split; [| split].
  - vm_compute. discriminate.
  - vm_compute. reflexivity.
  - vm_compute. discriminate.
Qed.

(** *** Format equivalence *)

Lemma map_without_description_modern (l : list tfe.PolicySetOutcome.t) :
  map without_description (map modern_detail l)
  = map (fun n => PolicyDetail.Build n "mandatory" "failed" "")
      (map tfe.PolicySetOutcome.PolicySetName l).
Proof. rewrite !map_map. reflexivity. Qed.

Lemma map_legacy_detail (l : list tfe.PolicyOutcome.t) :
  map legacy_detail l
  = map (fun n => PolicyDetail.Build n "mandatory" "failed" "")
      (map tfe.PolicyOutcome.PolicyName l).
Proof. rewrite map_map. reflexivity. Qed.

Lemma modern_detail_undescribed (l : list tfe.PolicySetOutcome.t) :
  Forall (fun o => tfe.PolicySetOutcome.PolicySetDescription o = "") l ->
  map without_description (map modern_detail l) = map modern_detail l.
Proof.
  induction 1 as [|o l Ho _ IH]; [reflexivity|].
  cbn [map]. rewrite IH. f_equal.
  unfold without_description, modern_detail. cbn. now rewrite Ho.
Qed.




(** *** Validation of an override record *)

Lemma final_status_loop_In (x : string) (l : list string) :
  PolicyOverride.final_status_loop x l = true <-> In x l.
Proof.
  induction l as [|y l IH]; cbn [PolicyOverride.final_status_loop In].
  - split; [discriminate | tauto].
  - destruct (String.eqb_spec x y) as [E|E].
    + split; auto.
    + rewrite IH. split; [auto | intros [H|H]; congruence].
Qed.

(** X3: what [PolicyOverride.Validate] accepts, in full: nothing excludes a
    record that carries both identifiers. *)
Lemma PolicyOverride_Validate_accepts (po : PolicyOverride.t) :
  PolicyOverride.Validate po = nil
  <-> validStringID (PolicyOverride.RunID po) = true
      /\ (PolicyOverride.PolicyStageID po <> "" \/ PolicyOverride.PolicyCheckID po <> "")
      /\ PolicyOverride.Justification po <> ""
      /\ PolicyOverride.InitialStatus po = "post_plan_awaiting_decision"
      /\ In (PolicyOverride.FinalStatus po) PolicyOverride.validFinalStatuses.
Proof.
  unfold PolicyOverride.Validate, nil.
  rewrite <- final_status_loop_In.
  destruct (validStringID (PolicyOverride.RunID po)); cbn [negb];
    [| split; [discriminate | intros [? _]; discriminate]].
  destruct (String.eqb_spec (PolicyOverride.PolicyStageID po) "") as [Es|Es];
    destruct (String.eqb_spec (PolicyOverride.PolicyCheckID po) "") as [Ec|Ec];
    cbn [andb];
    try (split; [discriminate | intros (_ & [?|?] & _); congruence]);
    (destruct (String.eqb_spec (PolicyOverride.Justification po) "") as [Ej|Ej];
     [split; [discriminate | intros (_ & _ & ? & _); congruence] |]);
    (destruct (String.eqb_spec (PolicyOverride.InitialStatus po)
                 "post_plan_awaiting_decision") as [Ei|Ei]; cbn [negb];
     [| split; [discriminate | intros (_ & _ & _ & ? & _); congruence]]);
    (destruct (PolicyOverride.final_status_loop (PolicyOverride.FinalStatus po)
                 PolicyOverride.validFinalStatuses); cbn [negb];
     [split; [intros _; repeat split; auto | reflexivity]
     | split; [discriminate | intros (_ & _ & _ & _ & ?); discriminate]]).
Qed.

(** C9, at the failing input: [PolicyOverride.Validate] accepts a record in
    which policy_stage_id and policy_check_id are both set, where the claim
    (and the sibling [PolicyEvaluation.Validate]) reject the both-set case.
    The same two identifiers on a PolicyEvaluation are rejected as mutually
    exclusive. *)
Theorem PolicyOverride_Validate_both_ids :
  PolicyOverride.PolicyStageID override_both_ids <> ""
  /\ PolicyOverride.PolicyCheckID override_both_ids <> ""
  /\ PolicyOverride.Validate override_both_ids = nil
  /\ PolicyEvaluation.Validate
       (PolicyEvaluation.Build "run-abc123" "ts-xyz789" "polchk-abc123"
          0 0 0 0 0 [] "passed" false)
     = Some "PolicyStageID and PolicyCheckID are mutually exclusive".
Proof.
  repeat split; try discriminate; vm_compute; reflexivity.
Qed.

(** *** The Override Orchestrator *)

Lemma Contains_middle (pre x post : string) : Contains (pre ++ x ++ post)%string x.
Proof. now exists pre, post. Qed.

Lemma string_app_assoc (a b c : string) :
  ((a ++ b) ++ c = a ++ (b ++ c))%string.
Proof. induction a as [|x a IH]; cbn; [reflexivity | now rewrite IH]. Qed.

(** C4: an [OverridePolicy] call against an existing run whose status is not
    post_plan_awaiting_decision returns an error whose message contains both
    the observed status and the expected status
    post_plan_awaiting_decision; the only gateway call is the read of the
    run, so no stage override, check override or comment is performed. *)
Theorem override_outside_awaiting_decision
    {G : Type} (s : Client G) (options : OverridePolicyOptions.t)
    (w : World G) (run : tfe.Run.t) :
  reply (Runs_Read s (OverridePolicyOptions.RunID options) (gateway w)) = Ok run ->
  tfe.Run.Status run <> tfe.RunPostPlanAwaitingDecision ->
  exists (msg : string) (new : list Event),
    fst (OverridePolicy s options w) = Failed msg
    /\ msg = ("run status is " ++ tfe.Run.Status run
              ++ ", expected post_plan_awaiting_decision")%string
    /\ Contains msg (tfe.Run.Status run)
    /\ Contains msg "post_plan_awaiting_decision"
    /\ trace (snd (OverridePolicy s options w)) = new ++ trace w
    /\ calls_of new = [CallRunsRead (OverridePolicyOptions.RunID options)]
    /\ no_mutating_call new.
Proof.
  intros Hread Hstatus.
  apply String.eqb_neq in Hstatus.
  eexists. eexists.
  unfold OverridePolicy, validateOverrideEligibility, bind, perform, ret.
  rewrite Hread, Hstatus. cbn [negb fst snd trace].
  split; [reflexivity | split; [reflexivity | split; [| split; [| split; [| split]]]]].
  - apply Contains_middle.
  - exists ("run status is " ++ tfe.Run.Status run ++ ", expected ")%string, ""%string.
    rewrite !string_app_assoc. reflexivity.
  - instantiate (1 := [EvCall _ _ _]). reflexivity.
  - reflexivity.
  - repeat constructor.
Qed.

Lemma override_outside_awaiting_decision_witness :
  exists (msg : string) (new : list Event),
    fst (OverridePolicy client_applied options_hotfix world0) = Failed msg
    /\ msg = "run status is applied, expected post_plan_awaiting_decision"
    /\ Contains msg "applied"
    /\ Contains msg "post_plan_awaiting_decision"
    /\ trace (snd (OverridePolicy client_applied options_hotfix world0))
       = new ++ trace world0
    /\ calls_of new = [CallRunsRead "run-abc123"]
    /\ no_mutating_call new.
Proof.
  apply (override_outside_awaiting_decision client_applied options_hotfix world0
           (tfe.Run.Build "run-abc123" "applied" (Some stage_abc123) None)).
  - reflexivity.
  - discriminate.
Defined.

(** C2, at the failing input: [OverridePolicy("run-abc123", "hi")] against a
    run that awaits a decision.  [OverridePolicyOptions.Validate] of
    internal/cloud accepts the two-character justification (it rejects the
    empty one only), where the method of the service contract rejects it;
    and [OverridePolicy] reads the run, overrides the stage and creates the
    comment with that justification, returning a PolicyOverride. *)
Theorem override_short_justification :
  (String.length (OverridePolicyOptions.Justification options_short) < 10)%nat
  /\ OverridePolicyOptions.Validate options_short = nil
  /\ OverridePolicyOptions.Validate_contract options_short
     = Some "justification must be at least 10 characters"
  /\ fst (OverridePolicy client_awaiting options_short world0)
     = Ok (PolicyOverride.Build "run-abc123" "ts-xyz789" "" "hi"
             "post_plan_awaiting_decision" "" true 0)
  /\ calls_of (trace (snd (OverridePolicy client_awaiting options_short world0)))
     = [ CallRunsRead "run-abc123";
         CallTaskStagesOverride "ts-xyz789" "hi";
         CallCommentsCreate "run-abc123" "Policy Override: hi" ].
Proof.
  split; [cbn; lia | repeat split; vm_compute; reflexivity].
Qed.

(** The method of internal/cloud rejects the empty justification only. *)
Lemma Validate_rejects_empty_only (o : OverridePolicyOptions.t) :
  validStringID (OverridePolicyOptions.RunID o) = true ->
  (OverridePolicyOptions.Validate o = nil
   <-> OverridePolicyOptions.Justification o <> "").
Proof.
  intros Hid. unfold OverridePolicyOptions.Validate, ErrInvalidJustification,
    errors_New, nil.
  rewrite Hid. cbn [negb].
  destruct (String.eqb_spec (OverridePolicyOptions.Justification o) "");
    split; congruence.
Qed.

(** C5, as the code has it: when the gateway accepts the override and the
    creation of the audit comment fails with the error [err],
    [OverridePolicy] writes the line "[WARN] failed to add comment to run:
    <err>" to the log, right after the call that failed, and returns to its
    caller a record and a nil error: the very value it returns when the
    comment is created.  The log line is the only difference between the
    two invocations: the gateway and the clock end in the same state. *)
Theorem comment_failure_only_logged
    {G : Type} (s : Client G) (options : OverridePolicyOptions.t) (w : World G)
    (run : tfe.Run.t) (g : G) (err : string) :
  let body :=
    ("Policy Override: " ++ OverridePolicyOptions.Justification options)%string in
  let failing := OverridePolicy s options w in
  let succeeding := OverridePolicy (with_comments_ok s) options w in
  override_accepted s options w run g ->
  reply (Comments_Create s (tfe.Run.ID run) body g) = Failed err ->
  (exists po : PolicyOverride.t, fst failing = Ok po /\ fst succeeding = Ok po)
  /\ trace (snd failing)
     = EvLog ("[WARN] failed to add comment to run: " ++ err)%string
         :: trace (snd succeeding)
  /\ (exists (issued : Z) (took : N) (before : list Event),
         trace (snd succeeding)
         = EvCall issued (CallCommentsCreate (tfe.Run.ID run) body) took :: before)
  /\ gateway (snd failing) = gateway (snd succeeding)
  /\ now (snd failing) = now (snd succeeding).
Proof.
  intros body failing succeeding (Hread & Hstatus & Hover) Hcomment.
  subst failing succeeding.
  unfold OverridePolicy, validateOverrideEligibility, overrideViaTaskStage,
    overrideViaPolicyCheck, bind, perform, ret, log_Printf,
    with_comments_ok.
  cbn [Runs_Read TaskStages_Override PolicyChecks_Override Comments_Create
         gateway now trace reply gateway_after took].
  rewrite Hread. cbn [fst snd]. rewrite Hstatus.
  replace (String.eqb tfe.RunPostPlanAwaitingDecision tfe.RunPostPlanAwaitingDecision)
    with true by reflexivity.
  cbn [negb fst snd].
  destruct (has_task_stage run) as [stage |].
  - cbv zeta in Hover. destruct Hover as [[taskStage Hts] ->].
    cbn [gateway now trace]. rewrite Hts. cbn [fst snd gateway now trace].
    fold body. rewrite Hcomment. cbn [fst snd gateway now trace].
    repeat split; eauto.
  - destruct (has_policy_check run) as [check |]; [| contradiction].
    cbv zeta in Hover. destruct Hover as [Hpc ->].
    cbn [gateway now trace]. rewrite Hpc. cbn [fst snd gateway now trace].
    fold body. rewrite Hcomment. cbn [fst snd gateway now trace].
    repeat split; eauto.
Qed.

Lemma comment_failure_only_logged_witness :
  trace (snd (OverridePolicy client_comment_down options_hotfix world0))
  = EvLog "[WARN] failed to add comment to run: 503 Service Unavailable"
      :: trace (snd (OverridePolicy (with_comments_ok client_comment_down)
                       options_hotfix world0)).
Proof.
  apply (comment_failure_only_logged client_comment_down options_hotfix world0
           run_abc123 1%nat "503 Service Unavailable").
  - repeat split. eexists. reflexivity.
  - reflexivity.
Defined.

(** C5 as stated fails: with the comment service down, the override of run
    [run-abc123] is accepted, the comment fails, and [OverridePolicy] returns
    a nil error and the same PolicyOverride as with the comment service up:
    the caller cannot tell the two apart. *)
Lemma comment_failure_counterexample :
  reply (Comments_Create client_comment_down "run-abc123"
           "Policy Override: Emergency hotfix approved by CTO" 1%nat)
  = Failed "503 Service Unavailable"
  /\ reply (Comments_Create client_awaiting "run-abc123"
              "Policy Override: Emergency hotfix approved by CTO" 1%nat)
     = Ok tt
  /\ fst (OverridePolicy client_comment_down options_hotfix world0)
     = Ok (PolicyOverride.Build "run-abc123" "ts-xyz789" ""
             "Emergency hotfix approved by CTO"
             "post_plan_awaiting_decision" "" true 0)
  /\ fst (OverridePolicy client_comment_down options_hotfix world0)
     = fst (OverridePolicy client_awaiting options_hotfix world0)
  /\ calls_of (trace (snd (OverridePolicy client_comment_down options_hotfix world0)))
     = [ CallRunsRead "run-abc123";
         CallTaskStagesOverride "ts-xyz789" "Emergency hotfix approved by CTO";
         CallCommentsCreate "run-abc123"
           "Policy Override: Emergency hotfix approved by CTO" ].
Proof.
  repeat split; vm_compute; reflexivity.
Qed.

(** *** The backoff schedule *)

Lemma wrap_overflow (z : Z) :
  GoInt.max_int < z <= 2 * GoInt.max_int -> GoInt.wrap z = z - 2 ^ 64.
Proof.
  unfold GoInt.max_int, GoInt.wrap. intros H.
  replace (z + 2 ^ 63) with ((z - 2 ^ 63) + 1 * 2 ^ 64) by lia.
  rewrite Z.mod_add by lia. rewrite Z.mod_small; lia.
Qed.

(** A Fibonacci step: the sum of the two terms, or the largest duration
    once the sum overflows; never less than the floor. *)
Lemma Next_Fibonacci (base s0 s1 t : Z) :
  0 < base -> fib_ok base s0 s1 ->
  exists val s0' s1',
    Next (Fibonacci s0 s1) t = (val, false, Fibonacci s0' s1')
    /\ fib_ok base s0' s1'
    /\ base <= val
    /\ (s0 + s1 <= GoInt.max_int ->
        val = s0 + s1 /\ s0' = s1 /\ s1' = s0 + s1).
Proof.
  intros Hbase (H0 & Hb & Hmax). cbn [Next]. unfold GoInt.add.
  destruct (Z_le_gt_dec (s0 + s1) GoInt.max_int) as [Hle | Hgt].
  - rewrite wrap_in_range
      by (unfold GoInt.in_range, GoInt.min_int, GoInt.max_int in *; lia).
    destruct (Z.leb_spec (s0 + s1) 0); [lia|].
    exists (s0 + s1), s1, (s0 + s1).
    unfold fib_ok. repeat split; lia.
  - rewrite wrap_overflow by lia.
    destruct (Z.leb_spec (s0 + s1 - 2 ^ 64) 0) as [_ | Hpos];
      [| unfold GoInt.max_int in *; lia].
    exists GoInt.max_int, s0, s1.
    unfold fib_ok. repeat split; lia.
Qed.

(** One step of the schedule of [policyWaitBackoffStrategy]: it stops
    exactly when the total duration has elapsed; otherwise the interval is
    positive, at most the step cap, ends by the total deadline, and is at
    least the smaller of floor and cap unless it is all the time left. *)
Lemma Next_strategy (base cap timeout start t : Z) (b : Backoff) :
  0 < base -> 0 < cap ->
  strategy_ok base cap timeout start b ->
  exists val stop b',
    Next b t = (val, stop, b')
    /\ strategy_ok base cap timeout start b'
    /\ (stop = true <-> timeout - (t - start) <= 0)
    /\ (stop = false ->
        0 < val <= cap
        /\ t + val <= start + timeout
        /\ (Z.min base cap <= val \/ val = timeout - (t - start))).
Proof.
  intros Hbase Hcap [s0 s1 Hfib].
  cbn [Next].
  destruct (Z.leb_spec (timeout - (t - start)) 0) as [Hdone | Hleft].
  - exists 0, true, (MaxDuration timeout start (Capped cap (Fibonacci s0 s1))).
    split; [reflexivity | split; [now constructor | split; [tauto | discriminate]]].
  - destruct (Next_Fibonacci base s0 s1 t Hbase Hfib)
      as (val & s0' & s1' & Hnext & Hfib' & Hval & _).
    cbn [Next] in Hnext. rewrite Hnext.
    eexists. exists false. eexists.
    split; [reflexivity | split; [constructor; exact Hfib' | split]].
    + split; [discriminate | lia].
    + intros _.
      destruct (Z.leb_spec val 0); [lia|]. cbn [orb].
      destruct (Z.ltb_spec cap val);
        destruct (Z.leb_spec (if cap <? val then cap else val) 0);
        cbn [orb];
        repeat match goal with
               | |- context [?a <? ?b] => destruct (Z.ltb_spec a b)
               | |- context [?a <=? ?b] => destruct (Z.leb_spec a b)
               end; cbn [orb]; lia.
Qed.

(** *** The wait loop *)

(** The probe reads the run once, at the current instant, and writes log
    lines only. *)
Lemma waitProbe_world {G : Type} (s : Client G) (runID : string)
    (st : option tfe.Run.t) (w : World G) :
  exists logs : list Event,
    trace (snd (waitProbe s runID st w))
    = logs ++ EvCall (now w) (CallRunsRead runID)
                (took (Runs_Read s runID (gateway w))) :: trace w
    /\ Forall (fun e => exists m, e = EvLog m) logs
    /\ now (snd (waitProbe s runID st w))
       = now w + Z.of_N (took (Runs_Read s runID (gateway w)))
    /\ gateway (snd (waitProbe s runID st w))
       = gateway_after (Runs_Read s runID (gateway w)).
Proof.
  unfold waitProbe, bind, perform, log_Printf, ret.
  destruct (reply (Runs_Read s runID (gateway w))) as [run | err].
  - repeat match goal with
           | |- context [if ?c then _ else _] => destruct c
           end; cbn [snd trace now gateway];
      match goal with
      | |- exists logs, EvLog ?a :: EvLog ?b :: _ = _ /\ _ => exists [EvLog a; EvLog b]
      | |- exists logs, EvLog ?a :: _ = _ /\ _ => exists [EvLog a]
      end;
      (split; [reflexivity | split; [| split; reflexivity]]);
      repeat constructor; eexists; reflexivity.
  - exists []. cbn. repeat split; constructor.
Qed.

Section Bounds.

Context {G : Type}.
Variable s : Client G.
Variable runID : string.
Variables base cap timeout start : Z.
Hypothesis Hbase : 0 < base.
Hypothesis Hcap : 0 < cap.

Lemma Do_waitProbe_bounds :
  forall (fuel : nat) (ctx : Context) (b : Backoff)
         (st : option tfe.Run.t) (w : World G)
         (res : DoResult) (st' : option tfe.Run.t) (w' : World G),
    strategy_ok base cap timeout start b ->
    now w <= start + timeout ->
    Do fuel ctx b (waitProbe s runID) st w = (res, st', w') ->
    exists new : list Event,
      trace w' = new ++ trace w
      /\ Forall (event_ok cap (start + timeout)) new
      /\ ended_by (start + timeout) new w'
      /\ (start + timeout - now w <= (Z.of_nat fuel - 1) * Z.min base cap ->
          (1 <= fuel)%nat -> res <> OutOfFuel).
Proof.
  induction fuel as [|fuel IH]; intros ctx b st w res st' w' Hok Hnow HDo.
  - cbn in HDo. injection HDo as <- <- <-.
    exists []. repeat split; [constructor | now left | lia].
  - cbn [Do] in HDo. unfold bind at 1, time_Now in HDo.
    destruct (ctx_done ctx (now w)) eqn:Hctx.
    { injection HDo as <- <- <-.
      exists []. repeat split; [constructor | now left | discriminate]. }
    unfold bind at 1 in HDo.
    destruct (waitProbe_world s runID st w) as (logs & Htr & Hlogs & Hclock & _).
    destruct (waitProbe s runID st w) as [[err st1] w1].
    cbn [snd] in Htr, Hclock.
    set (took1 := took (Runs_Read s runID (gateway w))) in *.
    assert (Hw1 : exists new : list Event,
               trace w1 = new ++ trace w
               /\ Forall (event_ok cap (start + timeout)) new
               /\ ended_by (start + timeout) new w1).
    { exists (logs ++ [EvCall (now w) (CallRunsRead runID) took1]).
      split; [now rewrite <- app_assoc | split].
      - apply Forall_app. split.
        + eapply Forall_impl; [| exact Hlogs]. intros e [m ->]. exact I.
        + repeat constructor. exact Hnow.
      - right. exists (now w), (CallRunsRead runID), took1.
        split; [apply in_or_app; right; now left | split; [exact Hnow | exact Hclock]]. }
    assert (Hret : forall r, r <> OutOfFuel ->
               (r, st1, w1) = (res, st', w') ->
               exists new : list Event,
                 trace w' = new ++ trace w
                 /\ Forall (event_ok cap (start + timeout)) new
                 /\ ended_by (start + timeout) new w'
                 /\ (start + timeout - now w
                     <= (Z.of_nat (S fuel) - 1) * Z.min base cap ->
                     (1 <= S fuel)%nat -> res <> OutOfFuel)).
    { intros r Hr E. injection E as <- <- <-.
      destruct Hw1 as (new & H1 & H2 & H3). exists new. auto. }
    destruct err as [| msg | msg].
    + apply (Hret (Returned nil)); [discriminate | exact HDo].
    + apply (Hret (Returned (Some msg))); [discriminate | exact HDo].
    + unfold bind at 1, time_Now in HDo.
      destruct (Next_strategy base cap timeout start (now w1) b Hbase Hcap Hok)
        as (val & stop & b' & HN & Hok' & Hstop & Hgo).
      rewrite HN in HDo.
      destruct stop.
      { apply (Hret (Returned (Some msg))); [discriminate | exact HDo]. }
      destruct (Hgo eq_refl) as (Hval & Hend & Hmin).
      assert (Hleft : 0 < timeout - (now w1 - start)).
      { destruct (Z_le_gt_dec (timeout - (now w1 - start)) 0) as [Hle|]; [| lia].
        apply Hstop in Hle. discriminate. }
      destruct (ctx_done ctx (now w1)) eqn:Hctx1.
      { apply (Hret (Returned (ctx_Err ctx))); [discriminate | exact HDo]. }
      destruct Hw1 as (new1 & Htr1 & Hev1 & _).
      assert (Hrec : forall (w2 : World G),
                 w2 = snd (sleep val w1) ->
                 Do fuel ctx b' (waitProbe s runID) st1 w2 = (res, st', w') ->
                 exists new : list Event,
                   trace w' = new ++ trace w
                   /\ Forall (event_ok cap (start + timeout)) new
                   /\ ended_by (start + timeout) new w'
                   /\ (start + timeout - now w
                       <= (Z.of_nat (S fuel) - 1) * Z.min base cap ->
                       (1 <= S fuel)%nat -> res <> OutOfFuel)).
      { intros w2 -> HDo2. cbn [sleep snd] in HDo2.
        apply IH in HDo2; [| exact Hok' | cbn [now]; lia].
        destruct HDo2 as (new2 & Htr2 & Hev2 & Hend2 & Hfuel2).
        cbn [trace now] in Htr2, Hfuel2.
        exists (new2 ++ EvSleep (now w1) val :: new1).
        split; [| split; [| split]].
        - rewrite Htr2, Htr1, <- app_assoc. reflexivity.
        - apply Forall_app. split; [exact Hev2|].
          constructor; [cbn; lia | exact Hev1].
        - destruct Hend2 as [Hle | (i & c & tk & Hin & Hi & Hn)]; [now left|].
          right. exists i, c, tk.
          split; [apply in_or_app; now left | auto].
        - intros Hbudget _.
          assert (Hmu : 0 < Z.min base cap) by lia.
          assert (Hfuel : (1 <= fuel)%nat).
          { destruct fuel; [| lia]. simpl Z.of_nat in Hbudget. lia. }
          apply Hfuel2; [| exact Hfuel].
          rewrite Nat2Z.inj_succ in Hbudget.
          destruct Hmin as [Hmin | Hmin]; nia. }
      destruct ctx as [[deadline cause] |].
      * destruct (Z.leb_spec deadline (now w1 + val)) as [Hdl | Hdl].
        -- unfold bind, sleep, ret in HDo. injection HDo as <- <- <-.
           cbn [ctx_done] in Hctx1. apply Z.leb_gt in Hctx1.
           exists (EvSleep (now w1) (deadline - now w1) :: new1).
           cbn [trace now]. split; [now rewrite Htr1 | split; [| split]].
           ++ constructor; [cbn; lia | exact Hev1].
           ++ left. cbn [now]. lia.
           ++ discriminate.
        -- unfold bind at 1 in HDo. apply (Hrec (snd (sleep val w1))); [reflexivity|].
           exact HDo.
      * unfold bind at 1 in HDo. apply (Hrec (snd (sleep val w1))); [reflexivity|].
        exact HDo.
Qed.

End Bounds.

(** Every interval of the schedule respects the step cap and the total
    deadline, at whatever instants the schedule is asked. *)
Lemma schedule_bounds (base cap timeout start : Z) (ts : list Z) :
  0 < base -> 0 < cap ->
  forall b : Backoff,
    strategy_ok base cap timeout start b ->
    Forall (fun p => 0 < snd p <= cap /\ fst p + snd p <= start + timeout)
      (schedule b ts).
Proof.
  intros Hbase Hcap. induction ts as [|t ts IH]; intros b Hok; cbn [schedule].
  - constructor.
  - destruct (Next_strategy base cap timeout start t b Hbase Hcap Hok)
      as (val & stop & b' & HN & Hok' & _ & Hgo).
    rewrite HN. destruct stop; [constructor|].
    destruct (Hgo eq_refl) as (Hval & Hend & _).
    constructor; [cbn [fst snd]; lia | now apply IH].
Qed.

Lemma policyWaitBackoffStrategy_ok (start : Z) :
  strategy_ok PolicyWaitInitialBackoff PolicyWaitMaxBackoff PolicyWaitMaxDuration
    start (policyWaitBackoffStrategy start).
Proof.
  constructor. unfold fib_ok, PolicyWaitInitialBackoff, Second, GoInt.max_int. lia.
Qed.

Lemma reads_of_app (l1 l2 : list Event) :
  (reads_of (l1 ++ l2) = reads_of l1 + reads_of l2)%nat.
Proof.
  induction l1 as [|e l1 IH]; [reflexivity|].
  destruct e as [issued [] took | |]; cbn [app reads_of]; lia.
Qed.

Lemma reads_of_logs (logs : list Event) :
  Forall (fun e => exists m, e = EvLog m) logs -> reads_of logs = 0%nat.
Proof.
  induction 1 as [|e l [m ->] _ IH]; [reflexivity | exact IH].
Qed.

(** A context that is done, or that can be, reports the cancellation or
    the deadline. *)
Lemma ctx_Err_some (done : Z) (cause : Cause) :
  exists msg : string,
    ctx_Err (Some (done, cause)) = Some msg
    /\ (msg = Canceled \/ msg = DeadlineExceeded).
Proof. destruct cause; eexists; (split; [reflexivity |]); auto. Qed.

Lemma ctx_Err_done (ctx : Context) (t : Z) :
  ctx_done ctx t = true ->
  exists msg : string,
    ctx_Err ctx = Some msg /\ (msg = Canceled \/ msg = DeadlineExceeded).
Proof.
  destruct ctx as [[done cause]|]; [intros _; apply ctx_Err_some | discriminate].
Qed.

(** Once done, a context stays done. *)
Lemma ctx_done_mono (ctx : Context) (t t' : Z) :
  t <= t' -> ctx_done ctx t = true -> ctx_done ctx t' = true.
Proof.
  destruct ctx as [[done cause]|]; cbn [ctx_done]; [| discriminate].
  intros Hle H. apply Z.leb_le in H. apply Z.leb_le. lia.
Qed.

Section Loop.

Context {G : Type}.
Variable s : Client G.
Variable runID : string.

(** The loop never forgets an event, and an iteration that is not cut short
    by the context reads the run. *)
Lemma Do_reads :
  forall (fuel : nat) (ctx : Context) (b : Backoff)
         (st : option tfe.Run.t) (w : World G)
         (res : DoResult) (st' : option tfe.Run.t) (w' : World G),
    Do fuel ctx b (waitProbe s runID) st w = (res, st', w') ->
    (reads_of (trace w) <= reads_of (trace w'))%nat
    /\ ((1 <= fuel)%nat -> ctx_done ctx (now w) = false ->
        (reads_of (trace w) + 1 <= reads_of (trace w'))%nat).
Proof.
  induction fuel as [|fuel IH]; intros ctx b st w res st' w' HDo.
  - cbn in HDo. injection HDo as <- <- <-. split; lia.
  - cbn [Do] in HDo. unfold bind at 1, time_Now in HDo.
    destruct (ctx_done ctx (now w)) eqn:Hctx.
    { injection HDo as <- <- <-. split; [lia | discriminate]. }
    unfold bind at 1 in HDo.
    destruct (waitProbe_world s runID st w) as (logs & Htr & Hlogs & Hclock & _).
    destruct (waitProbe s runID st w) as [[err st1] w1].
    cbn [snd] in Htr, Hclock.
    assert (Hw1 : reads_of (trace w1) = S (reads_of (trace w))).
    { rewrite Htr, reads_of_app, (reads_of_logs logs Hlogs). cbn. lia. }
    assert (Hall : (reads_of (trace w1) <= reads_of (trace w'))%nat ->
               (reads_of (trace w) <= reads_of (trace w'))%nat
               /\ ((1 <= S fuel)%nat -> false = false ->
                   (reads_of (trace w) + 1 <= reads_of (trace w'))%nat)).
    { intros H. split; intros; lia. }
    apply Hall.
    assert (Hret : forall r, (r, st1, w1) = (res, st', w') ->
               (reads_of (trace w1) <= reads_of (trace w'))%nat).
    { intros r E. injection E as <- <- <-. lia. }
    destruct err as [| msg | msg]; try (eapply Hret; exact HDo).
    unfold bind at 1, time_Now in HDo.
    destruct (Next b (now w1)) as [[val stop] b'].
    destruct stop; [eapply Hret; exact HDo|].
    destruct (ctx_done ctx (now w1)); [eapply Hret; exact HDo|].
    assert (Hrec : Do fuel ctx b' (waitProbe s runID) st1 (snd (sleep val w1))
                   = (res, st', w') ->
                   (reads_of (trace w1) <= reads_of (trace w'))%nat).
    { intros H. apply IH in H. destruct H as [Hle _].
      cbn [sleep snd trace reads_of] in Hle. exact Hle. }
    destruct ctx as [[deadline cause]|].
    + destruct (deadline <=? now w1 + val).
      * unfold bind, sleep, ret in HDo. injection HDo as <- <- <-. cbn. lia.
      * unfold bind at 1 in HDo. apply Hrec. exact HDo.
    + unfold bind at 1 in HDo. apply Hrec. exact HDo.
Qed.

(** When the loop returns [nil], the probe has stored the run it read. *)
Lemma Do_nil_has_run :
  forall (fuel : nat) (ctx : Context) (b : Backoff)
         (st : option tfe.Run.t) (w : World G)
         (st' : option tfe.Run.t) (w' : World G),
    Do fuel ctx b (waitProbe s runID) st w = (Returned nil, st', w') ->
    st' <> None.
Proof.
  induction fuel as [|fuel IH]; intros ctx b st w st' w' HDo.
  - cbn in HDo. discriminate.
  - cbn [Do] in HDo. unfold bind at 1, time_Now in HDo.
    destruct (ctx_done ctx (now w)) eqn:Hctx.
    { destruct (ctx_Err_done ctx _ Hctx) as (m & Hm & _).
      rewrite Hm in HDo. discriminate. }
    unfold bind at 1 in HDo.
    destruct (waitProbe s runID st w) as [[err st1] w1] eqn:Hprobe.
    destruct err as [| msg | msg].
    + injection HDo as <- <-.
      unfold waitProbe, bind, perform, log_Printf, ret in Hprobe.
      destruct (reply (Runs_Read s runID (gateway w))); [| discriminate].
      repeat match type of Hprobe with
             | context [if ?c then _ else _] => destruct c
             end; try discriminate.
      injection Hprobe as <- _. discriminate.
    + discriminate.
    + unfold bind at 1, time_Now in HDo.
      destruct (Next b (now w1)) as [[val stop] b'].
      destruct stop; [discriminate|].
      destruct (ctx_done ctx (now w1)) eqn:Hctx1.
      { destruct (ctx_Err_done ctx _ Hctx1) as (m & Hm & _).
        rewrite Hm in HDo. discriminate. }
      destruct ctx as [[deadline cause]|].
      * destruct (deadline <=? now w1 + val).
        -- unfold bind, sleep, ret in HDo. destruct cause; discriminate.
        -- unfold bind at 1 in HDo. eapply IH. exact HDo.
      * unfold bind at 1 in HDo. eapply IH. exact HDo.
Qed.

End Loop.

(** The probe, by the status of the run it reads. *)
Lemma waitProbe_status
    {G : Type} (s : Client G) (runID : string) (st : option tfe.Run.t)
    (w : World G) (run : tfe.Run.t) :
  reply (Runs_Read s runID (gateway w)) = Ok run ->
  waitProbe s runID st w =
  let status := tfe.Run.Status run in
  let w1 := after_probe s runID run w in
  if String.eqb status tfe.RunPolicyOverride
     || String.eqb status tfe.RunPostPlanCompleted then (RNil, Some run, w1)
  else if String.eqb status tfe.RunDiscarded then
    (RError "run was discarded", st, w1)
  else if String.eqb status tfe.RunCanceled
          || String.eqb status tfe.RunForceCanceled then
    (RError "run was canceled", st, w1)
  else if String.eqb status tfe.RunErrored then
    (RError "run entered error state", st, w1)
  else if String.eqb status tfe.RunPostPlanAwaitingDecision then
    (RRetryable "still awaiting decision", st, w1)
  else
    (RRetryable ("unexpected status: " ++ status)%string, st,
     snd (log_Printf ("[WARN] Unexpected run status during wait: " ++ status)%string w1)).
Proof.
  intros Hread. unfold waitProbe, bind at 1, perform at 1. rewrite Hread.
  unfold after_probe, after_read, perform, bind, log_Printf, ret. cbn [snd].
  repeat match goal with
         | |- context [if ?c then _ else _] => destruct c
         end; reflexivity.
Qed.

(** The whole wait on a run that is discarded after one observation: two
    reads, one sleep of ten seconds, and the error of the discarded run. *)
Example wait_on_discarded_run :
  let result :=
    WaitForPolicyDecision client_discarded_later 5 None options_wait world0 in
  fst result = WaitReturned (Failed "run was discarded")
  /\ calls_of (trace (snd result))
     = [CallRunsRead "run-abc123"; CallRunsRead "run-abc123"]
  /\ sleeps_of (trace (snd result)) = 1%nat
  /\ now (snd result) = 10 * Second + 400000000.
Proof. vm_compute. repeat split. Qed.

(** C7: the schedule of the wait is Fibonacci-shaped from the floor of ten
    seconds (10 s, 20 s, 30 s, 50 s, ... before the cap); with the cap every
    interval is at most thirty seconds (10 s, 20 s, 30 s, 30 s, ...); the
    total duration of thirty minutes cuts the last interval down to the time
    that is left and stops the schedule once it has elapsed.  The two limits
    are independent: for any floor, any cap and any total duration each
    interval is positive, at most the cap, and ends by the deadline.  Hence
    in every wait each sleep is at most the cap and ends by the deadline,
    each probe is issued by the deadline, and the wait returns, given fuel
    for 181 iterations, by the deadline or at the instant at which a probe
    issued by the deadline comes back. *)
Theorem wait_engine_bounds
    {G : Type} (s : Client G) (fuel : nat) (ctx : Context)
    (options : WaitForPolicyOptions.t) (w : World G) :
  let deadline := now w + PolicyWaitMaxDuration in
  let result := WaitForPolicyDecision s fuel ctx options w in
  schedule (NewFibonacci PolicyWaitInitialBackoff) [0; 0; 0; 0; 0; 0]
  = [ (0, 10 * Second); (0, 20 * Second); (0, 30 * Second);
      (0, 50 * Second); (0, 80 * Second); (0, 130 * Second) ]
  /\ schedule (policyWaitBackoffStrategy 0)
       [ 0; 10 * Second; 30 * Second; 60 * Second;
         PolicyWaitMaxDuration - 5 * Second; PolicyWaitMaxDuration ]
     = [ (0, 10 * Second); (10 * Second, 20 * Second);
         (30 * Second, 30 * Second); (60 * Second, 30 * Second);
         (PolicyWaitMaxDuration - 5 * Second, 5 * Second) ]
  /\ (forall (base cap timeout start : Z) (ts : list Z),
         0 < base <= GoInt.max_int -> 0 < cap ->
         Forall (fun p => 0 < snd p <= cap /\ fst p + snd p <= start + timeout)
           (schedule
              (WithMaxDuration timeout
                 (WithCappedDuration cap (NewFibonacci base)) start) ts))
  /\ (exists new : list Event,
         trace (snd result) = new ++ trace w
         /\ Forall (event_ok PolicyWaitMaxBackoff deadline) new
         /\ ended_by deadline new (snd result))
  /\ ((181 <= fuel)%nat ->
      fst result <> WaitOutOfFuel /\ fst result <> WaitPanic).
Proof.
  intros deadline result.
  split; [vm_compute; reflexivity | split; [vm_compute; reflexivity | split]].
  { intros base cap timeout start ts [Hbase Hmax] Hcap.
    apply (schedule_bounds base cap timeout start ts Hbase Hcap).
    constructor. unfold fib_ok. lia. }
  subst result.
  remember (WaitForPolicyDecision s fuel ctx options w) as result eqn:HR.
  unfold WaitForPolicyDecision, bind, time_Now in HR.
  set (ctx' := if 0 <? WaitForPolicyOptions.Timeout options
               then WithTimeout ctx (now w) (WaitForPolicyOptions.Timeout options)
               else ctx) in HR.
  destruct (Do fuel ctx' (policyWaitBackoffStrategy (now w))
              (waitProbe s (WaitForPolicyOptions.RunID options)) None w)
    as [[res finalRun] w'] eqn:HDo.
  assert (Hbase : 0 < PolicyWaitInitialBackoff) by (vm_compute; reflexivity).
  assert (Hcap : 0 < PolicyWaitMaxBackoff) by (vm_compute; reflexivity).
  destruct (Do_waitProbe_bounds s (WaitForPolicyOptions.RunID options)
              PolicyWaitInitialBackoff PolicyWaitMaxBackoff PolicyWaitMaxDuration
              (now w) Hbase Hcap fuel ctx' _ None w res finalRun w'
              (policyWaitBackoffStrategy_ok (now w))
              ltac:(unfold PolicyWaitMaxDuration, Minute, Second; lia) HDo)
    as (new & Htr & Hev & Hend & Hfuel).
  assert (Hres : (181 <= fuel)%nat -> res <> OutOfFuel).
  { intros H181. apply Hfuel; [| lia].
    unfold PolicyWaitMaxDuration, PolicyWaitInitialBackoff, PolicyWaitMaxBackoff,
      Minute, Second. lia. }
  destruct res as [|[err|]].
  - subst result. cbn [ret fst snd].
    split; [exists new; exact (conj Htr (conj Hev Hend)) |].
    intros H181. apply Hres in H181. congruence.
  - subst result. cbn [ret fst snd].
    split; [exists new; exact (conj Htr (conj Hev Hend)) |].
    intros _. split; discriminate.
  - pose proof (Do_nil_has_run s _ _ _ _ _ _ _ _ HDo) as Hrun.
    destruct finalRun as [run|]; [| congruence].
    subst result. cbn [ret fst snd].
    split; [exists new; exact (conj Htr (conj Hev Hend)) |].
    intros _. split; discriminate.
Qed.

Lemma wait_engine_bounds_witness :
  fst (WaitForPolicyDecision client_never_decided 181 None options_wait world0)
  <> WaitOutOfFuel
  /\ fst (WaitForPolicyDecision client_never_decided 181 None options_wait world0)
     <> WaitPanic.
Proof.
  apply (wait_engine_bounds client_never_decided 181 None options_wait world0).
  apply Nat.le_refl.
Defined.

(** A run that never leaves post_plan_awaiting_decision: the wait gives up
    when the thirty minutes have elapsed, with the last retryable error, and
    the clock stands at the deadline plus the latency of the last probe. *)
Example wait_on_undecided_run :
  let result :=
    WaitForPolicyDecision client_never_decided 181 None options_wait world0 in
  fst result = WaitReturned (Failed "still awaiting decision")
  /\ now (snd result) = PolicyWaitMaxDuration + 200000000.
Proof. vm_compute. repeat split. Qed.

(** *** The matcher of regular expressions *)

Lemma MatchString_Void (s : string) : Regexp.MatchString Regexp.Void s = false.
Proof. induction s as [|c s IH]; [reflexivity | exact IH]. Qed.

Lemma MatchString_Alt (r1 r2 : Regexp.t) (s : string) :
  Regexp.MatchString (Regexp.Alt r1 r2) s
  = Regexp.MatchString r1 s || Regexp.MatchString r2 s.
Proof.
  revert r1 r2. induction s as [|c s IH]; intros r1 r2; [reflexivity|].
  cbn [Regexp.MatchString Regexp.deriv]. apply IH.
Qed.

Lemma MatchString_Eps (s : string) :
  Regexp.MatchString Regexp.Eps s = true <-> s = "".
Proof.
  destruct s as [|c s]; cbn [Regexp.MatchString Regexp.deriv].
  - split; reflexivity.
  - rewrite MatchString_Void. split; discriminate.
Qed.

Lemma MatchString_Class (p : ascii -> bool) (s : string) :
  Regexp.MatchString (Regexp.Class p) s = true
  <-> exists c, s = String c "" /\ p c = true.
Proof.
  destruct s as [|c s]; cbn [Regexp.MatchString Regexp.deriv Regexp.nullable].
  - split; [discriminate | intros (c & H & _); discriminate].
  - destruct (p c) eqn:Hp.
    + rewrite MatchString_Eps. split.
      * intros ->. now exists c.
      * intros (c' & H & _). now injection H.
    + rewrite MatchString_Void. split; [discriminate|].
      intros (c' & H & Hc'). injection H as -> _. congruence.
Qed.

Lemma MatchString_nil (r : Regexp.t) :
  Regexp.MatchString r "" = Regexp.nullable r.
Proof. reflexivity. Qed.

(** A sequence matches exactly the concatenations of a match of each
    part. *)
Lemma MatchString_Seq (s : string) :
  forall r1 r2 : Regexp.t,
    Regexp.MatchString (Regexp.Seq r1 r2) s = true
    <-> exists s1 s2 : string,
          s = (s1 ++ s2)%string
          /\ Regexp.MatchString r1 s1 = true
          /\ Regexp.MatchString r2 s2 = true.
Proof.
  induction s as [|c s IH]; intros r1 r2.
  - cbn [Regexp.MatchString Regexp.nullable]. rewrite andb_true_iff. split.
    + intros [H1 H2]. exists "", "". auto.
    + intros (s1 & s2 & Hs & H1 & H2).
      destruct s1; [| discriminate]. destruct s2; [| discriminate]. auto.
  - cbn [Regexp.MatchString Regexp.deriv].
    destruct (Regexp.nullable r1) eqn:Hn.
    + rewrite MatchString_Alt, orb_true_iff, IH. split.
      * intros [(s1 & s2 & -> & H1 & H2) | H].
        -- exists (String c s1), s2. auto.
        -- exists "", (String c s). auto.
      * intros (s1 & s2 & Hs & H1 & H2). destruct s1 as [|c1 s1].
        -- right. cbn in Hs. subst s2. exact H2.
        -- left. cbn in Hs. injection Hs as -> ->. exists s1, s2. auto.
    + rewrite IH. split.
      * intros (s1 & s2 & -> & H1 & H2). exists (String c s1), s2. auto.
      * intros (s1 & s2 & Hs & H1 & H2). destruct s1 as [|c1 s1].
        -- rewrite MatchString_nil in H1. congruence.
        -- cbn in Hs. injection Hs as -> ->. exists s1, s2. auto.
Qed.

Lemma MatchString_Star_Class (p : ascii -> bool) (s : string) :
  Regexp.MatchString (Regexp.Star (Regexp.Class p)) s = all_chars p s.
Proof.
  induction s as [|c s IH]; [reflexivity|].
  cbn [Regexp.MatchString Regexp.deriv all_chars].
  destruct (p c); cbn [andb].
  - rewrite <- IH. apply eq_true_iff_eq. rewrite MatchString_Seq. split.
    + intros (s1 & s2 & -> & H1 & H2). apply MatchString_Eps in H1. now subst s1.
    + intros H. exists "", s. auto.
  - apply not_true_is_false. rewrite MatchString_Seq.
    intros (s1 & s2 & _ & H1 & _). rewrite MatchString_Void in H1. discriminate.
Qed.

Lemma MatchString_Plus_Class (p : ascii -> bool) (s : string) :
  Regexp.MatchString (Regexp.Plus (Regexp.Class p)) s = true
  <-> s <> "" /\ all_chars p s = true.
Proof.
  unfold Regexp.Plus. rewrite MatchString_Seq. split.
  - intros (s1 & s2 & -> & H1 & H2).
    apply MatchString_Class in H1. destruct H1 as (c & -> & Hc).
    rewrite MatchString_Star_Class in H2.
    split; [discriminate | cbn; now rewrite Hc, H2].
  - intros [Hne Hall]. destruct s as [|c s]; [congruence|].
    cbn in Hall. apply andb_true_iff in Hall. destruct Hall as [Hc Hs].
    exists (String c ""), s. split; [reflexivity | split].
    + apply MatchString_Class. now exists c.
    + now rewrite MatchString_Star_Class.
Qed.

(** X1: [validStringID] accepts exactly the identifiers made of one or more
    lower-case letters, a dash, and one or more letters or digits. *)
Theorem validStringID_shape (id : string) :
  validStringID id = true <-> resource_id_shape id.
Proof.
  unfold validStringID, resource_id_shape.
  destruct (String.eqb_spec id "") as [-> | Hne].
  - split; [discriminate|].
    intros (prefix & suffix & H & Hp & _). destruct prefix; [congruence | discriminate].
  - rewrite MatchString_Seq. split.
    + intros (s1 & s2 & -> & H1 & H2).
      apply MatchString_Plus_Class in H1. destruct H1 as [Hp1 Hp2].
      apply MatchString_Seq in H2. destruct H2 as (d & s3 & -> & Hd & H3).
      apply MatchString_Class in Hd. destruct Hd as (c & -> & Hc).
      apply Ascii.eqb_eq in Hc. subst c.
      apply MatchString_Plus_Class in H3. destruct H3 as [Hs1 Hs2].
      exists s1, s3. auto.
    + intros (prefix & suffix & -> & Hp1 & Hp2 & Hs1 & Hs2).
      exists prefix, ("-" ++ suffix)%string. split; [reflexivity | split].
      * now apply MatchString_Plus_Class.
      * apply MatchString_Seq. exists "-", suffix. split; [reflexivity | split].
        -- apply MatchString_Class. now exists "-"%char.
        -- now apply MatchString_Plus_Class.
Qed.

(** *** Validation, in full *)

(** X2: [PolicyEvaluation.Validate] accepts a value exactly when its run
    identifier is well formed, exactly one of its stage and check
    identifiers is set, none of its five counts is negative, its total is
    the sum of the four counts and its override flag says whether a
    mandatory policy failed; the status and the list of failed policies are
    not looked at. *)
Theorem PolicyEvaluation_Validate_accepts (pe : PolicyEvaluation.t) :
  PolicyEvaluation.Validate pe = nil
  <-> validStringID (PolicyEvaluation.RunID pe) = true
      /\ ((PolicyEvaluation.PolicyStageID pe <> "" /\ PolicyEvaluation.PolicyCheckID pe = "")
          \/ (PolicyEvaluation.PolicyStageID pe = "" /\ PolicyEvaluation.PolicyCheckID pe <> ""))
      /\ 0 <= PolicyEvaluation.TotalCount pe
      /\ 0 <= PolicyEvaluation.PassedCount pe
      /\ 0 <= PolicyEvaluation.AdvisoryFailedCount pe
      /\ 0 <= PolicyEvaluation.MandatoryFailedCount pe
      /\ 0 <= PolicyEvaluation.ErroredCount pe
      /\ PolicyEvaluation.TotalCount pe
         = GoInt.add
             (GoInt.add
                (GoInt.add (PolicyEvaluation.PassedCount pe)
                   (PolicyEvaluation.AdvisoryFailedCount pe))
                (PolicyEvaluation.MandatoryFailedCount pe))
             (PolicyEvaluation.ErroredCount pe)
      /\ PolicyEvaluation.RequiresOverride pe
         = (0 <? PolicyEvaluation.MandatoryFailedCount pe).
Proof.
  unfold PolicyEvaluation.Validate, nil.
  destruct (validStringID (PolicyEvaluation.RunID pe)); cbn [negb];
    [| split; [discriminate | intros [? _]; discriminate]].
  destruct (String.eqb_spec (PolicyEvaluation.PolicyStageID pe) "") as [Es|Es];
    destruct (String.eqb_spec (PolicyEvaluation.PolicyCheckID pe) "") as [Ec|Ec];
    cbn [andb negb];
    try (split; [discriminate | intros (_ & [[? ?]|[? ?]] & _); congruence]).
  all: destruct (Z.ltb_spec (PolicyEvaluation.TotalCount pe) 0);
    [cbn [orb]; split; [discriminate | intros; lia] |];
    destruct (Z.ltb_spec (PolicyEvaluation.PassedCount pe) 0);
    [cbn [orb]; split; [discriminate | intros; lia] |];
    destruct (Z.ltb_spec (PolicyEvaluation.AdvisoryFailedCount pe) 0);
    [cbn [orb]; split; [discriminate | intros; lia] |];
    destruct (Z.ltb_spec (PolicyEvaluation.MandatoryFailedCount pe) 0);
    [cbn [orb]; split; [discriminate | intros; lia] |];
    destruct (Z.ltb_spec (PolicyEvaluation.ErroredCount pe) 0);
    [cbn [orb]; split; [discriminate | intros; lia] |];
    cbn [orb];
    match goal with
    | |- context [?a =? ?b] => destruct (Z.eqb_spec a b) as [Et|Et]
    end; cbn [negb];
    [| split; [discriminate | intros (_ & _ & _ & _ & _ & _ & _ & ? & _); congruence]];
    match goal with
    | |- context [Bool.eqb ?a ?b] => destruct (Bool.eqb_spec a b) as [Er|Er]
    end; cbn [negb];
    [| split; [discriminate | intros (_ & _ & _ & _ & _ & _ & _ & _ & ?); congruence]];
    (split; [intros _ | reflexivity]);
    (split; [reflexivity |]); (split; [tauto |]);
    repeat split; assumption.
Qed.

(** X4: the options of the service contract are the accepted options of
    internal/cloud whose justification has at least ten bytes: the
    implemented method accepts, beyond the contract, the justifications of
    one to nine bytes. *)
Theorem OverridePolicyOptions_contract_stricter (o : OverridePolicyOptions.t) :
  OverridePolicyOptions.Validate_contract o = nil
  <-> OverridePolicyOptions.Validate o = nil
      /\ (10 <= String.length (OverridePolicyOptions.Justification o))%nat.
Proof.
  unfold OverridePolicyOptions.Validate_contract, OverridePolicyOptions.Validate,
    ErrInvalidRunID, ErrInvalidJustification, errors_New, nil.
  destruct (validStringID (OverridePolicyOptions.RunID o)); cbn [negb];
    [| split; [discriminate | intros [? _]; discriminate]].
  destruct (Z.ltb_spec
              (Z.of_nat (String.length (OverridePolicyOptions.Justification o))) 10)
    as [Hlt | Hge].
  - split; [discriminate | intros [_ ?]; lia].
  - destruct (String.eqb_spec (OverridePolicyOptions.Justification o) "") as [E|E].
    + rewrite E in Hge. cbn in Hge. lia.
    + split; [intros _; split; [reflexivity | lia] | reflexivity].
Qed.

(** X5: likewise for override records: the method of data-model.md accepts
    exactly the records the method of internal/cloud accepts whose
    justification has at least ten bytes. *)
Theorem PolicyOverride_data_model_stricter (po : PolicyOverride.t) :
  PolicyOverride_Validate_data_model po = nil
  <-> PolicyOverride.Validate po = nil
      /\ (10 <= String.length (PolicyOverride.Justification po))%nat.
Proof.
  unfold PolicyOverride_Validate_data_model, PolicyOverride.Validate, nil.
  destruct (validStringID (PolicyOverride.RunID po)); cbn [negb];
    [| split; [discriminate | intros [? _]; discriminate]].
  destruct (String.eqb (PolicyOverride.PolicyStageID po) ""
            && String.eqb (PolicyOverride.PolicyCheckID po) "");
    [split; [discriminate | intros [? _]; discriminate] |].
  destruct (Z.ltb_spec (Z.of_nat (String.length (PolicyOverride.Justification po))) 10)
    as [Hlt | Hge].
  - split; [discriminate | intros [_ ?]; lia].
  - destruct (String.eqb_spec (PolicyOverride.Justification po) "") as [E|E].
    + rewrite E in Hge. cbn in Hge. lia.
    + destruct (negb (String.eqb (PolicyOverride.InitialStatus po)
                        "post_plan_awaiting_decision"));
        [split; [discriminate | intros [? _]; discriminate] |].
      cbv zeta.
      destruct (negb (PolicyOverride.final_status_loop (PolicyOverride.FinalStatus po)
                        PolicyOverride.validFinalStatuses));
        [split; [discriminate | intros [? _]; discriminate] |].
      split; [intros _; split; [reflexivity | lia] | reflexivity].
Qed.

(** *** Failed policies of the normalizer *)

(** The list of failed policies of the legacy loop, whatever the number of
    outcomes. *)
Lemma legacy_loop_failed (l : list tfe.PolicyOutcome.t) :
  forall r : PolicyEvaluation.t,
    PolicyEvaluation.FailedPolicies (fold_left policyCheck_outcome_step l r)
    = PolicyEvaluation.FailedPolicies r
      ++ map legacy_detail (filter is_failed_mandatory l).
Proof.
  induction l as [|o l IH]; intros r; cbn [fold_left filter].
  - cbn. now rewrite app_nil_r.
  - rewrite IH, step_by_class.
    destruct (outcome_cases o) as [C|[C|[C|[C|C]]]];
      destruct C as (Cp & Ca & Cm & Ce); rewrite Cp, ?Cm, ?Ca, ?Ce;
      destruct r; cbn; rewrite <- ?app_assoc; reflexivity.
Qed.

Lemma normalize_failed_policies (raw : RawEvaluation) :
  PolicyEvaluation.FailedPolicies (normalize raw)
  = match raw with
    | RawModern _ _ policyEval =>
        map modern_detail
          (filter has_mandatory_failure
             (tfe.PolicyEvaluation.PolicySetOutcomes policyEval))
    | RawLegacy _ check =>
        map legacy_detail
          (filter is_failed_mandatory (tfe.PolicyCheck.PolicySetOutcomes check))
    end.
Proof.
  destruct raw as [run st ev | run check]; cbn [normalize].
  - rewrite buildFromTaskStage_closed. reflexivity.
  - unfold getPolicyFromPolicyCheck, policyCheck_finish.
    cbn [PolicyEvaluation.FailedPolicies PolicyEvaluation.set_RequiresOverride
           PolicyEvaluation.set_TotalCount].
    rewrite legacy_loop_failed. reflexivity.
Qed.

(** X6: every failed-policy entry the normalizer produces, on either path,
    has enforcement level mandatory and status failed, and passes
    [PolicyDetail.Validate] exactly when the upstream name is not empty. *)
Theorem normalized_details (raw : RawEvaluation) :
  Forall
    (fun pd =>
       PolicyDetail.EnforcementLevel pd = "mandatory"
       /\ PolicyDetail.Status pd = "failed"
       /\ (PolicyDetail.Validate pd = nil <-> PolicyDetail.PolicyName pd <> ""))
    (PolicyEvaluation.FailedPolicies (normalize raw)).
Proof.
  rewrite normalize_failed_policies.
  assert (Hd : forall name descr,
             PolicyDetail.Validate (PolicyDetail.Build name "mandatory" "failed" descr) = nil
             <-> name <> "").
  { intros name descr. unfold PolicyDetail.Validate, nil. cbn.
    destruct (String.eqb_spec name ""); split; congruence. }
  destruct raw as [run st ev | run check]; apply Forall_map, Forall_forall;
    intros o _; (split; [reflexivity | split; [reflexivity | apply Hd]]).
Qed.

(** X7: on the legacy path the failed policies are the mandatory failures,
    in the order of the check: their number is mandatory_failed_count, hence
    at most mandatory_failed_count + advisory_failed_count, and their names
    are the names of the outcomes that failed at level mandatory. *)
Theorem legacy_failed_policies (run : tfe.Run.t) (check : tfe.PolicyCheck.t) :
  slice_len_ok (tfe.PolicyCheck.PolicySetOutcomes check) ->
  let pe := getPolicyFromPolicyCheck run check in
  Z.of_nat (List.length (PolicyEvaluation.FailedPolicies pe))
  = PolicyEvaluation.MandatoryFailedCount pe
  /\ Z.of_nat (List.length (PolicyEvaluation.FailedPolicies pe))
     <= PolicyEvaluation.MandatoryFailedCount pe
        + PolicyEvaluation.AdvisoryFailedCount pe
  /\ map PolicyDetail.PolicyName (PolicyEvaluation.FailedPolicies pe)
     = map tfe.PolicyOutcome.PolicyName
         (filter is_failed_mandatory (tfe.PolicyCheck.PolicySetOutcomes check)).
Proof.
  intros Hlen pe. subst pe.
  rewrite (getPolicyFromPolicyCheck_closed run check Hlen).
  cbn [PolicyEvaluation.FailedPolicies PolicyEvaluation.MandatoryFailedCount
         PolicyEvaluation.AdvisoryFailedCount].
  rewrite length_map.
  pose proof (tally_nonneg is_failed_advisory (tfe.PolicyCheck.PolicySetOutcomes check)).
  split; [reflexivity | split].
  - unfold tally in *. lia.
  - rewrite map_map. reflexivity.
Qed.

Lemma legacy_failed_policies_witness :
  Z.of_nat (List.length
              (PolicyEvaluation.FailedPolicies
                 (getPolicyFromPolicyCheck run_xyz789 check_xyz789)))
  = PolicyEvaluation.MandatoryFailedCount
      (getPolicyFromPolicyCheck run_xyz789 check_xyz789).
Proof.
  apply (legacy_failed_policies run_xyz789 check_xyz789).
  unfold slice_len_ok, GoInt.max_int. simpl. lia.
Defined.

(** X8: on the modern path the failed policies are the policy sets with a
    mandatory failure, in upstream order, each with the name and the
    description of its set; the list depends on the per-set outcomes only,
    not on the summary counts, and is no longer than the list of sets. *)
Theorem modern_failed_policies
    (run : tfe.Run.t) (policyStage : tfe.TaskStage.t)
    (policyEval : tfe.PolicyEvaluation.t) :
  let pe := normalize (RawModern run policyStage policyEval) in
  let sets := tfe.PolicyEvaluation.PolicySetOutcomes policyEval in
  map (fun pd => (PolicyDetail.PolicyName pd, PolicyDetail.Description pd))
    (PolicyEvaluation.FailedPolicies pe)
  = map (fun o => (tfe.PolicySetOutcome.PolicySetName o,
                   tfe.PolicySetOutcome.PolicySetDescription o))
      (filter has_mandatory_failure sets)
  /\ (List.length (PolicyEvaluation.FailedPolicies pe) <= List.length sets)%nat
  /\ (forall rc : tfe.PolicyResultCount.t,
         PolicyEvaluation.FailedPolicies
           (normalize
              (RawModern run policyStage
                 (tfe.PolicyEvaluation.Build
                    (tfe.PolicyEvaluation.Status policyEval) rc sets)))
         = PolicyEvaluation.FailedPolicies pe).
Proof.
  intros pe sets. subst pe.
  rewrite normalize_failed_policies. fold sets.
  split; [| split].
  - rewrite map_map. reflexivity.
  - rewrite length_map. apply filter_length_le.
  - intros rc. rewrite normalize_failed_policies. reflexivity.
Qed.

(** The legacy loop when no outcome failed at the literal level
    "mandatory". *)
Lemma legacy_loop_no_mandatory (l : list tfe.PolicyOutcome.t) :
  Forall (fun o => tfe.PolicyOutcome.EnforcementLevel o <> "mandatory") l ->
  forall r : PolicyEvaluation.t,
    PolicyEvaluation.MandatoryFailedCount (fold_left policyCheck_outcome_step l r)
    = PolicyEvaluation.MandatoryFailedCount r
    /\ PolicyEvaluation.FailedPolicies (fold_left policyCheck_outcome_step l r)
       = PolicyEvaluation.FailedPolicies r.
Proof.
  induction 1 as [|o l Ho _ IH]; intros r; cbn [fold_left]; [split; reflexivity|].
  destruct (IH (policyCheck_outcome_step r o)) as [H1 H2]. rewrite H1, H2.
  unfold policyCheck_outcome_step.
  apply String.eqb_neq in Ho. rewrite Ho.
  destruct (String.eqb (tfe.PolicyOutcome.Outcome o) "passed"); [split; reflexivity|].
  destruct (String.eqb (tfe.PolicyOutcome.Outcome o) "failed"); [split; reflexivity|].
  destruct (String.eqb (tfe.PolicyOutcome.Outcome o) "errored"); split; reflexivity.
Qed.

(** Without the literal level "mandatory", the advisory failures are the
    failures. *)
Lemma tally_no_mandatory (l : list tfe.PolicyOutcome.t) :
  Forall (fun o => tfe.PolicyOutcome.EnforcementLevel o <> "mandatory") l ->
  tally is_failed_advisory l = tally is_failed l.
Proof.
  unfold tally. intros Hall. f_equal. f_equal.
  apply filter_ext_in. intros o Ho.
  rewrite Forall_forall in Hall. specialize (Hall o Ho).
  apply String.eqb_neq in Hall.
  unfold is_failed_advisory, is_failed. rewrite Hall. apply andb_true_r.
Qed.

(** X9: the legacy mapping knows the literal level "mandatory" only: when no
    outcome of the check carries it (the levels "hard-mandatory" and
    "soft-mandatory" included), mandatory_failed_count is 0, no failed
    policy is listed and requires_override is false, whatever failed; and
    every failure is counted as advisory: advisory_failed_count is the
    number of the outcomes of the check that failed, at whatever level,
    while passed_count and errored_count are the numbers of the outcomes
    that passed and that errored. *)
Theorem legacy_other_levels_are_advisory (run : tfe.Run.t) (check : tfe.PolicyCheck.t) :
  let outcomes := tfe.PolicyCheck.PolicySetOutcomes check in
  Forall (fun o => tfe.PolicyOutcome.EnforcementLevel o <> "mandatory") outcomes ->
  let pe := getPolicyFromPolicyCheck run check in
  PolicyEvaluation.MandatoryFailedCount pe = 0
  /\ PolicyEvaluation.FailedPolicies pe = []
  /\ PolicyEvaluation.RequiresOverride pe = false
  /\ (slice_len_ok outcomes ->
      PolicyEvaluation.AdvisoryFailedCount pe = tally is_failed outcomes
      /\ PolicyEvaluation.PassedCount pe = tally is_passed outcomes
      /\ PolicyEvaluation.ErroredCount pe = tally is_errored outcomes
      /\ PolicyEvaluation.TotalCount pe
         = tally is_passed outcomes + tally is_failed outcomes
           + tally is_errored outcomes).
Proof.
  intros outcomes Hall pe.
  assert (Hfirst :
    PolicyEvaluation.MandatoryFailedCount pe = 0
    /\ PolicyEvaluation.FailedPolicies pe = []
    /\ PolicyEvaluation.RequiresOverride pe = false).
  { subst pe. unfold getPolicyFromPolicyCheck, policyCheck_finish.
    match goal with
    | |- context [fold_left policyCheck_outcome_step ?l ?r] =>
        destruct (legacy_loop_no_mandatory l Hall r) as [Hm Hf];
        cbn [PolicyEvaluation.MandatoryFailedCount PolicyEvaluation.FailedPolicies]
          in Hm, Hf
    end.
    cbn [PolicyEvaluation.MandatoryFailedCount PolicyEvaluation.FailedPolicies
           PolicyEvaluation.RequiresOverride PolicyEvaluation.set_RequiresOverride
           PolicyEvaluation.set_TotalCount].
    rewrite Hm, Hf. repeat split. }
  destruct Hfirst as (Hm & Hf & Hr).
  split; [exact Hm | split; [exact Hf | split; [exact Hr |]]].
  intros Hlen.
  assert (Hzero : tally is_failed_mandatory outcomes = 0).
  { rewrite <- Hm. subst pe.
    rewrite (getPolicyFromPolicyCheck_closed run check Hlen). reflexivity. }
  subst pe. rewrite (getPolicyFromPolicyCheck_closed run check Hlen).
  cbv zeta. fold outcomes.
  cbn [PolicyEvaluation.AdvisoryFailedCount PolicyEvaluation.PassedCount
         PolicyEvaluation.ErroredCount PolicyEvaluation.TotalCount].
  rewrite Hzero, (tally_no_mandatory outcomes Hall).
  repeat split. lia.
Qed.

Lemma legacy_other_levels_are_advisory_witness :
  PolicyEvaluation.RequiresOverride
    (getPolicyFromPolicyCheck run_xyz789 check_hard_mandatory) = false
  /\ PolicyEvaluation.AdvisoryFailedCount
       (getPolicyFromPolicyCheck run_xyz789 check_hard_mandatory) = 2.
Proof.
  pose proof (legacy_other_levels_are_advisory run_xyz789 check_hard_mandatory) as H.
  cbv zeta in H.
  assert (Hall :
    Forall (fun o => tfe.PolicyOutcome.EnforcementLevel o <> "mandatory")
      (tfe.PolicyCheck.PolicySetOutcomes check_hard_mandatory))
    by (repeat constructor; discriminate).
  destruct (H Hall) as (_ & _ & Hr & Hcounts).
  split; [exact Hr |].
  assert (Hlen : slice_len_ok (tfe.PolicyCheck.PolicySetOutcomes check_hard_mandatory))
    by (vm_compute; discriminate).
  destruct (Hcounts Hlen) as (Ha & _). rewrite Ha. reflexivity.
Defined.

(** The legacy loop does not look at the run identifier. *)
Lemma legacy_loop_set_RunID (v : string) (l : list tfe.PolicyOutcome.t) :
  forall r : PolicyEvaluation.t,
    fold_left policyCheck_outcome_step l (set_RunID v r)
    = set_RunID v (fold_left policyCheck_outcome_step l r).
Proof.
  induction l as [|o l IH]; intros r; cbn [fold_left]; [reflexivity|].
  rewrite <- IH. f_equal. unfold policyCheck_outcome_step.
  destruct (String.eqb (tfe.PolicyOutcome.Outcome o) "passed"); [reflexivity|].
  destruct (String.eqb (tfe.PolicyOutcome.Outcome o) "failed").
  - destruct (String.eqb (tfe.PolicyOutcome.EnforcementLevel o) "mandatory");
      reflexivity.
  - destruct (String.eqb (tfe.PolicyOutcome.Outcome o) "errored"); reflexivity.
Qed.

(** X10: the mappings of data-model.md and of research.md agree: on each
    path the value of research.md is the value of data-model.md with the run
    identifier filled in, although the two write their assignments in a
    different order. *)
Theorem mappings_agree
    (run : tfe.Run.t) (policyStage : tfe.TaskStage.t)
    (policyEval : tfe.PolicyEvaluation.t) (check : tfe.PolicyCheck.t) :
  buildFromTaskStage run policyStage policyEval
  = set_RunID (tfe.Run.ID run) (mapFromTaskStage policyStage policyEval)
  /\ getPolicyFromPolicyCheck run check
     = set_RunID (tfe.Run.ID run) (mapFromPolicyCheck check).
Proof.
  split.
  - rewrite mapFromTaskStage_as_build, !buildFromTaskStage_closed. reflexivity.
  - unfold getPolicyFromPolicyCheck, mapFromPolicyCheck.
    change (PolicyEvaluation.Build (tfe.Run.ID run) "" (tfe.PolicyCheck.ID check)
              0 0 0 0 0 [] (tfe.PolicyCheck.Status check) false)
      with (set_RunID (tfe.Run.ID run)
              (PolicyEvaluation.Build "" "" (tfe.PolicyCheck.ID check)
                 0 0 0 0 0 [] (tfe.PolicyCheck.Status check) false)).
    rewrite legacy_loop_set_RunID. reflexivity.
Qed.

(** *** The Override Orchestrator, path by path *)

Lemma calls_of_app (l1 l2 : list Event) :
  calls_of (l1 ++ l2) = calls_of l2 ++ calls_of l1.
Proof.
  induction l1 as [|e l1 IH]; cbn [app calls_of].
  - now rewrite app_nil_r.
  - destruct e; rewrite IH; [now rewrite app_assoc | reflexivity | reflexivity].
Qed.

(** [OverridePolicy] after a read of the run that found it awaiting a
    decision. *)
Lemma OverridePolicy_awaiting
    {G : Type} (s : Client G) (options : OverridePolicyOptions.t)
    (w : World G) (run : tfe.Run.t) :
  reply (Runs_Read s (OverridePolicyOptions.RunID options) (gateway w)) = Ok run ->
  tfe.Run.Status run = tfe.RunPostPlanAwaitingDecision ->
  OverridePolicy s options w =
  let w1 := after_read s (OverridePolicyOptions.RunID options) w in
  match has_task_stage run with
  | Some stage =>
      overrideViaTaskStage s run stage (OverridePolicyOptions.Justification options) w1
  | None =>
      match has_policy_check run with
      | Some check =>
          overrideViaPolicyCheck s run check
            (OverridePolicyOptions.Justification options) w1
      | None =>
          (Failed ("no policy check or task stage found for run "
                   ++ tfe.Run.ID run)%string, w1)
      end
  end.
Proof.
  intros Hread Hstatus.
  unfold OverridePolicy, validateOverrideEligibility, bind at 1, bind at 1,
    perform at 1, after_read, perform.
  rewrite Hread, Hstatus. cbn [negb String.eqb]. 
  change (String.eqb tfe.RunPostPlanAwaitingDecision tfe.RunPostPlanAwaitingDecision)
    with true. cbn [negb ret snd].
  destruct (has_task_stage run); [reflexivity|].
  destruct (has_policy_check run); reflexivity.
Qed.

(** The two override helpers once the gateway has accepted the override:
    the comment is attempted and the record is returned. *)
Lemma overrideViaTaskStage_accepted
    {G : Type} (s : Client G) (run : tfe.Run.t) (stage taskStage : tfe.TaskStage.t)
    (justification : string) (w1 : World G) :
  reply (TaskStages_Override s (tfe.TaskStage.ID stage) justification (gateway w1))
  = Ok taskStage ->
  exists (w' : World G) (new : list Event),
    overrideViaTaskStage s run stage justification w1
    = (Ok (PolicyOverride.Build (tfe.Run.ID run) (tfe.TaskStage.ID taskStage) ""
             justification (tfe.Run.Status run) ""
             (String.eqb (tfe.TaskStage.Status taskStage) tfe.TaskStageOverridden) 0),
       w')
    /\ trace w' = new ++ trace w1
    /\ calls_of new
       = [ CallTaskStagesOverride (tfe.TaskStage.ID stage) justification;
           CallCommentsCreate (tfe.Run.ID run)
             ("Policy Override: " ++ justification)%string ].
Proof.
  intros Hover.
  unfold overrideViaTaskStage, bind at 1, perform at 1. rewrite Hover.
  unfold bind, perform, log_Printf, ret. cbn [gateway now trace].
  match goal with
  | |- context [reply (Comments_Create s ?a ?b ?g)] =>
      destruct (reply (Comments_Create s a b g)) as [[] | err]
  end.
  - eexists. eexists [_; _]. cbn [trace].
    split; [reflexivity | split; reflexivity].
  - eexists. eexists [_; _; _]. cbn [trace].
    split; [reflexivity | split; reflexivity].
Qed.

Lemma overrideViaPolicyCheck_accepted
    {G : Type} (s : Client G) (run : tfe.Run.t) (check : tfe.PolicyCheck.t)
    (justification : string) (w1 : World G) :
  reply (PolicyChecks_Override s (tfe.PolicyCheck.ID check) (gateway w1)) = Ok tt ->
  exists (w' : World G) (new : list Event),
    overrideViaPolicyCheck s run check justification w1
    = (Ok (PolicyOverride.Build (tfe.Run.ID run) "" (tfe.PolicyCheck.ID check)
             justification (tfe.Run.Status run) "" true 0),
       w')
    /\ trace w' = new ++ trace w1
    /\ calls_of new
       = [ CallPolicyChecksOverride (tfe.PolicyCheck.ID check);
           CallCommentsCreate (tfe.Run.ID run)
             ("Policy Override: " ++ justification)%string ].
Proof.
  intros Hover.
  unfold overrideViaPolicyCheck, bind at 1, perform at 1. rewrite Hover.
  unfold bind, perform, log_Printf, ret. cbn [gateway now trace].
  match goal with
  | |- context [reply (Comments_Create s ?a ?b ?g)] =>
      destruct (reply (Comments_Create s a b g)) as [[] | err]
  end.
  - eexists. eexists [_; _]. cbn [trace].
    split; [reflexivity | split; reflexivity].
  - eexists. eexists [_; _; _]. cbn [trace].
    split; [reflexivity | split; reflexivity].
Qed.

Lemma overrideViaTaskStage_rejected
    {G : Type} (s : Client G) (run : tfe.Run.t) (stage : tfe.TaskStage.t)
    (justification err : string) (w1 : World G) :
  reply (TaskStages_Override s (tfe.TaskStage.ID stage) justification (gateway w1))
  = Failed err ->
  overrideViaTaskStage s run stage justification w1
  = (Failed ("error overriding task stage: " ++ err)%string,
     MkWorld
       (gateway_after
          (TaskStages_Override s (tfe.TaskStage.ID stage) justification (gateway w1)))
       (now w1
        + Z.of_N (took (TaskStages_Override s (tfe.TaskStage.ID stage)
                          justification (gateway w1))))
       ([EvCall (now w1)
           (CallTaskStagesOverride (tfe.TaskStage.ID stage) justification)
           (took (TaskStages_Override s (tfe.TaskStage.ID stage)
                    justification (gateway w1)))]
        ++ trace w1)).
Proof.
  intros Hrej. unfold overrideViaTaskStage, bind, perform. rewrite Hrej. reflexivity.
Qed.

Lemma overrideViaPolicyCheck_rejected
    {G : Type} (s : Client G) (run : tfe.Run.t) (check : tfe.PolicyCheck.t)
    (justification err : string) (w1 : World G) :
  reply (PolicyChecks_Override s (tfe.PolicyCheck.ID check) (gateway w1)) = Failed err ->
  overrideViaPolicyCheck s run check justification w1
  = (Failed ("error overriding policy check: " ++ err)%string,
     MkWorld
       (gateway_after (PolicyChecks_Override s (tfe.PolicyCheck.ID check) (gateway w1)))
       (now w1
        + Z.of_N (took (PolicyChecks_Override s (tfe.PolicyCheck.ID check) (gateway w1))))
       ([EvCall (now w1) (CallPolicyChecksOverride (tfe.PolicyCheck.ID check))
           (took (PolicyChecks_Override s (tfe.PolicyCheck.ID check) (gateway w1)))]
        ++ trace w1)).
Proof.
  intros Hrej. unfold overrideViaPolicyCheck, bind, perform. rewrite Hrej. reflexivity.
Qed.

Lemma after_read_trace {G : Type} (s : Client G) (runID : string) (w : World G) :
  trace (after_read s runID w)
  = [EvCall (now w) (CallRunsRead runID) (took (Runs_Read s runID (gateway w)))]
    ++ trace w.
Proof. reflexivity. Qed.

(** X11: the modern path comes first.  For a run that awaits a decision and
    carries a task stage with an identifier, [OverridePolicy] overrides that
    stage with the justification as comment, whether the run has a legacy
    check or not; once the gateway accepts, it creates the comment
    "Policy Override: <justification>" on the run and returns the record of
    the modern path: the identifier of the stage the gateway returned, the
    status read before the override, and override_complete true exactly
    when that stage is overridden.  These three calls are the only ones. *)
Theorem OverridePolicy_modern_path
    {G : Type} (s : Client G) (options : OverridePolicyOptions.t)
    (w : World G) (run : tfe.Run.t) (stage taskStage : tfe.TaskStage.t) :
  let runID := OverridePolicyOptions.RunID options in
  let justification := OverridePolicyOptions.Justification options in
  reply (Runs_Read s runID (gateway w)) = Ok run ->
  tfe.Run.Status run = tfe.RunPostPlanAwaitingDecision ->
  tfe.Run.TaskStage run = Some stage ->
  tfe.TaskStage.ID stage <> "" ->
  reply (TaskStages_Override s (tfe.TaskStage.ID stage) justification
           (gateway (after_read s runID w))) = Ok taskStage ->
  fst (OverridePolicy s options w)
  = Ok (PolicyOverride.Build (tfe.Run.ID run) (tfe.TaskStage.ID taskStage) ""
          justification tfe.RunPostPlanAwaitingDecision ""
          (String.eqb (tfe.TaskStage.Status taskStage) tfe.TaskStageOverridden) 0)
  /\ exists new : list Event,
       added w (snd (OverridePolicy s options w)) new
       /\ calls_of new
          = [ CallRunsRead runID;
              CallTaskStagesOverride (tfe.TaskStage.ID stage) justification;
              CallCommentsCreate (tfe.Run.ID run)
                ("Policy Override: " ++ justification)%string ].
Proof.
  intros runID justification Hread Hstatus Hstage Hid Hover.
  rewrite (OverridePolicy_awaiting s options w run Hread Hstatus). cbv zeta.
  unfold has_task_stage. rewrite Hstage.
  apply String.eqb_neq in Hid. rewrite Hid. cbn [negb].
  fold runID justification.
  destruct (overrideViaTaskStage_accepted s run stage taskStage justification
              (after_read s runID w) Hover) as (w' & new & Heq & Htr & Hcalls).
  rewrite Heq, Hstatus. cbn [fst snd]. split; [reflexivity|].
  exists (new ++ [EvCall (now w) (CallRunsRead runID)
                    (took (Runs_Read s runID (gateway w)))]).
  unfold added. rewrite Htr, after_read_trace, <- app_assoc.
  split; [reflexivity|]. rewrite calls_of_app, Hcalls. reflexivity.
Qed.

Lemma OverridePolicy_modern_path_witness :
  fst (OverridePolicy client_awaiting options_hotfix world0)
  = Ok (PolicyOverride.Build "run-abc123" "ts-xyz789" ""
          "Emergency hotfix approved by CTO" "post_plan_awaiting_decision" ""
          true 0).
Proof.
  apply (OverridePolicy_modern_path client_awaiting options_hotfix world0
           (tfe.Run.Build "run-abc123" tfe.RunPostPlanAwaitingDecision
              (Some stage_abc123) None)
           stage_abc123
           (tfe.TaskStage.Build "ts-xyz789" tfe.PostPlan tfe.TaskStageOverridden)).
  - reflexivity.
  - reflexivity.
  - reflexivity.
  - discriminate.
  - reflexivity.
Defined.

(** X12: the legacy path is the fallback.  For a run that awaits a decision,
    has no task stage with an identifier and carries a policy check with
    one, [OverridePolicy] overrides the check; once the gateway accepts, it
    creates the comment and returns the record of the legacy path, with
    override_complete true.  No task stage is overridden. *)
Theorem OverridePolicy_legacy_path
    {G : Type} (s : Client G) (options : OverridePolicyOptions.t)
    (w : World G) (run : tfe.Run.t) (check : tfe.PolicyCheck.t) :
  let runID := OverridePolicyOptions.RunID options in
  let justification := OverridePolicyOptions.Justification options in
  reply (Runs_Read s runID (gateway w)) = Ok run ->
  tfe.Run.Status run = tfe.RunPostPlanAwaitingDecision ->
  has_task_stage run = None ->
  tfe.Run.PolicyCheck run = Some check ->
  tfe.PolicyCheck.ID check <> "" ->
  reply (PolicyChecks_Override s (tfe.PolicyCheck.ID check)
           (gateway (after_read s runID w))) = Ok tt ->
  fst (OverridePolicy s options w)
  = Ok (PolicyOverride.Build (tfe.Run.ID run) "" (tfe.PolicyCheck.ID check)
          justification tfe.RunPostPlanAwaitingDecision "" true 0)
  /\ exists new : list Event,
       added w (snd (OverridePolicy s options w)) new
       /\ calls_of new
          = [ CallRunsRead runID;
              CallPolicyChecksOverride (tfe.PolicyCheck.ID check);
              CallCommentsCreate (tfe.Run.ID run)
                ("Policy Override: " ++ justification)%string ].
Proof.
  intros runID justification Hread Hstatus Hstage Hcheck Hid Hover.
  rewrite (OverridePolicy_awaiting s options w run Hread Hstatus). cbv zeta.
  rewrite Hstage. unfold has_policy_check. rewrite Hcheck.
  apply String.eqb_neq in Hid. rewrite Hid. cbn [negb].
  fold runID justification.
  destruct (overrideViaPolicyCheck_accepted s run check justification
              (after_read s runID w) Hover) as (w' & new & Heq & Htr & Hcalls).
  rewrite Heq, Hstatus. cbn [fst snd]. split; [reflexivity|].
  exists (new ++ [EvCall (now w) (CallRunsRead runID)
                    (took (Runs_Read s runID (gateway w)))]).
  unfold added. rewrite Htr, after_read_trace, <- app_assoc.
  split; [reflexivity|]. rewrite calls_of_app, Hcalls. reflexivity.
Qed.

Lemma OverridePolicy_legacy_path_witness :
  fst (OverridePolicy client_legacy options_hotfix world0)
  = Ok (PolicyOverride.Build "run-abc123" "" "polchk-xyz789"
          "Emergency hotfix approved by CTO" "post_plan_awaiting_decision" ""
          true 0).
Proof.
  apply (OverridePolicy_legacy_path client_legacy options_hotfix world0
           (tfe.Run.Build "run-abc123" tfe.RunPostPlanAwaitingDecision
              None (Some check_xyz789))
           check_xyz789).
  - reflexivity.
  - reflexivity.
  - reflexivity.
  - reflexivity.
  - discriminate.
  - reflexivity.
Defined.

Lemma OverridePolicy_read_error_eq
    {G : Type} (s : Client G) (options : OverridePolicyOptions.t)
    (w : World G) (err : string) :
  reply (Runs_Read s (OverridePolicyOptions.RunID options) (gateway w)) = Failed err ->
  OverridePolicy s options w
  = (Failed ("error reading run: " ++ err)%string,
     after_read s (OverridePolicyOptions.RunID options) w).
Proof.
  intros Hread.
  unfold OverridePolicy, validateOverrideEligibility, bind, perform, after_read,
    perform, ret.
  rewrite Hread. reflexivity.
Qed.

(** X13: when the run cannot be read, [OverridePolicy] returns the gateway's
    error behind "error reading run: " and issues no other call. *)
Theorem OverridePolicy_read_error
    {G : Type} (s : Client G) (options : OverridePolicyOptions.t)
    (w : World G) (err : string) :
  reply (Runs_Read s (OverridePolicyOptions.RunID options) (gateway w)) = Failed err ->
  OverridePolicy s options w
  = (Failed ("error reading run: " ++ err)%string,
     after_read s (OverridePolicyOptions.RunID options) w).
Proof.
  apply OverridePolicy_read_error_eq.
Qed.

Lemma OverridePolicy_read_error_witness :
  fst (OverridePolicy client_unreachable options_hotfix world0)
  = Failed "error reading run: 500 Internal Server Error".
Proof.
  rewrite (OverridePolicy_read_error client_unreachable options_hotfix world0
             "500 Internal Server Error" eq_refl).
  reflexivity.
Defined.

(** X14: a run that awaits a decision but carries neither a task stage nor
    a policy check (a nil pointer, or an empty identifier) is refused with
    "no policy check or task stage found for run <id>"; only the read of
    the run has been issued. *)
Theorem OverridePolicy_nothing_to_override
    {G : Type} (s : Client G) (options : OverridePolicyOptions.t)
    (w : World G) (run : tfe.Run.t) :
  reply (Runs_Read s (OverridePolicyOptions.RunID options) (gateway w)) = Ok run ->
  tfe.Run.Status run = tfe.RunPostPlanAwaitingDecision ->
  (tfe.Run.TaskStage run = None
   \/ exists stage, tfe.Run.TaskStage run = Some stage /\ tfe.TaskStage.ID stage = "") ->
  (tfe.Run.PolicyCheck run = None
   \/ exists check, tfe.Run.PolicyCheck run = Some check /\ tfe.PolicyCheck.ID check = "") ->
  OverridePolicy s options w
  = (Failed ("no policy check or task stage found for run " ++ tfe.Run.ID run)%string,
     after_read s (OverridePolicyOptions.RunID options) w).
Proof.
  intros Hread Hstatus Hstage Hcheck.
  rewrite (OverridePolicy_awaiting s options w run Hread Hstatus). cbv zeta.
  assert (Hs : has_task_stage run = None).
  { unfold has_task_stage. destruct Hstage as [-> | (stage & -> & ->)]; reflexivity. }
  assert (Hc : has_policy_check run = None).
  { unfold has_policy_check. destruct Hcheck as [-> | (check & -> & ->)]; reflexivity. }
  rewrite Hs, Hc. reflexivity.
Qed.

Lemma OverridePolicy_nothing_to_override_witness :
  fst (OverridePolicy client_bare options_hotfix world0)
  = Failed "no policy check or task stage found for run run-abc123".
Proof.
  rewrite (OverridePolicy_nothing_to_override client_bare options_hotfix world0
             (tfe.Run.Build "run-abc123" tfe.RunPostPlanAwaitingDecision None None)
             eq_refl eq_refl (or_introl eq_refl) (or_introl eq_refl)).
  reflexivity.
Defined.

(** X15: when the gateway rejects the override, on either path,
    [OverridePolicy] returns the gateway's error behind "error overriding
    task stage: " or "error overriding policy check: " and creates no
    comment: the read and the rejected override are its only calls. *)
Theorem OverridePolicy_override_rejected
    {G : Type} (s : Client G) (options : OverridePolicyOptions.t)
    (w : World G) (run : tfe.Run.t) (err : string) :
  let runID := OverridePolicyOptions.RunID options in
  let justification := OverridePolicyOptions.Justification options in
  reply (Runs_Read s runID (gateway w)) = Ok run ->
  tfe.Run.Status run = tfe.RunPostPlanAwaitingDecision ->
  match has_task_stage run with
  | Some stage =>
      reply (TaskStages_Override s (tfe.TaskStage.ID stage) justification
               (gateway (after_read s runID w))) = Failed err
  | None =>
      match has_policy_check run with
      | Some check =>
          reply (PolicyChecks_Override s (tfe.PolicyCheck.ID check)
                   (gateway (after_read s runID w))) = Failed err
      | None => False
      end
  end ->
  exists (prefix : string) (override : Call) (new : list Event),
    fst (OverridePolicy s options w) = Failed (prefix ++ err)%string
    /\ (prefix = "error overriding task stage: "
        \/ prefix = "error overriding policy check: ")
    /\ added w (snd (OverridePolicy s options w)) new
    /\ calls_of new = [CallRunsRead runID; override]
    /\ mutating override = true
    /\ (forall runID' body, override <> CallCommentsCreate runID' body).
Proof.
  intros runID justification Hread Hstatus Hrej.
  rewrite (OverridePolicy_awaiting s options w run Hread Hstatus). cbv zeta.
  fold runID justification.
  pose proof (after_read_trace s runID w) as Hw1.
  destruct (has_task_stage run) as [stage|].
  - exists "error overriding task stage: ",
      (CallTaskStagesOverride (tfe.TaskStage.ID stage) justification).
    rewrite (overrideViaTaskStage_rejected s run stage justification err _ Hrej).
    unfold added. cbn [fst snd trace]. rewrite Hw1.
    eexists (_ :: _).
    split; [reflexivity | split; [now left | split; [reflexivity |]]].
    split; [reflexivity | split; [reflexivity | discriminate]].
  - destruct (has_policy_check run) as [check|]; [| contradiction].
    exists "error overriding policy check: ",
      (CallPolicyChecksOverride (tfe.PolicyCheck.ID check)).
    rewrite (overrideViaPolicyCheck_rejected s run check justification err _ Hrej).
    unfold added. cbn [fst snd trace]. rewrite Hw1.
    eexists (_ :: _).
    split; [reflexivity | split; [now right | split; [reflexivity |]]].
    split; [reflexivity | split; [reflexivity | discriminate]].
Qed.

Lemma OverridePolicy_override_rejected_witness :
  exists (prefix : string) (override : Call) (new : list Event),
    fst (OverridePolicy client_forbidden options_hotfix world0)
    = Failed (prefix ++ "403 Forbidden")%string
    /\ (prefix = "error overriding task stage: "
        \/ prefix = "error overriding policy check: ")
    /\ added world0 (snd (OverridePolicy client_forbidden options_hotfix world0)) new
    /\ calls_of new = [CallRunsRead "run-abc123"; override]
    /\ mutating override = true
    /\ (forall runID' body, override <> CallCommentsCreate runID' body).
Proof.
  apply (OverridePolicy_override_rejected client_forbidden options_hotfix world0
           (tfe.Run.Build "run-abc123" tfe.RunPostPlanAwaitingDecision
              (Some stage_abc123) None)
           "403 Forbidden" eq_refl eq_refl).
  reflexivity.
Defined.

(** X16: whatever the gateway answers, [OverridePolicy] reads the run first
    and issues at most two more calls: one override (of the stage or of the
    check), and the comment after it.  It returns a record exactly when it
    has got to the comment, that is when the gateway accepted the override;
    in every other case it returns an error. *)
Theorem OverridePolicy_call_shape
    {G : Type} (s : Client G) (options : OverridePolicyOptions.t) (w : World G) :
  let runID := OverridePolicyOptions.RunID options in
  let justification := OverridePolicyOptions.Justification options in
  exists new : list Event,
    added w (snd (OverridePolicy s options w)) new
    /\ ((calls_of new = [CallRunsRead runID]
         /\ exists msg, fst (OverridePolicy s options w) = Failed msg)
        \/ (exists override,
               calls_of new = [CallRunsRead runID; override]
               /\ (exists id, override = CallTaskStagesOverride id justification
                              \/ override = CallPolicyChecksOverride id)
               /\ exists msg, fst (OverridePolicy s options w) = Failed msg)
        \/ (exists override commented,
               calls_of new
               = [ CallRunsRead runID; override;
                   CallCommentsCreate commented
                     ("Policy Override: " ++ justification)%string ]
               /\ (exists id, override = CallTaskStagesOverride id justification
                              \/ override = CallPolicyChecksOverride id)
               /\ exists po, fst (OverridePolicy s options w) = Ok po)).
Proof.
  intros runID justification.
  destruct (reply (Runs_Read s runID (gateway w))) as [run | err] eqn:Hread.
  2:{ rewrite (OverridePolicy_read_error_eq s options w err Hread).
      exists [EvCall (now w) (CallRunsRead runID)
                (took (Runs_Read s runID (gateway w)))].
      split; [reflexivity | left]. split; [reflexivity | eexists; reflexivity]. }
  destruct (String.eqb_spec (tfe.Run.Status run) tfe.RunPostPlanAwaitingDecision)
    as [Hstatus | Hstatus].
  2:{ exists [EvCall (now w) (CallRunsRead runID)
                (took (Runs_Read s runID (gateway w)))].
      apply String.eqb_neq in Hstatus.
      unfold added, OverridePolicy, validateOverrideEligibility, bind, perform, ret.
      fold runID. rewrite Hread, Hstatus. cbn [negb fst snd trace].
      split; [reflexivity | left]. split; [reflexivity | eexists; reflexivity]. }
  rewrite (OverridePolicy_awaiting s options w run Hread Hstatus). cbv zeta.
  fold runID justification.
  pose proof (after_read_trace s runID w) as Hw1.
  destruct (has_task_stage run) as [stage|].
  - destruct (reply (TaskStages_Override s (tfe.TaskStage.ID stage) justification
                       (gateway (after_read s runID w))))
      as [taskStage | err] eqn:Hover.
    + destruct (overrideViaTaskStage_accepted s run stage taskStage justification
                  (after_read s runID w) Hover) as (w' & new & Heq & Htr & Hcalls).
      rewrite Heq. cbn [fst snd].
      exists (new ++ [EvCall (now w) (CallRunsRead runID)
                        (took (Runs_Read s runID (gateway w)))]).
      unfold added. rewrite Htr, Hw1, <- app_assoc.
      split; [reflexivity | right; right].
      eexists. eexists. rewrite calls_of_app, Hcalls.
      split; [reflexivity | split; [eexists; left; reflexivity | eexists; reflexivity]].
    + rewrite (overrideViaTaskStage_rejected s run stage justification err _ Hover).
      unfold added. cbn [fst snd trace]. rewrite Hw1.
      eexists (_ :: _). split; [reflexivity | right; left].
      eexists. cbn [calls_of app].
      split; [reflexivity | split; [eexists; left; reflexivity | eexists; reflexivity]].
  - destruct (has_policy_check run) as [check|].
    + destruct (reply (PolicyChecks_Override s (tfe.PolicyCheck.ID check)
                         (gateway (after_read s runID w))))
        as [[] | err] eqn:Hover.
      * destruct (overrideViaPolicyCheck_accepted s run check justification
                    (after_read s runID w) Hover) as (w' & new & Heq & Htr & Hcalls).
        rewrite Heq. cbn [fst snd].
        exists (new ++ [EvCall (now w) (CallRunsRead runID)
                          (took (Runs_Read s runID (gateway w)))]).
        unfold added. rewrite Htr, Hw1, <- app_assoc.
        split; [reflexivity | right; right].
        eexists. eexists. rewrite calls_of_app, Hcalls.
        split; [reflexivity | split; [eexists; right; reflexivity | eexists; reflexivity]].
      * rewrite (overrideViaPolicyCheck_rejected s run check justification err _ Hover).
        unfold added. cbn [fst snd trace]. rewrite Hw1.
        eexists (_ :: _). split; [reflexivity | right; left].
        eexists. cbn [calls_of app].
        split; [reflexivity | split; [eexists; right; reflexivity | eexists; reflexivity]].
    + cbn [fst snd]. exists [EvCall (now w) (CallRunsRead runID)
                (took (Runs_Read s runID (gateway w)))].
      split; [exact Hw1 | left]. split; [reflexivity | eexists; reflexivity].
Qed.

Lemma Validate_without_final_status
    (runID stageID checkID justification initial : string) (complete : bool) (ts : Z) :
  PolicyOverride.Validate
    (PolicyOverride.Build runID stageID checkID justification initial "" complete ts)
  <> nil.
Proof.
  unfold PolicyOverride.Validate, nil.
  cbn [PolicyOverride.RunID PolicyOverride.PolicyStageID PolicyOverride.PolicyCheckID
         PolicyOverride.Justification PolicyOverride.InitialStatus
         PolicyOverride.FinalStatus].
  destruct (negb (validStringID runID)); [discriminate|].
  destruct (String.eqb stageID "" && String.eqb checkID ""); [discriminate|].
  destruct (String.eqb justification ""); [discriminate|].
  destruct (negb (String.eqb initial "post_plan_awaiting_decision")); [discriminate|].
  cbn. discriminate.
Qed.

(** X17: the record [OverridePolicy] returns never carries a final status
    (nor a timestamp): it holds the justification given and the initial
    status post_plan_awaiting_decision, but final_status is empty, so the
    record does not pass [PolicyOverride.Validate]. *)
Theorem OverridePolicy_result_without_final_status
    {G : Type} (s : Client G) (options : OverridePolicyOptions.t)
    (w : World G) (po : PolicyOverride.t) :
  fst (OverridePolicy s options w) = Ok po ->
  PolicyOverride.FinalStatus po = ""
  /\ PolicyOverride.Timestamp po = 0
  /\ PolicyOverride.Justification po = OverridePolicyOptions.Justification options
  /\ PolicyOverride.InitialStatus po = tfe.RunPostPlanAwaitingDecision
  /\ PolicyOverride.Validate po <> nil.
Proof.
  set (runID := OverridePolicyOptions.RunID options).
  set (justification := OverridePolicyOptions.Justification options).
  destruct (reply (Runs_Read s runID (gateway w))) as [run | err] eqn:Hread.
  2:{ rewrite (OverridePolicy_read_error_eq s options w err Hread). discriminate. }
  destruct (String.eqb_spec (tfe.Run.Status run) tfe.RunPostPlanAwaitingDecision)
    as [Hstatus | Hstatus].
  2:{ apply String.eqb_neq in Hstatus.
      unfold OverridePolicy, validateOverrideEligibility, bind, perform, ret.
      fold runID. rewrite Hread, Hstatus. cbn [negb fst]. discriminate. }
  rewrite (OverridePolicy_awaiting s options w run Hread Hstatus). cbv zeta.
  fold runID justification.
  destruct (has_task_stage run) as [stage|].
  - destruct (reply (TaskStages_Override s (tfe.TaskStage.ID stage) justification
                       (gateway (after_read s runID w))))
      as [taskStage | err] eqn:Hover.
    + destruct (overrideViaTaskStage_accepted s run stage taskStage justification
                  (after_read s runID w) Hover) as (w' & new & Heq & _).
      rewrite Heq, Hstatus. cbn [fst]. intros H. injection H as <-.
      repeat split. apply Validate_without_final_status.
    + rewrite (overrideViaTaskStage_rejected s run stage justification err _ Hover).
      discriminate.
  - destruct (has_policy_check run) as [check|]; [| discriminate].
    destruct (reply (PolicyChecks_Override s (tfe.PolicyCheck.ID check)
                       (gateway (after_read s runID w))))
      as [[] | err] eqn:Hover.
    + destruct (overrideViaPolicyCheck_accepted s run check justification
                  (after_read s runID w) Hover) as (w' & new & Heq & _).
      rewrite Heq, Hstatus. cbn [fst]. intros H. injection H as <-.
      repeat split. apply Validate_without_final_status.
    + rewrite (overrideViaPolicyCheck_rejected s run check justification err _ Hover).
      discriminate.
Qed.

Lemma OverridePolicy_result_without_final_status_witness :
  PolicyOverride.Validate
    (PolicyOverride.Build "run-abc123" "ts-xyz789" ""
       "Emergency hotfix approved by CTO" "post_plan_awaiting_decision" "" true 0)
  <> nil.
Proof.
  apply (OverridePolicy_result_without_final_status client_awaiting options_hotfix
           world0).
  reflexivity.
Defined.

Lemma isTerminalStatus_loop_In (status : string) (l : list string) :
  isTerminalStatus_loop status l = true <-> In status l.
Proof.
  induction l as [|y l IH]; cbn [isTerminalStatus_loop In].
  - split; [discriminate | tauto].
  - destruct (String.eqb_spec status y) as [E|E].
    + split; auto.
    + rewrite IH. split; [auto | intros [H|H]; congruence].
Qed.

(** X18: [validateOverrideEligibility] lets a run through exactly when
    [canOverride] holds of its status, that is for
    post_plan_awaiting_decision only; such a status is never terminal for
    [isTerminalStatus], whose terminal statuses are applied,
    planned_and_finished, discarded, canceled, force_canceled and errored. *)
Theorem eligibility_is_canOverride
    {G : Type} (s : Client G) (runID : string) (w : World G) (run : tfe.Run.t) :
  reply (Runs_Read s runID (gateway w)) = Ok run ->
  (fst (validateOverrideEligibility s runID w) = Ok run
   <-> canOverride (tfe.Run.Status run) = true)
  /\ (canOverride (tfe.Run.Status run) = true ->
      isTerminalStatus (tfe.Run.Status run) = false)
  /\ (isTerminalStatus (tfe.Run.Status run) = true
      <-> In (tfe.Run.Status run)
            [ "applied"; "planned_and_finished"; "discarded"; "canceled";
              "force_canceled"; "errored" ]).
Proof.
  intros Hread. split; [| split].
  - unfold validateOverrideEligibility, bind, perform, ret, canOverride.
    rewrite Hread.
    destruct (String.eqb (tfe.Run.Status run) tfe.RunPostPlanAwaitingDecision);
      cbn [negb fst]; split; congruence.
  - unfold canOverride. intros H. apply String.eqb_eq in H. rewrite H. reflexivity.
  - unfold isTerminalStatus. apply isTerminalStatus_loop_In.
Qed.

Lemma eligibility_is_canOverride_witness :
  fst (validateOverrideEligibility client_awaiting "run-abc123" world0)
  = Ok (tfe.Run.Build "run-abc123" tfe.RunPostPlanAwaitingDecision
          (Some stage_abc123) None).
Proof.
  apply (eligibility_is_canOverride client_awaiting "run-abc123" world0
           (tfe.Run.Build "run-abc123" tfe.RunPostPlanAwaitingDecision
              (Some stage_abc123) None) eq_refl).
  reflexivity.
Defined.

(** *** The wait, outcome by outcome *)

(** One iteration of the loop whose context is not done. *)
Lemma Do_step
    {G : Type} (s : Client G) (fuel : nat) (ctx : Context) (b : Backoff)
    (runID : string) (st : option tfe.Run.t) (w : World G) :
  ctx_done ctx (now w) = false ->
  Do (S fuel) ctx b (waitProbe s runID) st w =
  let '(err, st1, w1) := waitProbe s runID st w in
  match err with
  | RNil => (Returned nil, st1, w1)
  | RError msg => (Returned (Some msg), st1, w1)
  | RRetryable msg =>
      let '(next, stop, b') := Next b (now w1) in
      if stop then (Returned (Some msg), st1, w1)
      else if ctx_done ctx (now w1) then (Returned (ctx_Err ctx), st1, w1)
      else
        match ctx with
        | Some (done, _) =>
            if done <=? now w1 + next then
              (Returned (ctx_Err ctx), st1, snd (sleep (done - now w1) w1))
            else Do fuel ctx b' (waitProbe s runID) st1 (snd (sleep next w1))
        | None => Do fuel ctx b' (waitProbe s runID) st1 (snd (sleep next w1))
        end
  end.
Proof.
  intros Hctx. cbn [Do]. unfold bind at 1, time_Now. rewrite Hctx.
  unfold bind at 1.
  destruct (waitProbe s runID st w) as [[err st1] w2].
  destruct err; try reflexivity.
  unfold bind at 1.
  destruct (Next b (now w2)) as [[next stop] b'].
  destruct stop; [reflexivity|].
  destruct (ctx_done ctx (now w2)); [reflexivity|].
  destruct ctx as [[deadline cause]|]; [| reflexivity].
  destruct (deadline <=? now w2 + next); reflexivity.
Qed.

(** The timeout of the options does not end a context that is not done. *)
Lemma ctx_done_timeout (ctx : Context) (t timeout : Z) :
  ctx_done (if 0 <? timeout then WithTimeout ctx t timeout else ctx) t
  = ctx_done ctx t.
Proof.
  destruct (Z.ltb_spec 0 timeout) as [Hpos|]; [| reflexivity].
  destruct ctx as [[d cause]|]; cbn [WithTimeout ctx_done].
  - destruct (Z.leb_spec d (t + timeout)); cbn [ctx_done];
      destruct (Z.leb_spec d t); try reflexivity;
      destruct (Z.leb_spec (t + timeout) t); try reflexivity; lia.
  - destruct (Z.leb_spec (t + timeout) t); [lia | reflexivity].
Qed.

(** [WaitForPolicyDecision] whose first probe ends the loop. *)
Lemma WaitForPolicyDecision_first_probe
    {G : Type} (s : Client G) (fuel : nat) (ctx : Context)
    (options : WaitForPolicyOptions.t) (w : World G)
    (err : RetryErr) (st1 : option tfe.Run.t) (w1 : World G) :
  ctx_done ctx (now w) = false ->
  waitProbe s (WaitForPolicyOptions.RunID options) None w = (err, st1, w1) ->
  (forall msg, err <> RRetryable msg) ->
  WaitForPolicyDecision s (S fuel) ctx options w =
  match err, st1 with
  | RNil, Some run =>
      (WaitReturned
         (Ok (PolicyOverride.Build (tfe.Run.ID run) "" "" ""
                tfe.RunPostPlanAwaitingDecision (tfe.Run.Status run) true 0)), w1)
  | RNil, None => (WaitPanic, w1)
  | RError msg, _ => (WaitReturned (Failed msg), w1)
  | RRetryable _, _ => (WaitOutOfFuel, w1)
  end.
Proof.
  intros Hctx Hprobe Hnot.
  unfold WaitForPolicyDecision, bind at 1, time_Now. unfold bind at 1.
  rewrite Do_step by (rewrite ctx_done_timeout; exact Hctx).
  rewrite Hprobe.
  destruct err as [| msg | msg].
  - destruct st1; reflexivity.
  - reflexivity.
  - exfalso. now apply (Hnot msg).
Qed.

(** X19: a run observed as policy_override or post_plan_completed ends the
    wait at the first probe with a record that holds the identifier of the
    run, the initial status post_plan_awaiting_decision, the status observed
    as final status (one of the final statuses [PolicyOverride.Validate]
    knows) and override_complete true.  The record carries no stage or check
    identifier and no justification, so it does not pass
    [PolicyOverride.Validate]. *)
Theorem WaitForPolicyDecision_success
    {G : Type} (s : Client G) (fuel : nat) (ctx : Context)
    (options : WaitForPolicyOptions.t) (w : World G) (run : tfe.Run.t) :
  ctx_done ctx (now w) = false ->
  reply (Runs_Read s (WaitForPolicyOptions.RunID options) (gateway w)) = Ok run ->
  tfe.Run.Status run = tfe.RunPolicyOverride
  \/ tfe.Run.Status run = tfe.RunPostPlanCompleted ->
  let po :=
    PolicyOverride.Build (tfe.Run.ID run) "" "" "" tfe.RunPostPlanAwaitingDecision
      (tfe.Run.Status run) true 0 in
  WaitForPolicyDecision s (S fuel) ctx options w
  = (WaitReturned (Ok po), after_probe s (WaitForPolicyOptions.RunID options) run w)
  /\ In (PolicyOverride.FinalStatus po) PolicyOverride.validFinalStatuses
  /\ PolicyOverride.Validate po <> nil.
Proof.
  intros Hctx Hread Hstatus po.
  assert (Hprobe : waitProbe s (WaitForPolicyOptions.RunID options) None w
                   = (RNil, Some run,
                      after_probe s (WaitForPolicyOptions.RunID options) run w)).
  { rewrite (waitProbe_status s _ None w run Hread).
    destruct Hstatus as [-> | ->]; reflexivity. }
  split; [| split].
  - rewrite (WaitForPolicyDecision_first_probe s fuel ctx options w _ _ _ Hctx Hprobe)
      by discriminate.
    reflexivity.
  - subst po. cbn [PolicyOverride.FinalStatus].
    destruct Hstatus as [-> | ->]; cbn; auto.
  - subst po. unfold PolicyOverride.Validate, nil.
    cbn [PolicyOverride.RunID PolicyOverride.PolicyStageID PolicyOverride.PolicyCheckID].
    destruct (negb (validStringID (tfe.Run.ID run))); [discriminate|].
    cbn. discriminate.
Qed.

Lemma WaitForPolicyDecision_success_witness :
  fst (WaitForPolicyDecision client_overridden 1 None options_wait world0)
  = WaitReturned
      (Ok (PolicyOverride.Build "run-abc123" "" "" "" "post_plan_awaiting_decision"
             "policy_override" true 0)).
Proof.
  pose proof (WaitForPolicyDecision_success client_overridden 0 None options_wait
                world0 (tfe.Run.Build "run-abc123" tfe.RunPolicyOverride None None)
                eq_refl eq_refl (or_introl eq_refl)) as H.
  cbv zeta in H. destruct H as [H _]. rewrite H. reflexivity.
Defined.

(** X20: an error of the read of the run ends the wait at once: it is
    returned as it is after that single read, without a sleep, whatever the
    error (a rate limit or a server error included). *)
Theorem WaitForPolicyDecision_read_error
    {G : Type} (s : Client G) (fuel : nat) (ctx : Context)
    (options : WaitForPolicyOptions.t) (w : World G) (err : string) :
  ctx_done ctx (now w) = false ->
  reply (Runs_Read s (WaitForPolicyOptions.RunID options) (gateway w)) = Failed err ->
  WaitForPolicyDecision s (S fuel) ctx options w
  = (WaitReturned (Failed err), after_read s (WaitForPolicyOptions.RunID options) w).
Proof.
  intros Hctx Hread.
  assert (Hprobe : waitProbe s (WaitForPolicyOptions.RunID options) None w
                   = (RError err, None,
                      after_read s (WaitForPolicyOptions.RunID options) w)).
  { unfold waitProbe, bind, perform, after_read, perform, ret. rewrite Hread.
    reflexivity. }
  rewrite (WaitForPolicyDecision_first_probe s fuel ctx options w _ _ _ Hctx Hprobe)
    by discriminate.
  reflexivity.
Qed.

Lemma WaitForPolicyDecision_read_error_witness :
  fst (WaitForPolicyDecision client_rate_limited 3 None options_wait world0)
  = WaitReturned (Failed "429 Too Many Requests").
Proof.
  rewrite (WaitForPolicyDecision_read_error client_rate_limited 2 None options_wait
             world0 "429 Too Many Requests" eq_refl eq_refl).
  reflexivity.
Defined.

(** X21: a status that [isTerminalStatus] calls terminal never ends the wait
    with success: discarded, canceled, force_canceled and errored end it
    with an error, while applied and planned_and_finished are unknown to the
    switch of the probe, which logs a warning and asks for a retry. *)
Theorem terminal_statuses_in_wait
    {G : Type} (s : Client G) (runID : string) (st : option tfe.Run.t)
    (w : World G) (run : tfe.Run.t) :
  reply (Runs_Read s runID (gateway w)) = Ok run ->
  isTerminalStatus (tfe.Run.Status run) = true ->
  (In (tfe.Run.Status run) ["discarded"; "canceled"; "force_canceled"; "errored"]
   /\ exists msg, fst (waitProbe s runID st w) = (RError msg, st))
  \/ (In (tfe.Run.Status run) ["applied"; "planned_and_finished"]
      /\ fst (waitProbe s runID st w)
         = (RRetryable ("unexpected status: " ++ tfe.Run.Status run)%string, st)
      /\ In ("[WARN] Unexpected run status during wait: " ++ tfe.Run.Status run)%string
           (map (fun e => match e with EvLog m => m | _ => "" end)
              (trace (snd (waitProbe s runID st w))))).
Proof.
  intros Hread Hterm.
  rewrite (waitProbe_status s runID st w run Hread). cbv zeta.
  unfold isTerminalStatus in Hterm. apply isTerminalStatus_loop_In in Hterm.
  cbn [terminalStatuses In] in Hterm.
  destruct Hterm as [H | [H | [H | [H | [H | [H | []]]]]]]; rewrite <- H.
  - right. cbn. intuition.
  - right. cbn. intuition.
  - left. cbn. split; [intuition | eexists; reflexivity].
  - left. cbn. split; [intuition | eexists; reflexivity].
  - left. cbn. split; [intuition | eexists; reflexivity].
  - left. cbn. split; [intuition | eexists; reflexivity].
Qed.

Lemma terminal_statuses_in_wait_witness :
  fst (waitProbe client_applied_already "run-abc123" None world0)
  = (RRetryable "unexpected status: applied", None).
Proof.
  destruct (terminal_statuses_in_wait client_applied_already "run-abc123" None world0
              (tfe.Run.Build "run-abc123" tfe.RunApplied None None) eq_refl eq_refl)
    as [[Hin _] | (_ & H & _)].
  - cbn in Hin. repeat (destruct Hin as [Hin | Hin]; [discriminate|]). destruct Hin.
  - exact H.
Defined.

(** *** The wait as a whole *)

Lemma waitProbe_undecided
    {G : Type} (s : Client G) (runID : string) (st : option tfe.Run.t)
    (w : World G) (run : tfe.Run.t) (ctx : Context) :
  reply (Runs_Read s runID (gateway w)) = Ok run ->
  decisive (tfe.Run.Status run) = false ->
  exists (msg : string) (w1 : World G),
    waitProbe s runID st w = (RRetryable msg, st, w1) /\ undecided_report ctx msg.
Proof.
  intros Hread Hdec.
  rewrite (waitProbe_status s runID st w run Hread). cbv zeta.
  unfold decisive in Hdec.
  repeat (apply orb_false_iff in Hdec; destruct Hdec as [Hdec ?]).
  repeat match goal with H : String.eqb _ _ = false |- _ => rewrite H; clear H end.
  cbn [orb].
  destruct (String.eqb (tfe.Run.Status run) tfe.RunPostPlanAwaitingDecision).
  - eexists. eexists. split; [reflexivity | right; right; now left].
  - eexists. eexists.
    split; [reflexivity | right; right; right; eexists; reflexivity].
Qed.

(** The error of a context is one of the reports. *)
Lemma ctx_Err_report (done : Z) (cause : Cause) :
  exists msg : string,
    ctx_Err (Some (done, cause)) = Some msg
    /\ undecided_report (Some (done, cause)) msg.
Proof.
  destruct cause; eexists; (split; [reflexivity |]).
  - left. split; [reflexivity | eexists; reflexivity].
  - right. now left.
Qed.

(** The timeout of the options adds a deadline, never a cancellation. *)
Lemma undecided_report_timeout (ctx : Context) (t timeout : Z) (msg : string) :
  undecided_report (if 0 <? timeout then WithTimeout ctx t timeout else ctx) msg ->
  undecided_report ctx msg.
Proof.
  destruct (0 <? timeout); [| exact (fun H => H)].
  intros [[Hmsg [t' Hctx]] | H]; [| right; exact H].
  left. split; [exact Hmsg |].
  destruct ctx as [[done cause]|]; cbn [WithTimeout] in Hctx; [| discriminate].
  destruct (done <=? t + timeout); [| discriminate].
  injection Hctx as -> ->. eexists. reflexivity.
Qed.

Section Undecided.

Context {G : Type}.
Variable s : Client G.
Variable runID : string.
Hypothesis never_decided :
  forall g : G, exists run : tfe.Run.t,
    reply (Runs_Read s runID g) = Ok run /\ decisive (tfe.Run.Status run) = false.

(** While no decisive status is seen, the loop can only give up. *)
Lemma Do_undecided :
  forall (fuel : nat) (ctx : Context) (b : Backoff)
         (st : option tfe.Run.t) (w : World G)
         (res : DoResult) (st' : option tfe.Run.t) (w' : World G),
    Do fuel ctx b (waitProbe s runID) st w = (res, st', w') ->
    res = OutOfFuel
    \/ exists msg : string, res = Returned (Some msg) /\ undecided_report ctx msg.
Proof.
  induction fuel as [|fuel IH]; intros ctx b st w res st' w' HDo.
  - cbn in HDo. injection HDo as <- _ _. now left.
  - destruct (ctx_done ctx (now w)) eqn:Hctx.
    { cbn [Do] in HDo. unfold bind at 1, time_Now in HDo. rewrite Hctx in HDo.
      injection HDo as <- _ _. right.
      destruct ctx as [[done cause]|]; [| discriminate].
      destruct (ctx_Err_report done cause) as (m & Hm & Hrep).
      exists m. split; [exact (f_equal Returned Hm) | exact Hrep]. }
    rewrite (Do_step s fuel ctx b runID st w Hctx) in HDo.
    destruct (never_decided (gateway w)) as (run & Hread & Hdec).
    destruct (waitProbe_undecided s runID st w run ctx Hread Hdec)
      as (msg & w1 & Hprobe & Hmsg).
    rewrite Hprobe in HDo.
    destruct (Next b (now w1)) as [[next stop] b'].
    destruct stop.
    { injection HDo as <- _ _. right. eexists. split; [reflexivity | exact Hmsg]. }
    destruct (ctx_done ctx (now w1)) eqn:Hctx1.
    { injection HDo as <- _ _. right.
      destruct ctx as [[done cause]|]; [| discriminate].
      destruct (ctx_Err_report done cause) as (m & Hm & Hrep).
      exists m. split; [exact (f_equal Returned Hm) | exact Hrep]. }
    destruct ctx as [[deadline cause]|].
    + destruct (deadline <=? now w1 + next).
      * injection HDo as <- _ _. right.
        destruct (ctx_Err_report deadline cause) as (m & Hm & Hrep).
        exists m. split; [exact (f_equal Returned Hm) | exact Hrep].
      * eapply IH. exact HDo.
    + eapply IH. exact HDo.
Qed.

End Undecided.

(** X22: when the run never shows a decisive status (policy_override,
    post_plan_completed, discarded, canceled, force_canceled, errored), the
    wait ends, within 181 iterations, with an error and never with a
    record.  The error is the error of the context, "context canceled" when
    the caller has cancelled it and "context deadline exceeded" when a
    deadline has passed, or the last retryable error of the probe ("still
    awaiting decision", or "unexpected status: <status>" for a status the
    switch does not know, such as apply_queued or applied).  The
    cancellation is reported for a context that its caller cancels only. *)
Theorem WaitForPolicyDecision_never_decided
    {G : Type} (s : Client G) (fuel : nat) (ctx : Context)
    (options : WaitForPolicyOptions.t) (w : World G) :
  (forall g : G, exists run : tfe.Run.t,
      reply (Runs_Read s (WaitForPolicyOptions.RunID options) g) = Ok run
      /\ decisive (tfe.Run.Status run) = false) ->
  (181 <= fuel)%nat ->
  exists msg : string,
    fst (WaitForPolicyDecision s fuel ctx options w) = WaitReturned (Failed msg)
    /\ undecided_report ctx msg.
Proof.
  intros Hnever H181.
  unfold WaitForPolicyDecision, bind, time_Now.
  set (ctx' := if 0 <? WaitForPolicyOptions.Timeout options
               then WithTimeout ctx (now w) (WaitForPolicyOptions.Timeout options)
               else ctx).
  destruct (Do fuel ctx' (policyWaitBackoffStrategy (now w))
              (waitProbe s (WaitForPolicyOptions.RunID options)) None w)
    as [[res finalRun] w'] eqn:HDo.
  assert (Hbase : 0 < PolicyWaitInitialBackoff) by (vm_compute; reflexivity).
  assert (Hcap : 0 < PolicyWaitMaxBackoff) by (vm_compute; reflexivity).
  destruct (Do_waitProbe_bounds s (WaitForPolicyOptions.RunID options)
              PolicyWaitInitialBackoff PolicyWaitMaxBackoff PolicyWaitMaxDuration
              (now w) Hbase Hcap fuel ctx' _ None w res finalRun w'
              (policyWaitBackoffStrategy_ok (now w))
              ltac:(unfold PolicyWaitMaxDuration, Minute, Second; lia) HDo)
    as (_ & _ & _ & _ & Hfuel).
  assert (Hres : res <> OutOfFuel).
  { apply Hfuel; [| lia].
    unfold PolicyWaitMaxDuration, PolicyWaitInitialBackoff, PolicyWaitMaxBackoff,
      Minute, Second. lia. }
  destruct (Do_undecided s _ Hnever _ _ _ _ _ _ _ _ HDo) as [-> | (msg & -> & Hmsg)];
    [congruence|].
  exists msg. split; [reflexivity |].
  exact (undecided_report_timeout ctx (now w) _ msg Hmsg).
Qed.

Lemma WaitForPolicyDecision_never_decided_witness :
  (exists msg : string,
      fst (WaitForPolicyDecision client_applied_already 181 None options_wait world0)
      = WaitReturned (Failed msg)
      /\ undecided_report None msg)
  /\ (exists msg : string,
         fst (WaitForPolicyDecision client_never_decided 181
                (Some (45 * Second, ByCancel)) options_wait world0)
         = WaitReturned (Failed msg)
         /\ undecided_report (Some (45 * Second, ByCancel)) msg).
Proof.
  split.
  - apply (WaitForPolicyDecision_never_decided client_applied_already 181 None
             options_wait world0).
    + intros g. eexists. split; [reflexivity | destruct g; reflexivity].
    + apply Nat.le_refl.
  - apply (WaitForPolicyDecision_never_decided client_never_decided 181
             (Some (45 * Second, ByCancel)) options_wait world0).
    + intros g. eexists. split; [reflexivity | destruct g; reflexivity].
    + apply Nat.le_refl.
Defined.

(** The wait of a caller that cancels after forty-five seconds: the third
    sleep is cut short and the cancellation is reported. *)
Example wait_cancelled_by_caller :
  let result :=
    WaitForPolicyDecision client_never_decided 181
      (Some (45 * Second, ByCancel)) options_wait world0 in
  fst result = WaitReturned (Failed "context canceled")
  /\ now (snd result) = 45 * Second
  /\ reads_of (trace (snd result)) = 3%nat.
Proof. vm_compute. repeat split. Qed.

Lemma sleeps_of_app (l1 l2 : list Event) :
  (sleeps_of (l1 ++ l2) = sleeps_of l1 + sleeps_of l2)%nat.
Proof.
  induction l1 as [|e l1 IH]; [reflexivity|].
  destruct e; cbn [app sleeps_of]; lia.
Qed.

Lemma logs_have_no_calls (logs : list Event) :
  Forall (fun e => exists m, e = EvLog m) logs ->
  calls_of logs = [] /\ sleeps_of logs = 0%nat.
Proof.
  induction 1 as [|e l [m ->] _ IH]; [split; reflexivity | exact IH].
Qed.

(** The loop reads and sleeps in turn, and does nothing else on the
    gateway. *)
Lemma Do_reads_and_sleeps
    {G : Type} (s : Client G) (runID : string) :
  forall (fuel : nat) (ctx : Context) (b : Backoff)
         (st : option tfe.Run.t) (w : World G)
         (res : DoResult) (st' : option tfe.Run.t) (w' : World G),
    Do fuel ctx b (waitProbe s runID) st w = (res, st', w') ->
    exists new : list Event,
      trace w' = new ++ trace w
      /\ Forall (fun c => c = CallRunsRead runID) (calls_of new)
      /\ (sleeps_of new <= reads_of new <= sleeps_of new + 1)%nat.
Proof.
  induction fuel as [|fuel IH]; intros ctx b st w res st' w' HDo.
  - cbn in HDo. injection HDo as _ _ <-. exists []. repeat split; [constructor | cbn; lia..].
  - destruct (ctx_done ctx (now w)) eqn:Hctx.
    { cbn [Do] in HDo. unfold bind at 1, time_Now in HDo. rewrite Hctx in HDo.
      injection HDo as _ _ <-. exists []. repeat split; [constructor | cbn; lia..]. }
    rewrite (Do_step s fuel ctx b runID st w Hctx) in HDo.
    destruct (waitProbe_world s runID st w) as (logs & Htr & Hlogs & _).
    destruct (logs_have_no_calls logs Hlogs) as [Hlc Hls].
    pose proof (reads_of_logs logs Hlogs) as Hlr.
    destruct (waitProbe s runID st w) as [[err st1] w1]. cbn [snd] in Htr.
    set (read := EvCall (now w) (CallRunsRead runID)
                   (took (Runs_Read s runID (gateway w)))) in *.
    assert (Hw1 : trace w1 = (logs ++ [read]) ++ trace w
                  /\ Forall (fun c => c = CallRunsRead runID) (calls_of (logs ++ [read]))
                  /\ reads_of (logs ++ [read]) = 1%nat
                  /\ sleeps_of (logs ++ [read]) = 0%nat).
    { rewrite <- app_assoc, calls_of_app, reads_of_app, sleeps_of_app, Hlc, Hlr, Hls.
      cbn. repeat split; [exact Htr | repeat constructor]. }
    destruct Hw1 as (Hw1 & Hc1 & Hr1 & Hs1).
    assert (Hret : forall r, (r, st1, w1) = (res, st', w') ->
               exists new : list Event,
                 trace w' = new ++ trace w
                 /\ Forall (fun c => c = CallRunsRead runID) (calls_of new)
                 /\ (sleeps_of new <= reads_of new <= sleeps_of new + 1)%nat).
    { intros r E. injection E as _ _ <-. exists (logs ++ [read]).
      split; [exact Hw1 | split; [exact Hc1 | lia]]. }
    destruct err as [| msg | msg]; try (eapply Hret; exact HDo).
    destruct (Next b (now w1)) as [[next stop] b'].
    destruct stop; [eapply Hret; exact HDo|].
    destruct (ctx_done ctx (now w1)); [eapply Hret; exact HDo|].
    assert (Hrec : Do fuel ctx b' (waitProbe s runID) st1 (snd (sleep next w1))
                   = (res, st', w') ->
               exists new : list Event,
                 trace w' = new ++ trace w
                 /\ Forall (fun c => c = CallRunsRead runID) (calls_of new)
                 /\ (sleeps_of new <= reads_of new <= sleeps_of new + 1)%nat).
    { intros H. apply IH in H. destruct H as (new2 & Htr2 & Hc2 & Hn2).
      cbn [sleep snd trace] in Htr2.
      exists (new2 ++ EvSleep (now w1) next :: logs ++ [read]).
      split; [| split].
      - rewrite Htr2, Hw1.
        rewrite <- (app_assoc new2 (EvSleep (now w1) next :: logs ++ [read]) (trace w)).
        reflexivity.
      - rewrite calls_of_app. cbn [calls_of]. apply Forall_app. split; assumption.
      - rewrite reads_of_app, sleeps_of_app. cbn [reads_of sleeps_of]. lia. }
    destruct ctx as [[deadline cause]|].
    + destruct (deadline <=? now w1 + next).
      * injection HDo as _ _ <-. cbn [sleep snd].
        exists (EvSleep (now w1) (deadline - now w1) :: logs ++ [read]).
        cbn [trace]. split; [now rewrite Hw1 | split].
        -- cbn [calls_of]. exact Hc1.
        -- cbn [reads_of sleeps_of]. lia.
      * apply Hrec. exact HDo.
    + apply Hrec. exact HDo.
Qed.

(** X23: the wait changes nothing on the gateway: every call it issues is a
    read of the run of its options, and it reads and sleeps in turn,
    starting with a read, so that it has slept as often as it has read, or
    once less. *)
Theorem WaitForPolicyDecision_only_reads
    {G : Type} (s : Client G) (fuel : nat) (ctx : Context)
    (options : WaitForPolicyOptions.t) (w : World G) :
  exists new : list Event,
    added w (snd (WaitForPolicyDecision s fuel ctx options w)) new
    /\ Forall (fun c => c = CallRunsRead (WaitForPolicyOptions.RunID options))
         (calls_of new)
    /\ no_mutating_call new
    /\ (sleeps_of new <= reads_of new <= sleeps_of new + 1)%nat.
Proof.
  remember (WaitForPolicyDecision s fuel ctx options w) as result eqn:HR.
  unfold WaitForPolicyDecision, bind, time_Now in HR.
  match type of HR with
  | context [Do fuel ?c ?b ?f None w] =>
      destruct (Do fuel c b f None w) as [[res finalRun] w'] eqn:HDo
  end.
  destruct (Do_reads_and_sleeps s _ _ _ _ _ _ _ _ _ HDo) as (new & Htr & Hc & Hn).
  assert (Hw : snd result = w').
  { subst result. destruct res as [|[err|]]; [reflexivity | reflexivity |].
    destruct finalRun; reflexivity. }
  exists new. rewrite Hw. split; [exact Htr | split; [exact Hc | split; [| exact Hn]]].
  unfold no_mutating_call. eapply Forall_impl; [| exact Hc].
  intros c ->. reflexivity.
Qed.

(** The loop under a context that is done at the instant [d], whatever
    closes it and whatever the schedule. *)
Lemma Do_within_deadline
    {G : Type} (s : Client G) (runID : string) (d : Z) (cause : Cause) :
  forall (fuel : nat) (b : Backoff) (st : option tfe.Run.t) (w : World G)
         (res : DoResult) (st' : option tfe.Run.t) (w' : World G),
    Do fuel (Some (d, cause)) b (waitProbe s runID) st w = (res, st', w') ->
    exists new : list Event,
      trace w' = new ++ trace w
      /\ Forall (event_within d) new
      /\ (now w' = now w
          \/ now w' <= d
          \/ exists issued c took,
               In (EvCall issued c took) new
               /\ issued < d
               /\ now w' = issued + Z.of_N took).
Proof.
  induction fuel as [|fuel IH]; intros b st w res st' w' HDo.
  - cbn in HDo. injection HDo as _ _ <-.
    exists []. split; [reflexivity | split; [constructor | now left]].
  - destruct (ctx_done (Some (d, cause)) (now w)) eqn:Hctx.
    { cbn [Do] in HDo. unfold bind at 1, time_Now in HDo. rewrite Hctx in HDo.
      injection HDo as _ _ <-.
      exists []. split; [reflexivity | split; [constructor | now left]]. }
    rewrite (Do_step s fuel (Some (d, cause)) b runID st w Hctx) in HDo.
    cbn [ctx_done] in Hctx. apply Z.leb_gt in Hctx.
    destruct (waitProbe_world s runID st w) as (logs & Htr & Hlogs & Hclock & _).
    destruct (waitProbe s runID st w) as [[err st1] w1]. cbn [snd] in Htr, Hclock.
    set (read := EvCall (now w) (CallRunsRead runID)
                   (took (Runs_Read s runID (gateway w)))) in *.
    assert (Hin : Forall (event_within d) (logs ++ [read])).
    { apply Forall_app. split.
      - eapply Forall_impl; [| exact Hlogs]. intros e [m ->]. exact I.
      - repeat constructor. exact Hctx. }
    assert (Hret : forall r, (r, st1, w1) = (res, st', w') ->
               exists new : list Event,
                 trace w' = new ++ trace w
                 /\ Forall (event_within d) new
                 /\ (now w' = now w
                     \/ now w' <= d
                     \/ exists issued c took,
                          In (EvCall issued c took) new
                          /\ issued < d
                          /\ now w' = issued + Z.of_N took)).
    { intros r E. injection E as _ _ <-. exists (logs ++ [read]).
      split; [now rewrite <- app_assoc | split; [exact Hin |]].
      right; right. exists (now w), (CallRunsRead runID),
        (took (Runs_Read s runID (gateway w))).
      split; [apply in_or_app; right; now left | split; [exact Hctx | exact Hclock]]. }
    destruct err as [| msg | msg]; try (eapply Hret; exact HDo).
    destruct (Next b (now w1)) as [[next stop] b'].
    destruct stop; [eapply Hret; exact HDo|].
    destruct (ctx_done (Some (d, cause)) (now w1)) eqn:Hctx1; [eapply Hret; exact HDo|].
    cbn [ctx_done] in Hctx1. apply Z.leb_gt in Hctx1.
    destruct (Z.leb_spec d (now w1 + next)) as [Hdl | Hdl].
    + injection HDo as _ _ <-. cbn [sleep snd].
      exists (EvSleep (now w1) (d - now w1) :: logs ++ [read]).
      cbn [trace now]. split; [| split].
      * rewrite Htr. cbn [app]. now rewrite <- app_assoc.
      * constructor; [cbn; lia | exact Hin].
      * right; left. lia.
    + apply IH in HDo. destruct HDo as (new2 & Htr2 & Hev2 & Hend2).
      cbn [sleep snd trace now] in Htr2, Hend2.
      exists (new2 ++ EvSleep (now w1) next :: logs ++ [read]).
      split; [| split].
      * rewrite Htr2, Htr.
        rewrite <- (app_assoc new2 (EvSleep (now w1) next :: logs ++ [read]) (trace w)).
        cbn [app]. now rewrite <- app_assoc.
      * apply Forall_app. split; [exact Hev2|].
        constructor; [cbn; lia | exact Hin].
      * destruct Hend2 as [Heq | [Hle | (i & c & tk & Hi & Hlt & Hn)]].
        -- right; left. lia.
        -- right; left. exact Hle.
        -- right; right. exists i, c, tk.
           split; [apply in_or_app; now left | auto].
Qed.

Lemma event_within_le (d d' : Z) (e : Event) :
  d <= d' -> event_within d e -> event_within d' e.
Proof. intros Hle. destruct e; cbn; lia. Qed.

(** X24: the timeout of the options bounds the wait on its own.  With a
    positive timeout, whatever the context and the schedule, every read is
    issued before the instant of the call plus the timeout and every sleep
    ends by then; the wait ends by then, or at the instant at which a read
    issued before then comes back. *)
Theorem WaitForPolicyDecision_timeout
    {G : Type} (s : Client G) (fuel : nat) (ctx : Context)
    (options : WaitForPolicyOptions.t) (w : World G) :
  0 < WaitForPolicyOptions.Timeout options ->
  let deadline := now w + WaitForPolicyOptions.Timeout options in
  let w' := snd (WaitForPolicyDecision s fuel ctx options w) in
  exists new : list Event,
    added w w' new
    /\ Forall (event_within deadline) new
    /\ (now w' <= deadline
        \/ exists issued c took,
             In (EvCall issued c took) new
             /\ issued < deadline
             /\ now w' = issued + Z.of_N took).
Proof.
  intros Hpos deadline w'. subst w'.
  remember (WaitForPolicyDecision s fuel ctx options w) as result eqn:HR.
  unfold WaitForPolicyDecision, bind, time_Now in HR.
  apply Z.ltb_lt in Hpos. rewrite Hpos in HR. apply Z.ltb_lt in Hpos.
  assert (Hctx : exists (d : Z) (cause : Cause),
             WithTimeout ctx (now w) (WaitForPolicyOptions.Timeout options)
             = Some (d, cause)
             /\ d <= deadline).
  { subst deadline. destruct ctx as [[done cause]|]; cbn [WithTimeout].
    - destruct (Z.leb_spec done (now w + WaitForPolicyOptions.Timeout options));
        eexists; eexists; (split; [reflexivity | lia]).
    - eexists. eexists. split; [reflexivity | lia]. }
  destruct Hctx as (d & cause & Hctx & Hd).
  rewrite Hctx in HR.
  match type of HR with
  | context [Do fuel ?c ?b ?f None w] =>
      destruct (Do fuel c b f None w) as [[res finalRun] w1] eqn:HDo
  end.
  destruct (Do_within_deadline s _ d cause _ _ _ _ _ _ _ HDo)
    as (new & Htr & Hev & Hend).
  assert (Hw : snd result = w1).
  { subst result. destruct res as [|[err|]]; [reflexivity | reflexivity |].
    destruct finalRun; reflexivity. }
  exists new. rewrite Hw. split; [exact Htr | split].
  - eapply Forall_impl; [| exact Hev]. intros e. now apply event_within_le.
  - destruct Hend as [Heq | [Hle | (i & c & tk & Hi & Hlt & Hn)]].
    + left. subst deadline. lia.
    + left. lia.
    + right. exists i, c, tk. split; [exact Hi | split; [lia | exact Hn]].
Qed.

Lemma WaitForPolicyDecision_timeout_witness :
  exists new : list Event,
    added world0
      (snd (WaitForPolicyDecision client_never_decided 181 None options_wait_5min
              world0)) new
    /\ Forall (event_within (5 * Minute)) new
    /\ (now (snd (WaitForPolicyDecision client_never_decided 181 None
                    options_wait_5min world0)) <= 5 * Minute
        \/ exists issued c took,
             In (EvCall issued c took) new
             /\ issued < 5 * Minute
             /\ now (snd (WaitForPolicyDecision client_never_decided 181 None
                            options_wait_5min world0))
                = issued + Z.of_N took).
Proof.
  apply (WaitForPolicyDecision_timeout client_never_decided 181 None
           options_wait_5min world0).
  reflexivity.
Defined.

(** With a timeout of five minutes a run that never leaves
    post_plan_awaiting_decision is given up at the deadline of the
    context. *)
Example wait_with_timeout :
  let result :=
    WaitForPolicyDecision client_never_decided 181 None options_wait_5min world0 in
  fst result = WaitReturned (Failed DeadlineExceeded)
  /\ now (snd result) = 5 * Minute.
Proof. vm_compute. repeat split. Qed.

(** *** Terminal statuses and retries of the wait *)

(** The timeout of the options ends the context at the instant of the call
    plus the timeout, if the context is not done before. *)
Lemma ctx_done_timeout_at (ctx : Context) (t timeout h : Z) :
  ctx_done ctx h = false ->
  (0 < timeout -> h < t + timeout) ->
  ctx_done (if 0 <? timeout then WithTimeout ctx t timeout else ctx) h = false.
Proof.
  intros Hctx Hh.
  destruct (Z.ltb_spec 0 timeout) as [Hpos|]; [| exact Hctx].
  specialize (Hh Hpos).
  destruct ctx as [[done cause]|]; cbn [WithTimeout ctx_done] in *.
  - destruct (Z.leb_spec done (t + timeout)); cbn [ctx_done];
      [exact Hctx | apply Z.leb_gt; lia].
  - apply Z.leb_gt. lia.
Qed.

(** One more read, counted from the other end. *)
Lemma after_reads_S {G : Type} (s : Client G) (runID : string) (n : nat) (g : G) :
  after_reads s runID (S n) g
  = gateway_after (Runs_Read s runID (after_reads s runID n g)).
Proof.
  revert g. induction n as [|n IH]; intros g; [reflexivity |].
  cbn [after_reads] in *. apply IH.
Qed.

Lemma ctx_not_done_before (ctx : Context) (t t' : Z) :
  t <= t' -> ctx_done ctx t' = false -> ctx_done ctx t = false.
Proof.
  intros Hle H. destruct (ctx_done ctx t) eqn:E; [| reflexivity].
  rewrite (ctx_done_mono ctx t t' Hle E) in H. discriminate.
Qed.

Section Awaiting.

Context {G : Type}.
Variable s : Client G.
Variable runID : string.
Variables base cap timeout start latency : Z.
Variable ctx : Context.
Hypothesis Hbase : 0 < base.
Hypothesis Hcap : 0 < cap.

(** While the run is observed awaiting a decision and neither the schedule
    nor the context is out of time, the loop reads, sleeps and goes on. *)
Lemma Do_awaiting :
  forall (k fuel : nat) (b : Backoff) (st : option tfe.Run.t) (w : World G),
    strategy_ok base cap timeout start b ->
    awaiting_for s runID k latency (gateway w) ->
    now w + Z.of_nat k * (latency + cap) < start + timeout ->
    ctx_done ctx (now w + Z.of_nat k * (latency + cap)) = false ->
    exists (b' : Backoff) (wk : World G) (newk : list Event),
      strategy_ok base cap timeout start b'
      /\ Do (k + fuel) ctx b (waitProbe s runID) st w
         = Do fuel ctx b' (waitProbe s runID) st wk
      /\ gateway wk = after_reads s runID k (gateway w)
      /\ trace wk = newk ++ trace w
      /\ reads_of newk = k
      /\ sleeps_of newk = k
      /\ now w <= now wk <= now w + Z.of_nat k * (latency + cap).
Proof.
  induction k as [|k IH]; intros fuel b st w Hok Hawait Htime Hctx.
  - exists b, w, []. cbn. repeat split; try assumption; try reflexivity; lia.
  - destruct (Hawait 0%nat ltac:(lia)) as [(run & Hread & Hstatus) Hlat].
    unfold nth_read in Hread, Hlat. cbn [after_reads] in Hread, Hlat.
    pose proof (N2Z.is_nonneg (took (Runs_Read s runID (gateway w)))) as Htook.
    rewrite Nat2Z.inj_succ in Htime, Hctx.
    replace (Z.succ (Z.of_nat k) * (latency + cap))
      with (Z.of_nat k * (latency + cap) + (latency + cap)) in Htime, Hctx by ring.
    assert (Hk : 0 <= Z.of_nat k * (latency + cap)) by nia.
    set (K := Z.of_nat k * (latency + cap)) in *.
    assert (Hnow : ctx_done ctx (now w) = false)
      by (apply (ctx_not_done_before ctx (now w) (now w + (K + (latency + cap))));
          [lia | exact Hctx]).
    cbn [Nat.add]. rewrite (Do_step s (k + fuel) ctx b runID st w Hnow).
    rewrite (waitProbe_status s runID st w run Hread). cbv zeta.
    rewrite Hstatus.
    cbv beta iota delta
      [String.eqb Ascii.eqb Bool.eqb orb tfe.RunPostPlanAwaitingDecision
         tfe.RunPolicyOverride tfe.RunPostPlanCompleted tfe.RunDiscarded
         tfe.RunCanceled tfe.RunForceCanceled tfe.RunErrored].
    set (w1 := after_probe s runID run w).
    assert (Hw1 : now w1 = now w + Z.of_N (took (Runs_Read s runID (gateway w))))
      by reflexivity.
    assert (Hg1 : gateway w1 = gateway_after (Runs_Read s runID (gateway w)))
      by reflexivity.
    assert (Htr1 : trace w1
                   = [ EvLog ("[DEBUG] Waiting for policy decision, current status: "
                              ++ tfe.Run.Status run)%string;
                       EvCall (now w) (CallRunsRead runID)
                         (took (Runs_Read s runID (gateway w))) ] ++ trace w)
      by reflexivity.
    destruct (Next_strategy base cap timeout start (now w1) b Hbase Hcap Hok)
      as (val & stop & b1 & HN & Hok1 & Hstop & Hgo).
    rewrite HN.
    destruct stop.
    { exfalso. destruct Hstop as [Hstop _]. specialize (Hstop eq_refl). lia. }
    destruct (Hgo eq_refl) as (Hval & _ & _).
    rewrite (ctx_not_done_before ctx (now w1) (now w + (K + (latency + cap))))
      by (try exact Hctx; lia).
    set (w2 := snd (sleep val w1)).
    assert (Hgo2 :
      match ctx with
      | Some (done, _) =>
          if done <=? now w1 + val
          then (Returned (ctx_Err ctx), st, snd (sleep (done - now w1) w1))
          else Do (k + fuel) ctx b1 (waitProbe s runID) st w2
      | None => Do (k + fuel) ctx b1 (waitProbe s runID) st w2
      end = Do (k + fuel) ctx b1 (waitProbe s runID) st w2).
    { destruct ctx as [[done cause]|]; [| reflexivity].
      cbn [ctx_done] in Hctx. apply Z.leb_gt in Hctx.
      destruct (Z.leb_spec done (now w1 + val)); [lia | reflexivity]. }
    rewrite Hgo2.
    destruct (IH fuel b1 st w2 Hok1) as (b' & wk & newk & Hok' & HDo & Hg & Htr & Hr & Hs & Hn).
    + intros i Hi. destruct (Hawait (S i) ltac:(lia)) as [Hrun Hl].
      unfold nth_read in *. cbn [after_reads] in Hrun, Hl.
      subst w2. cbn [sleep snd gateway]. rewrite Hg1. split; assumption.
    + subst w2. cbn [sleep snd now]. fold K. lia.
    + subst w2. cbn [sleep snd now]. fold K.
      apply (ctx_not_done_before ctx _ (now w + (K + (latency + cap))));
        [lia | exact Hctx].
    + exists b', wk, (newk ++ EvSleep (now w1) val
                            :: [ EvLog ("[DEBUG] Waiting for policy decision, current status: "
                                        ++ tfe.Run.Status run)%string;
                                 EvCall (now w) (CallRunsRead runID)
                                   (took (Runs_Read s runID (gateway w))) ]).
      split; [exact Hok' | split; [exact HDo | split; [| split; [| split; [| split]]]]].
      * rewrite Hg. subst w2. cbn [sleep snd gateway after_reads]. now rewrite Hg1.
      * rewrite Htr. subst w2. cbn [sleep snd trace]. rewrite Htr1.
        rewrite <- app_assoc. reflexivity.
      * rewrite reads_of_app, Hr. cbn [reads_of]. lia.
      * rewrite sleeps_of_app, Hs. cbn [sleeps_of]. lia.
      * subst w2. cbn [sleep snd now] in Hn. fold K in Hn.
        rewrite Nat2Z.inj_succ.
        replace (Z.succ (Z.of_nat k) * (latency + cap))
          with (K + (latency + cap)) by (subst K; ring).
        lia.
Qed.

End Awaiting.

(** C6: during the wait, a run that is observed as discarded, canceled (or
    force-canceled) or errored, at the first read or after any number [k] of
    reads that observed it in post_plan_awaiting_decision, ends
    [WaitForPolicyDecision] at once: the wait returns an error of its own
    ("run was discarded", "run was canceled", "run entered error state")
    right after that read and its log line, with no further sleep and no
    further read, so that it has read the run [k + 1] times and slept [k]
    times.  These errors differ from every report of a timeout: the errors
    of the context and the retryable errors handed back when the schedule
    stops.  Each observation of post_plan_awaiting_decision is followed by
    a sleep and another read: after [k] of them the wait has read the run
    at least [k + 1] times, whatever the last read observes.  The wait must
    have the time for it: the instant [horizon], by which the read number
    [k + 1] is issued, lies before the total duration of the schedule,
    before the timeout of the options and before the end of the context. *)
Theorem wait_terminal_and_retry
    {G : Type} (s : Client G) (fuel : nat) (ctx : Context)
    (options : WaitForPolicyOptions.t) (w : World G)
    (k : nat) (latency : Z) (run : tfe.Run.t) :
  let runID := WaitForPolicyOptions.RunID options in
  let horizon := now w + Z.of_nat k * (latency + PolicyWaitMaxBackoff) in
  let result := WaitForPolicyDecision s fuel ctx options w in
  awaiting_for s runID k latency (gateway w) ->
  reply (nth_read s runID k (gateway w)) = Ok run ->
  horizon < now w + PolicyWaitMaxDuration ->
  (0 < WaitForPolicyOptions.Timeout options ->
   horizon < now w + WaitForPolicyOptions.Timeout options) ->
  ctx_done ctx horizon = false ->
  (k < fuel)%nat ->
  (exists new : list Event,
      trace (snd result) = new ++ trace w
      /\ (k + 1 <= reads_of new)%nat
      /\ (k <= sleeps_of new)%nat)
  /\ (forall msg : string,
         (tfe.Run.Status run = tfe.RunDiscarded /\ msg = "run was discarded")
         \/ ((tfe.Run.Status run = tfe.RunCanceled
              \/ tfe.Run.Status run = tfe.RunForceCanceled)
             /\ msg = "run was canceled")
         \/ (tfe.Run.Status run = tfe.RunErrored /\ msg = "run entered error state") ->
         fst result = WaitReturned (Failed msg)
         /\ (exists (issued : Z) (took : N) (before : list Event),
                trace (snd result)
                = EvLog ("[DEBUG] Waiting for policy decision, current status: "
                         ++ tfe.Run.Status run)%string
                    :: EvCall issued (CallRunsRead runID) took
                    :: before ++ trace w
                /\ reads_of before = k
                /\ sleeps_of before = k
                /\ now (snd result) = issued + Z.of_N took)
         /\ gateway (snd result) = after_reads s runID (S k) (gateway w)
         /\ msg <> DeadlineExceeded
         /\ msg <> Canceled
         /\ msg <> "still awaiting decision"
         /\ forall status : string, msg <> ("unexpected status: " ++ status)%string).
Proof.
  intros runID horizon result Hawait Hread Htime Hopt Hctx Hfuel.
  assert (Hbase : 0 < PolicyWaitInitialBackoff) by (vm_compute; reflexivity).
  assert (Hcap : 0 < PolicyWaitMaxBackoff) by (vm_compute; reflexivity).
  set (ctx' := if 0 <? WaitForPolicyOptions.Timeout options
               then WithTimeout ctx (now w) (WaitForPolicyOptions.Timeout options)
               else ctx).
  assert (Hctx' : ctx_done ctx' horizon = false)
    by (apply ctx_done_timeout_at; assumption).
  destruct fuel as [|fuel]; [lia|].
  assert (Hsplit : S fuel = (k + S (fuel - k))%nat) by lia.
  destruct (Do_awaiting s runID PolicyWaitInitialBackoff PolicyWaitMaxBackoff
              PolicyWaitMaxDuration (now w) latency ctx' Hbase Hcap
              k (S (fuel - k)) (policyWaitBackoffStrategy (now w)) None w
              (policyWaitBackoffStrategy_ok (now w)) Hawait Htime Hctx')
    as (b' & wk & newk & Hok' & HDo & Hg & Htr & Hr & Hs & Hn).
  rewrite <- Hsplit in HDo.
  assert (Hnow : ctx_done ctx' (now wk) = false).
  { apply (ctx_not_done_before ctx' _ horizon); [subst horizon; lia | exact Hctx']. }
  assert (HW : result
               = let '(res, finalRun, w') :=
                   Do (S (fuel - k)) ctx' b' (waitProbe s runID) None wk in
                 match res with
                 | OutOfFuel => (WaitOutOfFuel, w')
                 | Returned (Some err) => (WaitReturned (Failed err), w')
                 | Returned None =>
                     match finalRun with
                     | None => (WaitPanic, w')
                     | Some run =>
                         (WaitReturned
                            (Ok (PolicyOverride.Build (tfe.Run.ID run) "" "" ""
                                   tfe.RunPostPlanAwaitingDecision
                                   (tfe.Run.Status run) true 0)), w')
                     end
                 end).
  { subst result. unfold WaitForPolicyDecision, bind at 1, time_Now.
    unfold bind at 1. fold ctx'. fold runID. rewrite HDo.
    destruct (Do (S (fuel - k)) ctx' b' (waitProbe s runID) None wk)
      as [[res finalRun] w'].
    destruct res as [|[err|]]; [reflexivity | reflexivity |].
    destruct finalRun; reflexivity. }
  assert (Hread' : reply (Runs_Read s runID (gateway wk)) = Ok run).
  { rewrite Hg. exact Hread. }
  split.
  - destruct (Do (S (fuel - k)) ctx' b' (waitProbe s runID) None wk)
      as [[res finalRun] w'] eqn:HDo2.
    assert (Hw' : snd result = w').
    { rewrite HW. destruct res as [|[err|]]; [reflexivity | reflexivity |].
      destruct finalRun; reflexivity. }
    destruct (Do_reads_and_sleeps s runID _ _ _ _ _ _ _ _ HDo2) as (new2 & Htr2 & _ & _).
    destruct (Do_reads s runID _ _ _ _ _ _ _ _ HDo2) as [_ Hmore].
    specialize (Hmore ltac:(lia) Hnow).
    exists (new2 ++ newk). rewrite Hw'.
    split; [rewrite Htr2, Htr; now rewrite app_assoc |].
    rewrite Htr2, reads_of_app in Hmore.
    rewrite reads_of_app, sleeps_of_app, Hr, Hs. lia.
  - intros msg Hcase.
    rewrite (Do_step s (fuel - k) ctx' b' runID None wk Hnow) in HW.
    rewrite (waitProbe_status s runID None wk run Hread') in HW. cbv zeta in HW.
    assert (Hres : result = (WaitReturned (Failed msg), after_probe s runID run wk)).
    { rewrite HW.
      destruct Hcase as [[Hst ->] | [[[Hst | Hst] ->] | [Hst ->]]];
        rewrite Hst; reflexivity. }
    rewrite Hres. cbn [fst snd].
    split; [reflexivity | split; [| split]].
    + exists (now wk), (took (Runs_Read s runID (gateway wk))), newk.
      split; [| split; [exact Hr | split; [exact Hs | reflexivity]]].
      unfold after_probe, after_read, log_Printf, perform. cbn [snd trace].
      rewrite Htr. reflexivity.
    + unfold after_probe, after_read, log_Printf, perform. cbn [snd gateway].
      rewrite Hg. symmetry. apply after_reads_S.
    + destruct Hcase as [[_ ->] | [[_ ->] | [_ ->]]];
        repeat split; try discriminate; intros status; discriminate.
Qed.

Lemma wait_terminal_and_retry_witness :
  fst (WaitForPolicyDecision client_discarded_later 5 None options_wait world0)
  = WaitReturned (Failed "run was discarded").
Proof.
  apply (wait_terminal_and_retry client_discarded_later 5 None options_wait world0
           1 200000000
           (tfe.Run.Build "run-abc123" tfe.RunDiscarded None None)).
  - intros i Hi. assert (i = 0%nat) as -> by lia.
    split; [eexists; split; reflexivity | vm_compute; discriminate].
  - reflexivity.
  - vm_compute. reflexivity.
  - intros H. vm_compute in H. discriminate.
  - reflexivity.
  - lia.
  - left. split; reflexivity.
Defined.

(** *** Retrieval of an evaluation *)

Lemma find_policy_stage_first (before after : list tfe.TaskStage.t)
    (policyStage : tfe.TaskStage.t) :
  Forall (fun stage => tfe.TaskStage.Stage stage <> tfe.PrePlan
                       /\ tfe.TaskStage.Stage stage <> tfe.PostPlan) before ->
  tfe.TaskStage.Stage policyStage = tfe.PrePlan
  \/ tfe.TaskStage.Stage policyStage = tfe.PostPlan ->
  Retrieval.find_policy_stage (before ++ policyStage :: after) = Some policyStage.
Proof.
  intros Hbefore Hstage. induction Hbefore as [|stage before [H1 H2] _ IH].
  - cbn [app Retrieval.find_policy_stage].
    destruct Hstage as [-> | ->]; reflexivity.
  - cbn [app Retrieval.find_policy_stage].
    apply String.eqb_neq in H1, H2. rewrite H1, H2. exact IH.
Qed.

Lemma find_policy_stage_none (items : list tfe.TaskStage.t) :
  Forall (fun stage => tfe.TaskStage.Stage stage <> tfe.PrePlan
                       /\ tfe.TaskStage.Stage stage <> tfe.PostPlan) items ->
  Retrieval.find_policy_stage items = None.
Proof.
  induction 1 as [|stage items [H1 H2] _ IH]; [reflexivity|].
  cbn [Retrieval.find_policy_stage].
  apply String.eqb_neq in H1, H2. now rewrite H1, H2.
Qed.

(** X25: the modern API comes first.  When the task stages of the run are
    listed and the list is not empty, [GetPolicyEvaluation] reads the
    evaluation of the first stage of the list that is a pre-plan or a
    post-plan stage, whatever follows it; the legacy policy check is not
    read.  When the evaluation read carries its result count, the modern
    mapping of that stage is returned; when its [ResultCount] is the nil
    pointer, the dereference panics, after the three calls. *)
Theorem GetPolicyEvaluation_modern
    {G : Type} (s : Retrieval.Client G) (options : GetPolicyEvaluationOptions.t)
    (st : Retrieval.State G) (rr : Retrieval.RunRead) (g1 g2 g3 : G)
    (before after : list tfe.TaskStage.t) (policyStage : tfe.TaskStage.t)
    (policyEval : Retrieval.PolicyEvaluationRead) :
  let runID := GetPolicyEvaluationOptions.RunID options in
  let run := Retrieval.run rr in
  Retrieval.Runs_ReadWithOptions s runID (Retrieval.gateway st) = (Ok rr, g1) ->
  Retrieval.TaskStages_List s (tfe.Run.ID run) g1
  = (Ok (before ++ policyStage :: after), g2) ->
  Forall (fun stage => tfe.TaskStage.Stage stage <> tfe.PrePlan
                       /\ tfe.TaskStage.Stage stage <> tfe.PostPlan) before ->
  tfe.TaskStage.Stage policyStage = tfe.PrePlan
  \/ tfe.TaskStage.Stage policyStage = tfe.PostPlan ->
  Retrieval.PolicyEvaluations_Read s (tfe.TaskStage.ID policyStage) g2
  = (Ok policyEval, g3) ->
  Retrieval.GetPolicyEvaluation s options st
  = (match Retrieval.ResultCount policyEval with
     | Some rc =>
         Retrieval.Returns
           (Ok (buildFromTaskStage run policyStage
                  (tfe.PolicyEvaluation.Build (Retrieval.Status policyEval) rc
                     (Retrieval.PolicySetOutcomes policyEval))))
     | None => Retrieval.Panics
     end,
     Retrieval.MkState g3
       (Retrieval.trace st
        ++ [ Retrieval.EvCall (Retrieval.CallRunsReadWithOptions runID);
             Retrieval.EvCall (Retrieval.CallTaskStagesList (tfe.Run.ID run));
             Retrieval.EvCall
               (Retrieval.CallPolicyEvaluationsRead (tfe.TaskStage.ID policyStage)) ])).
Proof.
  intros runID run Hread Hlist Hbefore Hstage Heval.
  unfold Retrieval.GetPolicyEvaluation, Retrieval.call. fold runID.
  rewrite Hread. cbn [Retrieval.gateway Retrieval.trace]. fold run. rewrite Hlist.
  assert (Hne : exists item items, before ++ policyStage :: after = item :: items).
  { destruct before; cbn; eauto. }
  destruct Hne as (item & items & Hne). rewrite Hne.
  unfold Retrieval.getPolicyFromTaskStages. rewrite <- Hne.
  rewrite (find_policy_stage_first before after policyStage Hbefore Hstage).
  unfold Retrieval.call. cbn [Retrieval.gateway Retrieval.trace]. rewrite Heval.
  rewrite <- !app_assoc. unfold Retrieval.deref.
  destruct (Retrieval.ResultCount policyEval); reflexivity.
Qed.

Lemma GetPolicyEvaluation_modern_witness :
  fst (Retrieval.GetPolicyEvaluation
         (Retrieval.scripted read_abc123 (Ok stages_abc123) eval_described
            (Ok check_equivalent))
         options_show Retrieval.state0)
  = Retrieval.Returns (Ok (buildFromTaskStage run_abc123 stage_abc123 eval_described))
  /\ fst (Retrieval.GetPolicyEvaluation
            (Retrieval.scripted_read read_abc123 (Ok stages_abc123)
               eval_without_count (Ok check_equivalent))
            options_show Retrieval.state0)
     = Retrieval.Panics.
Proof.
  split.
  - rewrite (GetPolicyEvaluation_modern
               (Retrieval.scripted read_abc123 (Ok stages_abc123) eval_described
                  (Ok check_equivalent))
               options_show Retrieval.state0 read_abc123 tt tt tt
               [tfe.TaskStage.Build "ts-apply1" "pre_apply" "pending"]
               [tfe.TaskStage.Build "ts-plan0" tfe.PrePlan "passed"]
               stage_abc123 (Retrieval.received eval_described) eq_refl eq_refl).
    + reflexivity.
    + repeat constructor; discriminate.
    + right. reflexivity.
    + reflexivity.
  - rewrite (GetPolicyEvaluation_modern
               (Retrieval.scripted_read read_abc123 (Ok stages_abc123)
                  eval_without_count (Ok check_equivalent))
               options_show Retrieval.state0 read_abc123 tt tt tt
               [tfe.TaskStage.Build "ts-apply1" "pre_apply" "pending"]
               [tfe.TaskStage.Build "ts-plan0" tfe.PrePlan "passed"]
               stage_abc123 eval_without_count eq_refl eq_refl).
    + reflexivity.
    + repeat constructor; discriminate.
    + right. reflexivity.
    + reflexivity.
Defined.

(** X26: when the run has task stages but none of them is a pre-plan or a
    post-plan stage, [getPolicyFromTaskStages] dereferences the nil stage:
    [GetPolicyEvaluation] panics after the listing, without reading an
    evaluation and without falling back to the legacy check. *)
Theorem GetPolicyEvaluation_no_policy_stage
    {G : Type} (s : Retrieval.Client G) (options : GetPolicyEvaluationOptions.t)
    (st : Retrieval.State G) (rr : Retrieval.RunRead) (g1 g2 : G)
    (item : tfe.TaskStage.t) (items : list tfe.TaskStage.t) :
  let runID := GetPolicyEvaluationOptions.RunID options in
  let run := Retrieval.run rr in
  Retrieval.Runs_ReadWithOptions s runID (Retrieval.gateway st) = (Ok rr, g1) ->
  Retrieval.TaskStages_List s (tfe.Run.ID run) g1 = (Ok (item :: items), g2) ->
  Forall (fun stage => tfe.TaskStage.Stage stage <> tfe.PrePlan
                       /\ tfe.TaskStage.Stage stage <> tfe.PostPlan) (item :: items) ->
  Retrieval.GetPolicyEvaluation s options st
  = (Retrieval.Panics,
     Retrieval.MkState g2
       (Retrieval.trace st
        ++ [ Retrieval.EvCall (Retrieval.CallRunsReadWithOptions runID);
             Retrieval.EvCall (Retrieval.CallTaskStagesList (tfe.Run.ID run)) ])).
Proof.
  intros runID run Hread Hlist Hnone.
  unfold Retrieval.GetPolicyEvaluation, Retrieval.call. fold runID.
  rewrite Hread. cbn [Retrieval.gateway Retrieval.trace]. fold run. rewrite Hlist.
  unfold Retrieval.getPolicyFromTaskStages.
  rewrite (find_policy_stage_none (item :: items) Hnone).
  rewrite <- !app_assoc. reflexivity.
Qed.

Lemma GetPolicyEvaluation_no_policy_stage_witness :
  fst (Retrieval.GetPolicyEvaluation
         (Retrieval.scripted read_abc123
            (Ok [tfe.TaskStage.Build "ts-apply1" "pre_apply" "pending"])
            eval_described (Ok check_equivalent))
         options_show Retrieval.state0)
  = Retrieval.Panics.
Proof.
  rewrite (GetPolicyEvaluation_no_policy_stage
             (Retrieval.scripted read_abc123
                (Ok [tfe.TaskStage.Build "ts-apply1" "pre_apply" "pending"])
                eval_described (Ok check_equivalent))
             options_show Retrieval.state0 read_abc123 tt tt
             (tfe.TaskStage.Build "ts-apply1" "pre_apply" "pending") []
             eq_refl eq_refl).
  - reflexivity.
  - repeat constructor; discriminate.
Defined.

(** X27: the legacy API is the fallback.  When the listing of the task
    stages fails, or gives no stage, [GetPolicyEvaluation] logs the
    fallback, reads the policy check of the run and returns its legacy
    mapping; an error of the listing is dropped, not reported, and no
    evaluation of a stage is read. *)
Theorem GetPolicyEvaluation_legacy
    {G : Type} (s : Retrieval.Client G) (options : GetPolicyEvaluationOptions.t)
    (st : Retrieval.State G) (rr : Retrieval.RunRead) (g1 g2 g3 : G)
    (listing : outcome (list tfe.TaskStage.t)) (check : tfe.PolicyCheck.t) :
  let runID := GetPolicyEvaluationOptions.RunID options in
  let run := Retrieval.run rr in
  Retrieval.Runs_ReadWithOptions s runID (Retrieval.gateway st) = (Ok rr, g1) ->
  Retrieval.TaskStages_List s (tfe.Run.ID run) g1 = (listing, g2) ->
  listing = Ok [] \/ (exists err, listing = Failed err) ->
  Retrieval.PolicyChecks_Read s (Retrieval.PolicyCheckID rr) g2 = (Ok check, g3) ->
  Retrieval.GetPolicyEvaluation s options st
  = (Retrieval.Returns (Ok (getPolicyFromPolicyCheck run check)),
     Retrieval.MkState g3
       (Retrieval.trace st
        ++ [ Retrieval.EvCall (Retrieval.CallRunsReadWithOptions runID);
             Retrieval.EvCall (Retrieval.CallTaskStagesList (tfe.Run.ID run));
             Retrieval.EvLog
               "[DEBUG] Task stages not available, falling back to legacy policy-checks API";
             Retrieval.EvCall
               (Retrieval.CallPolicyChecksRead (Retrieval.PolicyCheckID rr)) ])).
Proof.
  intros runID run Hread Hlist Hlisting Hcheck.
  unfold Retrieval.GetPolicyEvaluation, Retrieval.call. fold runID.
  rewrite Hread. cbn [Retrieval.gateway Retrieval.trace]. fold run. rewrite Hlist.
  assert (Hfall :
    Retrieval.fallBackToPolicyCheck s rr
      (Retrieval.MkState g2
         ((Retrieval.trace st
           ++ [Retrieval.EvCall (Retrieval.CallRunsReadWithOptions runID)])
          ++ [Retrieval.EvCall (Retrieval.CallTaskStagesList (tfe.Run.ID run))]))
    = (Retrieval.Returns (Ok (getPolicyFromPolicyCheck run check)),
       Retrieval.MkState g3
         (Retrieval.trace st
          ++ [ Retrieval.EvCall (Retrieval.CallRunsReadWithOptions runID);
               Retrieval.EvCall (Retrieval.CallTaskStagesList (tfe.Run.ID run));
               Retrieval.EvLog
                 "[DEBUG] Task stages not available, falling back to legacy policy-checks API";
               Retrieval.EvCall
                 (Retrieval.CallPolicyChecksRead (Retrieval.PolicyCheckID rr)) ]))).
  { unfold Retrieval.fallBackToPolicyCheck, Retrieval.call, Retrieval.log_Printf.
    cbn [Retrieval.gateway Retrieval.trace]. rewrite Hcheck.
    rewrite <- !app_assoc. reflexivity. }
  destruct Hlisting as [-> | [err ->]]; exact Hfall.
Qed.

Lemma GetPolicyEvaluation_legacy_witness :
  fst (Retrieval.GetPolicyEvaluation
         (Retrieval.scripted read_abc123 (Failed "404 Not Found") eval_described
            (Ok check_equivalent))
         options_show Retrieval.state0)
  = Retrieval.Returns (Ok (getPolicyFromPolicyCheck run_abc123 check_equivalent)).
Proof.
  rewrite (GetPolicyEvaluation_legacy
             (Retrieval.scripted read_abc123 (Failed "404 Not Found") eval_described
                (Ok check_equivalent))
             options_show Retrieval.state0 read_abc123 tt tt tt
             (Failed "404 Not Found") check_equivalent eq_refl eq_refl).
  - reflexivity.
  - right. eexists. reflexivity.
  - reflexivity.
Defined.
(** X28: whatever the gateway answers, [GetPolicyEvaluation] starts with the
    read of the run under the identifier of the options as given (which it
    does not validate), issues at most three calls, and reads either the
    evaluation of a stage or the legacy policy check, never both. *)
Theorem GetPolicyEvaluation_call_shape
    {G : Type} (s : Retrieval.Client G) (options : GetPolicyEvaluationOptions.t)
    (st : Retrieval.State G) :
  let runID := GetPolicyEvaluationOptions.RunID options in
  exists new,
    Retrieval.trace (snd (Retrieval.GetPolicyEvaluation s options st))
    = Retrieval.trace st ++ new
    /\ (Retrieval.calls_of new = [Retrieval.CallRunsReadWithOptions runID]
        \/ (exists id,
              Retrieval.calls_of new
              = [Retrieval.CallRunsReadWithOptions runID; Retrieval.CallTaskStagesList id])
        \/ (exists id stageID,
              Retrieval.calls_of new
              = [Retrieval.CallRunsReadWithOptions runID; Retrieval.CallTaskStagesList id;
                 Retrieval.CallPolicyEvaluationsRead stageID])
        \/ (exists id checkID,
              Retrieval.calls_of new
              = [Retrieval.CallRunsReadWithOptions runID; Retrieval.CallTaskStagesList id;
                 Retrieval.CallPolicyChecksRead checkID])).
Proof.
  intros runID.
  unfold Retrieval.GetPolicyEvaluation, Retrieval.call. fold runID.
  destruct (Retrieval.Runs_ReadWithOptions s runID (Retrieval.gateway st))
    as [[rr|err] g1]; cbn [Retrieval.gateway Retrieval.trace].
  2:{ eexists. split; [reflexivity|]. left. reflexivity. }
  destruct (Retrieval.TaskStages_List s (tfe.Run.ID (Retrieval.run rr)) g1)
    as [[[|item items]|err] g2].
  - unfold Retrieval.fallBackToPolicyCheck, Retrieval.call, Retrieval.log_Printf.
    cbn [Retrieval.gateway Retrieval.trace].
    destruct (Retrieval.PolicyChecks_Read s (Retrieval.PolicyCheckID rr) g2)
      as [[check|err] g3]; cbn [snd Retrieval.trace]; rewrite <- !app_assoc;
      (eexists; split; [reflexivity|]); right; right; right;
      eexists; eexists; reflexivity.
  - unfold Retrieval.getPolicyFromTaskStages.
    destruct (Retrieval.find_policy_stage (item :: items)) as [policyStage|].
    + unfold Retrieval.call. cbn [Retrieval.gateway Retrieval.trace].
      destruct (Retrieval.PolicyEvaluations_Read s (tfe.TaskStage.ID policyStage) g2)
        as [[policyEval|err] g3]; [destruct (Retrieval.deref policyEval) |];
        cbn [snd Retrieval.trace]; rewrite <- !app_assoc;
        (eexists; split; [reflexivity|]); right; right; left;
        eexists; eexists; reflexivity.
    + cbn [snd Retrieval.trace]. rewrite <- !app_assoc.
      eexists. split; [reflexivity|]. right. left. eexists. reflexivity.
  - unfold Retrieval.fallBackToPolicyCheck, Retrieval.call, Retrieval.log_Printf.
    cbn [Retrieval.gateway Retrieval.trace].
    destruct (Retrieval.PolicyChecks_Read s (Retrieval.PolicyCheckID rr) g2)
      as [[check|err'] g3]; cbn [snd Retrieval.trace]; rewrite <- !app_assoc;
      (eexists; split; [reflexivity|]); right; right; right;
      eexists; eexists; reflexivity.
Qed.

(** X29: the errors of [GetPolicyEvaluation].  An error it returns is the
    error of the read of the run behind [error reading run: ], the error of
    the read of the policy check behind [error reading policy check: ], or
    the error of the read of a stage's evaluation as it is, unwrapped; an
    error of the listing of the task stages is never returned. *)
Theorem GetPolicyEvaluation_errors
    {G : Type} (s : Retrieval.Client G) (options : GetPolicyEvaluationOptions.t)
    (st st' : Retrieval.State G) (msg : string) :
  Retrieval.GetPolicyEvaluation s options st = (Retrieval.Returns (Failed msg), st') ->
  (exists err g,
     Retrieval.Runs_ReadWithOptions s (GetPolicyEvaluationOptions.RunID options)
       (Retrieval.gateway st) = (Failed err, g)
     /\ msg = ("error reading run: " ++ err)%string)
  \/ (exists checkID err g g',
        Retrieval.PolicyChecks_Read s checkID g = (Failed err, g')
        /\ msg = ("error reading policy check: " ++ err)%string)
  \/ (exists stageID g g',
        Retrieval.PolicyEvaluations_Read s stageID g = (Failed msg, g')).
Proof.
  unfold Retrieval.GetPolicyEvaluation, Retrieval.call.
  destruct (Retrieval.Runs_ReadWithOptions s (GetPolicyEvaluationOptions.RunID options)
              (Retrieval.gateway st)) as [[rr|err] g1] eqn:Hread;
    cbn [Retrieval.gateway Retrieval.trace].
  2:{ intros H. injection H as Hmsg _. left. exists err, g1. now split. }
  assert (Hfall : forall st1,
    Retrieval.fallBackToPolicyCheck s rr st1 = (Retrieval.Returns (Failed msg), st') ->
    exists checkID err g g',
      Retrieval.PolicyChecks_Read s checkID g = (Failed err, g')
      /\ msg = ("error reading policy check: " ++ err)%string).
  { intros st1. unfold Retrieval.fallBackToPolicyCheck, Retrieval.call, Retrieval.log_Printf.
    cbn [Retrieval.gateway Retrieval.trace].
    destruct (Retrieval.PolicyChecks_Read s (Retrieval.PolicyCheckID rr)
                (Retrieval.gateway st1)) as [[check|err] g3] eqn:Hcheck;
      [discriminate|].
    intros H. injection H as Hmsg _. eauto 8. }
  destruct (Retrieval.TaskStages_List s (tfe.Run.ID (Retrieval.run rr)) g1)
    as [[[|item items]|err] g2].
  - intros H. right. left. exact (Hfall _ H).
  - unfold Retrieval.getPolicyFromTaskStages.
    destruct (Retrieval.find_policy_stage (item :: items)) as [policyStage|];
      [|discriminate].
    unfold Retrieval.call. cbn [Retrieval.gateway Retrieval.trace].
    destruct (Retrieval.PolicyEvaluations_Read s (tfe.TaskStage.ID policyStage) g2)
      as [[policyEval|err] g3] eqn:Heval;
      [destruct (Retrieval.deref policyEval); discriminate |].
    intros H. injection H as Hmsg _. subst err. right. right. eauto.
  - intros H. right. left. exact (Hfall _ H).
Qed.

Lemma GetPolicyEvaluation_errors_witness :
  let s := Retrieval.scripted read_abc123 (Failed "404 Not Found") eval_described
             (Failed "503 Service Unavailable") in
  (exists err g,
     Retrieval.Runs_ReadWithOptions s (GetPolicyEvaluationOptions.RunID options_show)
       (Retrieval.gateway Retrieval.state0) = (Failed err, g)
     /\ "error reading policy check: 503 Service Unavailable"
        = ("error reading run: " ++ err)%string)
  \/ (exists checkID err g g',
        Retrieval.PolicyChecks_Read s checkID g = (Failed err, g')
        /\ "error reading policy check: 503 Service Unavailable"
           = ("error reading policy check: " ++ err)%string)
  \/ (exists stageID g g',
        Retrieval.PolicyEvaluations_Read s stageID g
        = (Failed "error reading policy check: 503 Service Unavailable", g')).
Proof.
  intros s.
  exact (GetPolicyEvaluation_errors s options_show Retrieval.state0 _ _ eq_refl).
Defined.
